(** * Library management back end: the user-side book controller

    A shallow embedding of the book controller of the library management
    system (search, catalogue details, reviews, ratings, issue history,
    library summary, review summary) together with the properties its
    specification states about it.

    Conventions of the embedding:
    - a Mongo collection is the list of its documents, in natural order;
      [findOne] is the first match, [countDocuments] the number of matches;
    - an [ObjectId] is a natural number;
    - a JavaScript number is an integer, [Infinity], [-Infinity] or [NaN]
      (module [Js]); fractional values, rounding and negative zero are not
      represented.  Dates are their [getTime()] value, in milliseconds;
    - a handler either answers with its data ([Ok]) or hands an exception to
      [next] ([Throw]); a handler that writes also returns the new store;
    - store calls are assumed to reach the database: the only store failures
      represented are those decided by the arguments of a call. *)

From Stdlib Require Import ZArith String List Bool Lia QArith.
Import ListNotations.
Local Open Scope Z_scope.

(** ** JavaScript numbers *)

Module Js.

Inductive Num : Type :=
| Fin (z : Z)
| PInf
| NInf
| NaN.

(** Truthiness of a number: [0] and [NaN] are falsy. *)
Definition truthy (n : Num) : bool :=
  match n with
  | Fin z => negb (z =? 0)
  | NaN => false
  | PInf | NInf => true
  end.

(** [a || d] on numbers. *)
Definition or (a d : Num) : Num := if truthy a then a else d.

(** [a - b]. *)
Definition sub (a b : Num) : Num :=
  match a, b with
  | NaN, _ | _, NaN => NaN
  | Fin x, Fin y => Fin (x - y)
  | PInf, PInf | NInf, NInf => NaN
  | PInf, _ => PInf
  | NInf, _ => NInf
  | Fin _, PInf => NInf
  | Fin _, NInf => PInf
  end.

Definition inf_of_sign (z : Z) : Num :=
  if z =? 0 then NaN else if 0 <? z then PInf else NInf.

Definition neg (a : Num) : Num :=
  match a with
  | Fin z => Fin (- z)
  | PInf => NInf
  | NInf => PInf
  | NaN => NaN
  end.

(** [a * b]. *)
Definition mul (a b : Num) : Num :=
  match a, b with
  | NaN, _ | _, NaN => NaN
  | Fin x, Fin y => Fin (x * y)
  | Fin x, PInf | PInf, Fin x => inf_of_sign x
  | Fin x, NInf | NInf, Fin x => neg (inf_of_sign x)
  | PInf, PInf | NInf, NInf => PInf
  | PInf, NInf | NInf, PInf => NInf
  end.

(** [Math.ceil(a / b)]: every division of the controller is wrapped in
    [Math.ceil], so the two are embedded as one operation.  On integers
    with [b <> 0] the quotient is rounded towards plus infinity. *)
Definition ceil_div (a b : Num) : Num :=
  match a, b with
  | NaN, _ | _, NaN => NaN
  | Fin x, Fin y => if y =? 0 then inf_of_sign x else Fin (- ((- x) / y))
  | Fin _, PInf | Fin _, NInf => Fin 0
  | PInf, Fin y => if 0 <=? y then PInf else NInf
  | NInf, Fin y => if 0 <=? y then NInf else PInf
  | PInf, PInf | PInf, NInf | NInf, PInf | NInf, NInf => NaN
  end.

(** [a > b]; every comparison with [NaN] is false. *)
Definition gt (a b : Num) : bool :=
  match a, b with
  | NaN, _ | _, NaN => false
  | Fin x, Fin y => y <? x
  | PInf, PInf => false
  | PInf, _ => true
  | NInf, _ => false
  | Fin _, NInf => true
  | Fin _, PInf => false
  end.

Definition of_nat (n : nat) : Num := Fin (Z.of_nat n).

End Js.

(** ** Exceptions and handler results *)

Inductive Message : Type :=
| BOOK_NOT_FOUND
| USER_NOT_FOUND
| REVIEW_ALREADY_EXIST
| RATING_ALREADY_EXIST
| BOOK_HISTORY_NOT_FOUND
| INVALID_PAGE_NUMBER
| ERROR_COUNTING_BOOKS
| ERROR_CREATING_BOOK_REVIEW
| ERROR_CREATING_BOOK_RATING
| ERROR_COUNTING_BOOK_HISTORY
| NO_RATINGS_FOUND
| NO_REVIEWS_FOUND.

Inductive Status : Type :=
| BAD_REQUEST
| NOT_FOUND
| INTERNAL_SERVER_ERROR.

(** What a handler can pass to [next]: an [HttpError] it threw itself, the
    [TypeError] of a property read on [null], the error of an aggregation
    stage the server refuses, or the [SyntaxError] of [new RegExp] on a
    malformed pattern. *)
Inductive Exception : Type :=
| HttpError (message : Message) (status : Status)
| TypeError
| MongoServerError
| SyntaxError.

Inductive Result (A : Type) : Type :=
| Ok (a : A)
| Throw (e : Exception).

Arguments Ok {A} a.
Arguments Throw {A} e.

Definition bind {A B : Type} (r : Result A) (k : A -> Result B) : Result B :=
  match r with
  | Ok a => k a
  | Throw e => Throw e
  end.

Notation "x <- r ;; k" := (bind r (fun x => k))
  (at level 61, r at next level, right associativity).

(** [xs.map(f)] for a callback that may throw: the first exception aborts. *)
Fixpoint mapM {A B : Type} (f : A -> Result B) (xs : list A) : Result (list B) :=
  match xs with
  | [] => Ok []
  | x :: xs' =>
      y <- f x ;;
      ys <- mapM f xs' ;;
      Ok (y :: ys)
  end.

(** ** The record store *)

Definition ObjectId : Type := nat.

Module User.
Record t : Type := mk {
  _id : ObjectId;
  email : string;
  firstname : string;
  lastname : string;
  paidAmount : Z;
  dueCharges : Z
}.
End User.

Module Book.
Record t : Type := mk {
  _id : ObjectId;
  bookID : Z;              (* business identifier *)
  name : string;
  author : string;
  quantityAvailable : Z;
  charges : Z;             (* per-day rate *)
  publishedDate : Z;
  deletedAt : option Z     (* [None] is [null]: not deleted *)
}.
End Book.

Module BookHistory.
(** Modelled from the spec: the BookHistory schema is not among the
    sources; it references a user and a book and carries the issue date,
    the optional submit date and the charges persisted at return time. *)
Record t : Type := mk {
  _id : ObjectId;
  userID : ObjectId;
  bookID : ObjectId;
  issueDate : Z;
  submitDate : option Z;   (* [None] is an active loan *)
  charges : Z
}.
End BookHistory.

Module BookReview.
Record t : Type := mk {
  _id : ObjectId;
  userID : ObjectId;
  bookID : ObjectId;
  review : string
}.
End BookReview.

Module BookRating.
Record t : Type := mk {
  _id : ObjectId;
  userID : ObjectId;
  bookID : ObjectId;
  rating : Z
}.
End BookRating.

Module BookGallery.
Record t : Type := mk {
  _id : ObjectId;
  bookID : ObjectId;
  imagePath : string;
  imageName : string
}.
End BookGallery.

Record Store : Type := mkStore {
  users : list User.t;
  books : list Book.t;
  bookhistories : list BookHistory.t;
  bookreviews : list BookReview.t;
  bookratings : list BookRating.t;
  bookgalleries : list BookGallery.t
}.

(** [Model.countDocuments(filter)]. *)
Definition countDocuments {A : Type} (filter : A -> bool) (docs : list A) : nat :=
  length (List.filter filter docs).

(** [User.findOne({ email })]. *)
Definition User_findOne (s : Store) (email : string) : option User.t :=
  find (fun u => String.eqb (User.email u) email) (users s).

(** [Book.findOne({ bookID })]: no condition on [deletedAt]. *)
Definition Book_findOne (s : Store) (bookID : Z) : option Book.t :=
  find (fun b => Book.bookID b =? bookID) (books s).

(** ** getBookIssueHistory *)

Definition MS_PER_DAY : Z := 1000 * 60 * 60 * 24.

(** A history row after [populate]: the book reference is replaced by the
    book document, or by [null] when no book has that [_id]. *)
Record PopulatedHistory : Type := mkPopulated {
  ph_issueDate : Z;
  ph_submitDate : option Z;
  ph_bookID : option Book.t
}.

Definition populate (s : Store) (h : BookHistory.t) : PopulatedHistory :=
  {| ph_issueDate := BookHistory.issueDate h;
     ph_submitDate := BookHistory.submitDate h;
     ph_bookID :=
       find (fun b => Nat.eqb (Book._id b) (BookHistory.bookID h)) (books s) |}.

Record FormattedHistory : Type := mkFormatted {
  issueDate : Z;
  submitDate : option Z;
  usedDays : option Js.Num;
  totalAmount : option Js.Num
}.

(** [usedDays || 0] for a [usedDays] that may be [null]. *)
Definition or_zero (n : option Js.Num) : Js.Num :=
  match n with
  | Some v => Js.or v (Js.Fin 0)
  | None => Js.Fin 0
  end.

(** The callback of [bookHistories.map]. *)
Definition formatHistory (history : PopulatedHistory) : Result FormattedHistory :=
  let issueDate := ph_issueDate history in
  let submitDate := ph_submitDate history in
  let usedDays :=
    match submitDate with
    | Some sd => Some (Js.ceil_div (Js.sub (Js.Fin sd) (Js.Fin issueDate))
                                   (Js.Fin MS_PER_DAY))
    | None => None
    end in
  totalAmount <-
    match submitDate with
    | Some _ =>
        match ph_bookID history with
        | Some book => Ok (Some (Js.mul (or_zero usedDays) (Js.Fin (Book.charges book))))
        | None => Throw TypeError
        end
    | None => Ok None
    end ;;
  Ok {| issueDate := issueDate;
        submitDate := submitDate;
        usedDays := usedDays;
        totalAmount := totalAmount |}.

Definition getBookIssueHistory (s : Store) (email : string)
  : Result (list FormattedHistory) :=
  match User_findOne s email with
  | None => Throw (HttpError USER_NOT_FOUND NOT_FOUND)
  | Some user =>
      let bookHistories :=
        map (populate s)
            (List.filter (fun h => Nat.eqb (BookHistory.userID h) (User._id user))
                         (bookhistories s)) in
      match bookHistories with
      | [] => Throw (HttpError BOOK_HISTORY_NOT_FOUND NOT_FOUND)
      | _ :: _ => mapM formatHistory bookHistories
      end
  end.

(** ** getLibrarySummary *)

Record LibrarySummary : Type := mkSummary {
  totalIssuedBooks : Z;
  totalSubmittedBooks : Z;
  totalNotSubmittedBooks : Z;
  totalPaidAmount : Z;
  totalDueCharges : Z
}.

(** [{ submitDate: { $exists: true, $ne: null } }]. *)
Definition submitted (h : BookHistory.t) : bool :=
  match BookHistory.submitDate h with
  | Some _ => true
  | None => false
  end.

Definition getLibrarySummary (s : Store) (email : string) : Result LibrarySummary :=
  match User_findOne s email with
  | None => Throw (HttpError USER_NOT_FOUND NOT_FOUND)
  | Some user =>
      let totalIssuedBooks :=
        countDocuments
          (fun h => Nat.eqb (BookHistory.userID h) (User._id user))
          (bookhistories s) in
      let totalSubmittedBooks :=
        countDocuments
          (fun h => Nat.eqb (BookHistory.userID h) (User._id user) && submitted h)
          (bookhistories s) in
      (* a count is never [undefined]: the ERROR_COUNTING_BOOK_HISTORY
         branch cannot be taken *)
      let totalNotSubmittedBooks :=
        Z.of_nat totalIssuedBooks - Z.of_nat totalSubmittedBooks in
      Ok {| totalIssuedBooks := Z.of_nat totalIssuedBooks;
            totalSubmittedBooks := Z.of_nat totalSubmittedBooks;
            totalNotSubmittedBooks := totalNotSubmittedBooks;
            totalPaidAmount := User.paidAmount user;
            totalDueCharges := User.dueCharges user |}
  end.

(** ** addBookReview and addBookRating *)

(** A fresh [ObjectId] for a collection. *)
Definition fresh_id {A : Type} (id : A -> ObjectId) (docs : list A) : ObjectId :=
  S (fold_right Nat.max 0%nat (map id docs)).

(** [BookReview.findOne({ userID, bookID })]. *)
Definition BookReview_findOne (s : Store) (userID bookID : ObjectId)
  : option BookReview.t :=
  find (fun r => Nat.eqb (BookReview.userID r) userID
                 && Nat.eqb (BookReview.bookID r) bookID)
       (bookreviews s).

(** [BookRating.findOne({ userID, bookID })]. *)
Definition BookRating_findOne (s : Store) (userID bookID : ObjectId)
  : option BookRating.t :=
  find (fun r => Nat.eqb (BookRating.userID r) userID
                 && Nat.eqb (BookRating.bookID r) bookID)
       (bookratings s).

(** [BookReview.create({ userID, bookID, review })]: resolves with the
    inserted document. *)
Definition BookReview_create (s : Store) (userID bookID : ObjectId) (review : string)
  : option BookReview.t * Store :=
  let doc := {| BookReview._id := fresh_id BookReview._id (bookreviews s);
                BookReview.userID := userID;
                BookReview.bookID := bookID;
                BookReview.review := review |} in
  (Some doc,
   {| users := users s;
      books := books s;
      bookhistories := bookhistories s;
      bookreviews := bookreviews s ++ [doc];
      bookratings := bookratings s;
      bookgalleries := bookgalleries s |}).

(** [BookRating.create({ userID, bookID, rating })]. *)
Definition BookRating_create (s : Store) (userID bookID : ObjectId) (rating : Z)
  : option BookRating.t * Store :=
  let doc := {| BookRating._id := fresh_id BookRating._id (bookratings s);
                BookRating.userID := userID;
                BookRating.bookID := bookID;
                BookRating.rating := rating |} in
  (Some doc,
   {| users := users s;
      books := books s;
      bookhistories := bookhistories s;
      bookreviews := bookreviews s;
      bookratings := bookratings s ++ [doc];
      bookgalleries := bookgalleries s |}).

Definition addBookReview (s : Store) (email : string) (bookID : Z) (review : string)
  : Result unit * Store :=
  match User_findOne s email with
  | None => (Throw (HttpError USER_NOT_FOUND NOT_FOUND), s)
  | Some user =>
      match Book_findOne s bookID with
      | None => (Throw (HttpError BOOK_NOT_FOUND NOT_FOUND), s)
      | Some book =>
          match BookReview_findOne s (User._id user) (Book._id book) with
          | Some _ => (Throw (HttpError REVIEW_ALREADY_EXIST BAD_REQUEST), s)
          | None =>
              let (newReview, s') :=
                BookReview_create s (User._id user) (Book._id book) review in
              match newReview with
              | None =>
                  (Throw (HttpError ERROR_CREATING_BOOK_REVIEW INTERNAL_SERVER_ERROR), s')
              | Some _ => (Ok tt, s')
              end
          end
      end
  end.

Definition addBookRating (s : Store) (email : string) (bookID : Z) (rating : Z)
  : Result unit * Store :=
  match User_findOne s email with
  | None => (Throw (HttpError USER_NOT_FOUND NOT_FOUND), s)
  | Some user =>
      match Book_findOne s bookID with
      | None => (Throw (HttpError BOOK_NOT_FOUND NOT_FOUND), s)
      | Some book =>
          match BookRating_findOne s (User._id user) (Book._id book) with
          | Some _ => (Throw (HttpError RATING_ALREADY_EXIST BAD_REQUEST), s)
          | None =>
              let (newRating, s') :=
                BookRating_create s (User._id user) (Book._id book) rating in
              match newRating with
              | None =>
                  (Throw (HttpError ERROR_CREATING_BOOK_RATING INTERNAL_SERVER_ERROR), s')
              | Some _ => (Ok tt, s')
              end
          end
      end
  end.

(** ** Pagination *)

(** A numeric query parameter: [None] when the parameter is absent,
    otherwise the value [Number] gives to it. *)
Definition QueryNumber : Type := option Js.Num.

(** [Number(p)]: [Number(undefined)] is [NaN]. *)
Definition Number_ (p : QueryNumber) : Js.Num :=
  match p with
  | Some n => n
  | None => Js.NaN
  end.

Record Pagination : Type := mkPagination {
  page : Js.Num;
  pageSize : Js.Num;
  totalPages : Js.Num
}.

(** The stages [{ $skip: skip }, { $limit: limit }] of an aggregation: the
    server refuses a [$skip] that is not a non-negative integer and a
    [$limit] that is not a positive integer. *)
Definition skip_limit {A : Type} (skip limit : Js.Num) (docs : list A)
  : Result (list A) :=
  match skip, limit with
  | Js.Fin sk, Js.Fin lim =>
      if (0 <=? sk) && (0 <? lim)
      then Ok (firstn (Z.to_nat lim) (skipn (Z.to_nat sk) docs))
      else Throw MongoServerError
  | _, _ => Throw MongoServerError
  end.

(** ** The aggregation pipelines: searchBooks and getAllBookDetails *)

(** [{ deletedAt: null }]. *)
Definition not_deleted (b : Book.t) : bool :=
  match Book.deletedAt b with
  | None => true
  | Some _ => false
  end.

(** The [$lookup] of the gallery rows of a book named ["coverImage"]. *)
Definition lookup_coverImage (s : Store) (b : Book.t) : list BookGallery.t :=
  List.filter
    (fun g => Nat.eqb (BookGallery.bookID g) (Book._id b)
              && String.eqb (BookGallery.imageName g) "coverImage")
    (bookgalleries s).

(** [$lookup] from [bookratings] on [bookID]. *)
Definition lookup_ratings (s : Store) (b : Book.t) : list BookRating.t :=
  List.filter (fun r => Nat.eqb (BookRating.bookID r) (Book._id b)) (bookratings s).

(** [$lookup] from [bookreviews] on [bookID]. *)
Definition lookup_reviews (s : Store) (b : Book.t) : list BookReview.t :=
  List.filter (fun r => Nat.eqb (BookReview.bookID r) (Book._id b)) (bookreviews s).

(** [$lookup] from [bookgalleries] on [bookID]. *)
Definition lookup_gallery (s : Store) (b : Book.t) : list BookGallery.t :=
  List.filter (fun g => Nat.eqb (BookGallery.bookID g) (Book._id b)) (bookgalleries s).

Definition sum (xs : list Z) : Z := fold_right Z.add 0 xs.

(** [{ $avg: xs }]: [null] on the empty array, otherwise the exact quotient
    of the sum by the number of values. *)
Definition avg (xs : list Z) : option Q :=
  match xs with
  | [] => None
  | _ :: _ => Some (Qmake (sum xs) (Pos.of_nat (length xs)))
  end.

(** [{ $ifNull: [v, d] }]. *)
Definition ifNull {A : Type} (v : option A) (d : A) : A :=
  match v with
  | Some x => x
  | None => d
  end.

Module SearchedBook.
Record t : Type := mk {
  _id : ObjectId;
  bookID : Z;
  name : string;
  author : string;
  stock : Z;
  rating : Q;
  reviewCount : nat;
  publishYear : Z;
  coverImage : list BookGallery.t
}.
End SearchedBook.

Module BookDetail.
Record t : Type := mk {
  bookID : Z;
  name : string;
  author : string;
  stock : Z;
  publishedDate : Z;
  coverImage : list BookGallery.t;
  gallery : list BookGallery.t;
  rating : option Q;       (* [None] is [null] *)
  reviews : list BookReview.t;
  reviewCount : nat
}.
End BookDetail.

(** One disjunct of the [$or] of the search query; the regular expression
    of the name disjunct is kept as its test on a subject. *)
Inductive OrClause : Type :=
| ByBookID (bookID : Z)
| ByName (name : string -> bool).

(** The search query: [deletedAt: null] and, when present, the [$or]. *)
Record SearchQuery : Type := mkSearchQuery {
  or_ : option (list OrClause)
}.

Record SearchRequest : Type := mkSearchRequest {
  q_name : option string;
  q_bookID : option Z;      (* the identifier the parameter spells; [None]
                               when it is absent or empty *)
  q_page : QueryNumber;
  q_pageSize : QueryNumber
}.

(** Truthiness of a string parameter: absent and empty are falsy. *)
Definition truthy_string (v : option string) : bool :=
  match v with
  | Some x => negb (String.eqb x "")
  | None => false
  end.

Definition is_some {A : Type} (v : option A) : bool :=
  match v with
  | Some _ => true
  | None => false
  end.

(** [Number(page) || 1]. *)
Definition search_pageNumber (req : SearchRequest) : Js.Num :=
  Js.or (Number_ (q_page req)) (Js.Fin 1).

(** [Number(pageSize) || 10]. *)
Definition search_limit (req : SearchRequest) : Js.Num :=
  Js.or (Number_ (q_pageSize req)) (Js.Fin 10).

(** [(pageNumber - 1) * limit]. *)
Definition search_skip (req : SearchRequest) : Js.Num :=
  Js.mul (Js.sub (search_pageNumber req) (Js.Fin 1)) (search_limit req).

Record SearchResponse : Type := mkSearchResponse {
  searchedBooks : list SearchedBook.t;
  pagination : Pagination
}.

Record BookDetailsResponse : Type := mkDetailsResponse {
  books_ : list BookDetail.t;
  totalBooks_ : nat
}.

Section Pipelines.

(** [new RegExp(p, 'i')]: [None] when the pattern [p] is malformed and the
    constructor throws a [SyntaxError], otherwise the test of the
    expression on a subject. *)
Variable RegExp : string -> option (string -> bool).

(** [{ $year: d }] of a date. *)
Variable year : Z -> Z.

(** The search query is built before anything is read from the store; the
    name disjunct constructs the regular expression. *)
Definition build_searchQuery (bookID : option Z) (name : option string)
  : Result SearchQuery :=
  if is_some bookID || truthy_string name
  then
    byName <- match name with
              | Some n =>
                  if String.eqb n "" then Ok []
                  else match RegExp n with
                       | Some re => Ok [ByName re]
                       | None => Throw SyntaxError
                       end
              | None => Ok []
              end ;;
    Ok {| or_ := Some ((match bookID with
                        | Some id => [ByBookID id]
                        | None => []
                        end)
                       ++ byName) |}
  else Ok {| or_ := None |}.

Definition match_clause (b : Book.t) (c : OrClause) : bool :=
  match c with
  | ByBookID id => Book.bookID b =? id
  | ByName re => re (Book.name b)
  end.

(** [{ $match: searchQuery }]. *)
Definition match_searchQuery (q : SearchQuery) (b : Book.t) : bool :=
  not_deleted b
  && match or_ q with
     | Some clauses => existsb (match_clause b) clauses
     | None => true
     end.

(** The lookups, [$addFields] and [$project] of [searchBooks] on one book. *)
Definition search_project (s : Store) (b : Book.t) : SearchedBook.t :=
  let coverImage := lookup_coverImage s b in
  let ratings := lookup_ratings s b in
  let reviews := lookup_reviews s b in
  let rating := avg (map BookRating.rating ratings) in
  let reviewCount := length reviews in
  let publishYear := year (Book.publishedDate b) in
  {| SearchedBook._id := Book._id b;
     SearchedBook.bookID := Book.bookID b;
     SearchedBook.name := Book.name b;
     SearchedBook.author := Book.author b;
     SearchedBook.stock := Book.quantityAvailable b;
     SearchedBook.rating := ifNull rating 0%Q;
     SearchedBook.reviewCount := reviewCount;
     SearchedBook.publishYear := publishYear;
     SearchedBook.coverImage := coverImage |}.

(** [Book.aggregate(searchPipeline)] of [searchBooks]. *)
Definition search_aggregate (s : Store) (q : SearchQuery) (skip limit : Js.Num)
  : Result (list SearchedBook.t) :=
  skip_limit skip limit
    (map (search_project s) (List.filter (match_searchQuery q) (books s))).

Definition searchBooks (s : Store) (req : SearchRequest) : Result SearchResponse :=
  let pageNumber := search_pageNumber req in
  let limit := search_limit req in
  let skip := search_skip req in
  searchQuery <- build_searchQuery (q_bookID req) (q_name req) ;;
  let totalBooks := countDocuments not_deleted (books s) in
  if Nat.eqb totalBooks 0 then
    Throw (HttpError ERROR_COUNTING_BOOKS INTERNAL_SERVER_ERROR)
  else if Js.gt pageNumber (Js.ceil_div (Js.of_nat totalBooks) limit) then
    Throw (HttpError INVALID_PAGE_NUMBER BAD_REQUEST)
  else
    searchedBooks <- search_aggregate s searchQuery skip limit ;;
    match searchedBooks with
    | [] => Throw (HttpError BOOK_NOT_FOUND NOT_FOUND)
    | _ :: _ =>
        Ok {| searchedBooks := searchedBooks;
              pagination :=
                {| page := pageNumber;
                   pageSize := limit;
                   totalPages := Js.ceil_div (Js.of_nat totalBooks) limit |} |}
    end.

End Pipelines.

(** The lookups, [$addFields] and [$project] of [getAllBookDetails] on one
    book: [rating] is projected as it is. *)
Definition details_project (s : Store) (b : Book.t) : BookDetail.t :=
  let coverImage := lookup_coverImage s b in
  let ratings := lookup_ratings s b in
  let reviews := lookup_reviews s b in
  let gallery := lookup_gallery s b in
  let rating := avg (map BookRating.rating ratings) in
  let reviewCount := length reviews in
  {| BookDetail.bookID := Book.bookID b;
     BookDetail.name := Book.name b;
     BookDetail.author := Book.author b;
     BookDetail.stock := Book.quantityAvailable b;
     BookDetail.publishedDate := Book.publishedDate b;
     BookDetail.coverImage := coverImage;
     BookDetail.gallery := gallery;
     BookDetail.rating := rating;
     BookDetail.reviews := reviews;
     BookDetail.reviewCount := reviewCount |}.

Definition getAllBookDetails (s : Store) : Result BookDetailsResponse :=
  let totalBooks := countDocuments not_deleted (books s) in
  if Nat.eqb totalBooks 0 then
    Throw (HttpError ERROR_COUNTING_BOOKS INTERNAL_SERVER_ERROR)
  else
    let books := map (details_project s) (List.filter not_deleted (books s)) in
    match books with
    | [] => Throw (HttpError BOOK_NOT_FOUND NOT_FOUND)
    | _ :: _ => Ok {| books_ := books; totalBooks_ := totalBooks |}
    end.

(** ** getBookReviewsSummary *)

(** What [getReviewService.getReviews] resolves with when it is not [null]:
    the handler reads its [length] and its [bookReviews]. *)
Record ReviewsPage : Type := mkReviewsPage {
  length_ : nat;
  bookReviews : list BookReview.t
}.

Record ReviewsResponse : Type := mkReviewsResponse {
  reviews : list BookReview.t;
  reviews_pagination : Pagination
}.

(** [Number(p)] for a parameter [p] destructured with the default [d]. *)
Definition Number_default (p : QueryNumber) (d : Z) : Js.Num :=
  match p with
  | Some n => n
  | None => Js.Fin d
  end.

Definition reviews_pageNumber (page : QueryNumber) : Js.Num := Number_default page 1.

Definition reviews_limit (pageSize : QueryNumber) : Js.Num := Number_default pageSize 10.

Definition reviews_skip (page pageSize : QueryNumber) : Js.Num :=
  Js.mul (Js.sub (reviews_pageNumber page) (Js.Fin 1)) (reviews_limit pageSize).

Section ReviewsSummary.

(** The two calls of [getReviewService] the handler awaits; the code of the
    service is not among the sources, so the handler is written over them. *)
Variable getReviewsCount : Z -> nat.
Variable getReviews : Z -> Js.Num -> Js.Num -> option ReviewsPage.

Definition getBookReviewsSummary (bookID : Z) (page pageSize : QueryNumber)
  : Result ReviewsResponse :=
  let pageNumber := reviews_pageNumber page in
  let limit := reviews_limit pageSize in
  let skip := reviews_skip page pageSize in
  let totalReviews := getReviewsCount bookID in
  let totalPages := Js.ceil_div (Js.of_nat totalReviews) limit in
  if Js.gt pageNumber totalPages then
    Throw (HttpError INVALID_PAGE_NUMBER BAD_REQUEST)
  else
    let reviews := getReviews bookID skip limit in
    match reviews with
    | None => Throw (HttpError NO_REVIEWS_FOUND NOT_FOUND)
    | Some r =>
        if Nat.eqb (length_ r) 0 then Throw (HttpError NO_REVIEWS_FOUND NOT_FOUND)
        else
          Ok {| reviews := bookReviews r;
                reviews_pagination :=
                  {| page := pageNumber;
                     pageSize := limit;
                     totalPages := totalPages |} |}
    end.

End ReviewsSummary.

(** The reviews of the book with a business identifier, none when no book
    has it. *)
Definition reviews_of (s : Store) (bookID : Z) : list BookReview.t :=
  match Book_findOne s bookID with
  | Some book => lookup_reviews s book
  | None => []
  end.

(** A number of rows: an integer that is not negative, otherwise none. *)
Definition rows (n : Js.Num) : nat :=
  match n with
  | Js.Fin z => Z.to_nat z
  | _ => 0%nat
  end.

(** Modelled from the spec: [getReviewService.getReviewsCount] is not among
    the sources; it is the total count of the reviews of the book. *)
Definition getReviewsCount (s : Store) (bookID : Z) : nat :=
  length (reviews_of s bookID).

(** The page slice: at most [limit] reviews of the book after the first
    [skip]. *)
Definition reviews_slice (s : Store) (bookID : Z) (skip limit : Js.Num)
  : list BookReview.t :=
  firstn (rows limit) (skipn (rows skip) (reviews_of s bookID)).

(** Modelled from the spec: [getReviewService.getReviews] is not among the
    sources; it fetches the page slice of the reviews of the book. *)
Definition getReviews (s : Store) (bookID : Z) (skip limit : Js.Num)
  : option ReviewsPage :=
  let slice := reviews_slice s bookID skip limit in
  Some {| length_ := length slice; bookReviews := slice |}.

(** ** Vocabulary of the statements *)

(** The number of books of the whole catalogue that are not deleted. *)
Definition catalog_size (s : Store) : nat := countDocuments not_deleted (books s).

(** The number of pages of the whole catalogue at the page size of a
    request: [Math.ceil(totalBooks / limit)]. *)
Definition catalog_pages (s : Store) (req : SearchRequest) : Js.Num :=
  Js.ceil_div (Js.of_nat (catalog_size s)) (search_limit req).

(** A search request with the filters of [req] replaced. *)
Definition with_filters (name : option string) (bookID : option Z) (req : SearchRequest)
  : SearchRequest :=
  {| q_name := name;
     q_bookID := bookID;
     q_page := q_page req;
     q_pageSize := q_pageSize req |}.

(** A review, or a rating, of a book by a user is on record. *)
Definition reviewed (s : Store) (user : User.t) (book : Book.t) : Prop :=
  exists r, In r (bookreviews s)
            /\ BookReview.userID r = User._id user
            /\ BookReview.bookID r = Book._id book.

Definition rated (s : Store) (user : User.t) (book : Book.t) : Prop :=
  exists r, In r (bookratings s)
            /\ BookRating.userID r = User._id user
            /\ BookRating.bookID r = Book._id book.

(** The ratings of a book, as numbers. *)
Definition ratings_of (s : Store) (b : Book.t) : list Z :=
  map BookRating.rating (lookup_ratings s b).

(** The history rows of a user, as [BookHistory.find({ userID })] reads them. *)
Definition histories_of (s : Store) (user : User.t) : list BookHistory.t :=
  List.filter (fun h => Nat.eqb (BookHistory.userID h) (User._id user))
              (bookhistories s).

(** The book a history row refers to, if the catalogue still holds it. *)
Definition book_of (s : Store) (h : BookHistory.t) : option Book.t :=
  find (fun b => Nat.eqb (Book._id b) (BookHistory.bookID h)) (books s).

(** What the issue history shows for a row: nothing but the issue date for
    an active loan; for a returned book the days and the amount recomputed
    from the two dates and the rate of the book. *)
Definition shown_for (s : Store) (h : BookHistory.t) (e : FormattedHistory) : Prop :=
  issueDate e = BookHistory.issueDate h
  /\ match BookHistory.submitDate h with
     | None =>
         submitDate e = None /\ usedDays e = None /\ totalAmount e = None
     | Some sd =>
         submitDate e = Some sd
         /\ exists (book : Book.t) (d : Z),
              book_of s h = Some book
              /\ 86400000 * (d - 1) < sd - BookHistory.issueDate h <= 86400000 * d
              /\ usedDays e = Some (Js.Fin d)
              /\ totalAmount e = Some (Js.Fin (d * Book.charges book))
     end.

(** The store in which every history row carries the persisted charges
    [f] gives it, everything else unchanged. *)
Definition with_charges (f : BookHistory.t -> Z) (s : Store) : Store :=
  {| users := users s;
     books := books s;
     bookhistories :=
       map (fun h => {| BookHistory._id := BookHistory._id h;
                         BookHistory.userID := BookHistory.userID h;
                         BookHistory.bookID := BookHistory.bookID h;
                         BookHistory.issueDate := BookHistory.issueDate h;
                         BookHistory.submitDate := BookHistory.submitDate h;
                         BookHistory.charges := f h |})
           (bookhistories s);
     bookreviews := bookreviews s;
     bookratings := bookratings s;
     bookgalleries := bookgalleries s |}.

Definition active (h : BookHistory.t) : bool := negb (submitted h).

(** ** A small library, used to run the handlers *)

Module Sample.

Definition DAY : Z := 86400000.

Definition alice : User.t :=
  {| User._id := 1%nat; User.email := "alice@example.com";
     User.firstname := "Alice"; User.lastname := "Ames";
     User.paidAmount := 40; User.dueCharges := 15 |}.

Definition bob : User.t :=
  {| User._id := 2%nat; User.email := "bob@example.com";
     User.firstname := "Bob"; User.lastname := "Birch";
     User.paidAmount := 0; User.dueCharges := 0 |}.

Definition dune : Book.t :=
  {| Book._id := 1%nat; Book.bookID := 101; Book.name := "Dune";
     Book.author := "Herbert"; Book.quantityAvailable := 2;
     Book.charges := 5; Book.publishedDate := 0; Book.deletedAt := None |}.

(** A soft-deleted book. *)
Definition emma : Book.t :=
  {| Book._id := 2%nat; Book.bookID := 102; Book.name := "Emma";
     Book.author := "Austen"; Book.quantityAvailable := 1;
     Book.charges := 3; Book.publishedDate := 0;
     Book.deletedAt := Some (400 * DAY) |}.

(** A book nobody has rated. *)
Definition ulysses : Book.t :=
  {| Book._id := 3%nat; Book.bookID := 103; Book.name := "Ulysses";
     Book.author := "Joyce"; Book.quantityAvailable := 4;
     Book.charges := 2; Book.publishedDate := 0; Book.deletedAt := None |}.

Definition returned : BookHistory.t :=
  {| BookHistory._id := 1%nat; BookHistory.userID := 1%nat; BookHistory.bookID := 1%nat;
     BookHistory.issueDate := 0; BookHistory.submitDate := Some (3 * DAY);
     BookHistory.charges := 99 |}.

Definition on_loan : BookHistory.t :=
  {| BookHistory._id := 2%nat; BookHistory.userID := 1%nat; BookHistory.bookID := 3%nat;
     BookHistory.issueDate := DAY; BookHistory.submitDate := None;
     BookHistory.charges := 0 |}.

Definition returned_late : BookHistory.t :=
  {| BookHistory._id := 3%nat; BookHistory.userID := 2%nat; BookHistory.bookID := 1%nat;
     BookHistory.issueDate := 0; BookHistory.submitDate := Some (DAY + 1);
     BookHistory.charges := 10 |}.

Definition library : Store :=
  {| users := [alice; bob];
     books := [dune; emma; ulysses];
     bookhistories := [returned; on_loan; returned_late];
     bookreviews :=
       [ {| BookReview._id := 1%nat; BookReview.userID := 1%nat;
            BookReview.bookID := 1%nat; BookReview.review := "Amazing book." |} ];
     bookratings :=
       [ {| BookRating._id := 1%nat; BookRating.userID := 1%nat;
            BookRating.bookID := 1%nat; BookRating.rating := 4 |};
         {| BookRating._id := 2%nat; BookRating.userID := 2%nat;
            BookRating.bookID := 1%nat; BookRating.rating := 5 |} ];
     bookgalleries :=
       [ {| BookGallery._id := 1%nat; BookGallery.bookID := 1%nat;
            BookGallery.imagePath := "/img/dune.png";
            BookGallery.imageName := "coverImage" |} ] |}.

(** A library whose only book has no rating. *)
Definition unrated_library : Store :=
  {| users := [alice];
     books := [ulysses];
     bookhistories := [];
     bookreviews := [];
     bookratings := [];
     bookgalleries := [] |}.

(** A library without books. *)
Definition empty_library : Store :=
  {| users := [alice];
     books := [];
     bookhistories := [];
     bookreviews := [];
     bookratings := [];
     bookgalleries := [] |}.


Definition lower (c : Ascii.ascii) : Ascii.ascii :=
  let n := Ascii.nat_of_ascii c in
  if (Nat.leb 65 n && Nat.leb n 90)%bool then Ascii.ascii_of_nat (n + 32) else c.

Fixpoint lower_string (x : string) : string :=
  match x with
  | EmptyString => EmptyString
  | String c x' => String (lower c) (lower_string x')
  end.

(** A literal pattern: letters, digits and spaces only. *)
Definition literal_char (c : Ascii.ascii) : bool :=
  let n := Ascii.nat_of_ascii c in
  ((Nat.leb 65 n && Nat.leb n 90) || (Nat.leb 97 n && Nat.leb n 122)
   || (Nat.leb 48 n && Nat.leb n 57) || Nat.eqb n 32)%bool.

Fixpoint literal (x : string) : bool :=
  match x with
  | EmptyString => true
  | String c x' => literal_char c && literal x'
  end.

(** The pattern occurs in the subject, whatever the case. *)
Definition occurs (pattern subject : string) : bool :=
  match index 0 (lower_string pattern) (lower_string subject) with
  | Some _ => true
  | None => false
  end.

(** The regular expressions of the samples: a literal pattern matches the
    subjects it occurs in, whatever the case; the pattern ["("], an
    unterminated group, is malformed.  The samples use no other pattern. *)
Definition RegExp (pattern : string) : option (string -> bool) :=
  if literal pattern then Some (occurs pattern) else None.

(** A coarse calendar, enough to run the pipeline. *)
Definition year (d : Z) : Z := 1970 + d / (365 * DAY).

End Sample.


(** ** The authentication middlewares *)

Module httpStatusConstant.
Inductive t : Type :=
| NOT_FOUND
| INVALID_TOKEN
| UNAUTHORIZED
| INTERNAL_SERVER_ERROR.
End httpStatusConstant.

Module httpErrorMessageConstant.
Inductive t : Type :=
| INVALID_TOKEN
| TOKEN_BLACKLISTED
| INTERNAL_SERVER_ERROR.
End httpErrorMessageConstant.

Module messageConstant.
Inductive t : Type :=
| USER_NOT_FOUND
| ADMIN_NOT_FOUND
| INVALID_TOKEN_TYPE.
End messageConstant.

Inductive ResponseMessage : Type :=
| HttpErrorMessage (m : httpErrorMessageConstant.t)
| MessageConstant (m : messageConstant.t).

(** What a middleware does with a request: it calls [next()], or it answers
    with [res.status(status).json({ message })]. *)
Inductive Outcome : Type :=
| next
| json (status : httpStatusConstant.t) (message : ResponseMessage).

(** The payload of a verified token, as far as the middlewares read it. *)
Record VerifiedToken : Type := mkVerifiedToken {
  token_email : string;
  tokenType : string
}.

Module Account.
(** A user document, as far as the middlewares read it. *)
Record t : Type := mk {
  email : string;
  isActive : bool;
  isAuthToken : bool
}.
End Account.

Module Admin.
Record t : Type := mk {
  _id : ObjectId;
  email : string;
  isActive : bool
}.
End Admin.

(** [User.findOne({ email, isActive: true })]. *)
Definition Account_findOne (users : list Account.t) (email : string)
  : option Account.t :=
  find (fun u => String.eqb (Account.email u) email && Account.isActive u) users.

(** [Admin.findOne({ email, isActive: true })]. *)
Definition Admin_findOne (admins : list Admin.t) (email : string) : option Admin.t :=
  find (fun a => String.eqb (Admin.email a) email && Admin.isActive a) admins.

(** The answer of the [catch] block of a middleware. *)
Definition internal_error : Outcome :=
  json httpStatusConstant.INTERNAL_SERVER_ERROR
       (HttpErrorMessage httpErrorMessageConstant.INTERNAL_SERVER_ERROR).

Module UserAuth.
Section Middleware.

(** The helpers of [authUtils], whose code is not among the sources: each
    resolves with a value or throws ([None]). *)
Variable Headers : Type.
Variable validateAuthorizationHeader : Headers -> option string.
Variable verifyJwtToken : string -> option VerifiedToken.

Definition authMiddleware (users : list Account.t) (headers : Headers) : Outcome :=
  match validateAuthorizationHeader headers with
  | None => internal_error
  | Some token =>
      match verifyJwtToken token with
      | None => internal_error
      | Some verifiedToken =>
          match Account_findOne users (token_email verifiedToken) with
          | None =>
              json httpStatusConstant.NOT_FOUND
                   (MessageConstant messageConstant.USER_NOT_FOUND)
          | Some _ => next
          end
      end
  end.

Definition isAuthTokenMiddleware (users : list Account.t) (headers : Headers) : Outcome :=
  match validateAuthorizationHeader headers with
  | None => internal_error
  | Some token =>
      match verifyJwtToken token with
      | None => internal_error
      | Some verifiedToken =>
          let user := Account_findOne users (token_email verifiedToken) in
          (* [!user?.isAuthToken] *)
          if match user with
             | Some u => negb (Account.isAuthToken u)
             | None => true
             end
          then json httpStatusConstant.INVALID_TOKEN
                    (HttpErrorMessage httpErrorMessageConstant.INVALID_TOKEN)
          else next
      end
  end.

End Middleware.
End UserAuth.

Module AdminAuth.
Section Middleware.

(** The helpers of [authUtils] and the SHA-256 digest of [crypto], whose
    code is not among the sources.  The Redis client is the set of hashed
    tokens under the key [blocked:access:tokens], or [None] when it cannot be
    created. *)
Variable Headers : Type.
Variable validateAuthorizationHeader : Headers -> option string.
Variable verifyAccessToken : string -> option VerifiedToken.
Variable sha256_hex : string -> string.

(** [radisClient.sIsMember(key, hashedToken)]. *)
Definition sIsMember (blocked : list string) (hashedToken : string) : bool :=
  existsb (String.eqb hashedToken) blocked.

Definition authMiddleware
    (radisClient : option (list string)) (admins : list Admin.t) (headers : Headers)
  : Outcome :=
  match radisClient with
  | None => internal_error
  | Some blocked =>
      match validateAuthorizationHeader headers with
      | None => internal_error
      | Some token =>
          let hashedToken := sha256_hex token in
          let isBlocked := sIsMember blocked hashedToken in
          if isBlocked then
            json httpStatusConstant.UNAUTHORIZED
                 (HttpErrorMessage httpErrorMessageConstant.TOKEN_BLACKLISTED)
          else
            match verifyAccessToken token with
            | None => internal_error
            | Some verifiedToken =>
                if negb (String.eqb (tokenType verifiedToken) "access") then
                  json httpStatusConstant.INVALID_TOKEN
                       (MessageConstant messageConstant.INVALID_TOKEN_TYPE)
                else
                  match Admin_findOne admins (token_email verifiedToken) with
                  | None =>
                      json httpStatusConstant.NOT_FOUND
                           (MessageConstant messageConstant.ADMIN_NOT_FOUND)
                  | Some _ => next
                  end
            end
      end
  end.

End Middleware.
End AdminAuth.

(** ** The review seeder *)

(** One element of the [reviews] array of the seeder. *)
Record ReviewSeed : Type := mkReviewSeed {
  seed_bookID : ObjectId;
  seed_userID : ObjectId;
  seed_review : string
}.

(** [xs[i]] read for a property: on a missing element the read throws. *)
Definition element {A : Type} (xs : list A) (i : nat) : Result A :=
  match nth_error xs i with
  | Some x => Ok x
  | None => Throw TypeError
  end.

(** [BookReview.deleteMany({})]. *)
Definition BookReview_deleteMany (s : Store) : Store :=
  {| users := users s;
     books := books s;
     bookhistories := bookhistories s;
     bookreviews := [];
     bookratings := bookratings s;
     bookgalleries := bookgalleries s |}.

(** [BookReview.insertMany(reviews)]: the documents are inserted in order. *)
Definition BookReview_insertMany (s : Store) (reviews : list ReviewSeed) : Store :=
  fold_left
    (fun acc r =>
       snd (BookReview_create acc (seed_userID r) (seed_bookID r) (seed_review r)))
    reviews s.

(** The [reviews] array literal of the seeder. *)
Definition seed_reviews
    (insertedBooks : list Book.t) (insertedUsers : list User.t)
    (insertedAdmins : list Admin.t)
  : Result (list ReviewSeed) :=
  b0 <- element insertedBooks 0 ;;
  u0 <- element insertedUsers 0 ;;
  b1 <- element insertedBooks 1 ;;
  a1 <- element insertedAdmins 0 ;;
  b2 <- element insertedBooks 2 ;;
  u2 <- element insertedUsers 0 ;;
  b3 <- element insertedBooks 3 ;;
  a3 <- element insertedAdmins 0 ;;
  Ok [ {| seed_bookID := Book._id b0; seed_userID := User._id u0;
          seed_review := "Amazing book with great insights." |};
       {| seed_bookID := Book._id b1; seed_userID := Admin._id a1;
          seed_review := "Very informative and well-written." |};
       {| seed_bookID := Book._id b2; seed_userID := User._id u2;
          seed_review := "Good book, but could be better." |};
       {| seed_bookID := Book._id b3; seed_userID := Admin._id a3;
          seed_review := "Interesting read, highly recommended!" |} ].

Definition seedBookReviews
    (s : Store) (insertedBooks : list Book.t) (insertedUsers : list User.t)
    (insertedAdmins : list Admin.t)
  : Result unit * Store :=
  let s1 := BookReview_deleteMany s in
  match seed_reviews insertedBooks insertedUsers insertedAdmins with
  | Throw e => (Throw e, s1)
  | Ok reviews => (Ok tt, BookReview_insertMany s1 reviews)
  end.

(** ** Vocabulary of the further statements *)

(** The (user, book) pairs of the review rows, and of the rating rows. *)
Definition review_pairs (s : Store) : list (ObjectId * ObjectId) :=
  map (fun r => (BookReview.userID r, BookReview.bookID r)) (bookreviews s).

Definition rating_pairs (s : Store) : list (ObjectId * ObjectId) :=
  map (fun r => (BookRating.userID r, BookRating.bookID r)) (bookratings s).

(** An entry of the issue history that shows a submit date. *)
Definition shows_return (e : FormattedHistory) : bool := is_some (submitDate e).

(** A book passes the filters of a search request: there is none, or its
    business identifier is the requested one, or its name matches the
    requested pattern. *)
Definition passes_filters
    (RegExp : string -> option (string -> bool)) (req : SearchRequest) (b : Book.t)
  : Prop :=
  (q_bookID req = None /\ truthy_string (q_name req) = false)
  \/ q_bookID req = Some (Book.bookID b)
  \/ exists n re, q_name req = Some n /\ n <> ""%string
                  /\ RegExp n = Some re
                  /\ re (Book.name b) = true.

(** The name filter of a request, when there is one, is a pattern that
    [new RegExp] accepts. *)
Definition pattern_accepted
    (RegExp : string -> option (string -> bool)) (req : SearchRequest) : Prop :=
  forall n, q_name req = Some n -> n <> ""%string -> RegExp n <> None.

(** The request [req] for another page. *)
Definition with_page (page : QueryNumber) (req : SearchRequest) : SearchRequest :=
  {| q_name := q_name req;
     q_bookID := q_bookID req;
     q_page := page;
     q_pageSize := q_pageSize req |}.

(** A user row with an email, a book row with a business identifier. *)
Definition user_row (s : Store) (email : string) (u : User.t) : Prop :=
  In u (users s) /\ User.email u = email.

Definition book_row (s : Store) (bookID : Z) (b : Book.t) : Prop :=
  In b (books s) /\ Book.bookID b = bookID.

(** A history row of a user that shows a return of a book no longer in the
    catalogue. *)
Definition dangling_return (s : Store) (user : User.t) : Prop :=
  exists h, In h (histories_of s user)
            /\ BookHistory.submitDate h <> None
            /\ book_of s h = None.

(** ** Requests and tokens, used to run the middlewares and the seeder *)

Module SampleAuth.

(** The request headers: the bearer token, if any. *)
Definition Headers : Type := option string.

Definition validateAuthorizationHeader (h : Headers) : option string := h.

Definition verify (token : string) : option VerifiedToken :=
  if String.eqb token "alice-access" then
    Some {| token_email := "alice@example.com"; tokenType := "access" |}
  else if String.eqb token "alice-refresh" then
    Some {| token_email := "alice@example.com"; tokenType := "refresh" |}
  else if String.eqb token "carol-access" then
    Some {| token_email := "carol@example.com"; tokenType := "access" |}
  else None.

Definition digest (token : string) : string := append "sha256:" token.

Definition accounts : list Account.t :=
  [ {| Account.email := "alice@example.com"; Account.isActive := true;
       Account.isAuthToken := true |};
    {| Account.email := "carol@example.com"; Account.isActive := false;
       Account.isAuthToken := true |} ].

Definition admins : list Admin.t :=
  [ {| Admin._id := 7%nat; Admin.email := "alice@example.com";
       Admin.isActive := true |} ].

Definition more_books : list Book.t :=
  [ Sample.dune; Sample.emma; Sample.ulysses;
    {| Book._id := 4%nat; Book.bookID := 104; Book.name := "Persuasion";
       Book.author := "Austen"; Book.quantityAvailable := 1;
       Book.charges := 1; Book.publishedDate := 0; Book.deletedAt := None |} ].

(** The sample library with a fourth book. *)
Definition library4 : Store :=
  {| users := users Sample.library;
     books := more_books;
     bookhistories := bookhistories Sample.library;
     bookreviews := bookreviews Sample.library;
     bookratings := bookratings Sample.library;
     bookgalleries := bookgalleries Sample.library |}.

(** A library in which a returned book has left the catalogue. *)
Definition orphaned_library : Store :=
  {| users := users Sample.library;
     books := [Sample.ulysses];
     bookhistories := bookhistories Sample.library;
     bookreviews := [];
     bookratings := [];
     bookgalleries := [] |}.

End SampleAuth.
(** * Properties *)

(** ** Arithmetic of [Math.ceil(a / b)] *)

(** On a positive divisor the embedded operation is the ceiling of the
    quotient: the least integer [n] with [a <= b * n]. *)
Lemma ceil_div_bounds (a b : Z) :
  0 < b ->
  exists n : Z,
    Js.ceil_div (Js.Fin a) (Js.Fin b) = Js.Fin n
    /\ b * (n - 1) < a <= b * n.
Proof.
  intros Hb. exists (- ((- a) / b)). split.
  - unfold Js.ceil_div.
    destruct (Z.eqb_spec b 0) as [E | _]; [lia | reflexivity].
  - pose proof (Z.div_mod (- a) b ltac:(lia)) as Hdm.
    pose proof (Z.mod_pos_bound (- a) b Hb) as Hm.
    lia.
Qed.

Lemma ceil_div_unique (b a n m : Z) :
  0 < b ->
  b * (n - 1) < a <= b * n ->
  b * (m - 1) < a <= b * m ->
  n = m.
Proof. intros Hb Hn Hm. nia. Qed.

Lemma ceil_div_nonneg (a b n : Z) :
  0 < b -> 0 <= a -> b * (n - 1) < a <= b * n -> 0 <= n.
Proof. intros Hb Ha Hn. nia. Qed.

Lemma or_zero_fin (d : Z) : or_zero (Some (Js.Fin d)) = Js.Fin d.
Proof.
  unfold or_zero, Js.or, Js.truthy.
  destruct (Z.eqb_spec d 0) as [-> | _]; reflexivity.
Qed.

Lemma MS_PER_DAY_value : MS_PER_DAY = 86400000.
Proof. reflexivity. Qed.

(** The callback on a submitted row whose book resolves. *)
Lemma formatHistory_submitted (issue submit : Z) (book : Book.t) :
  exists d : Z,
    formatHistory {| ph_issueDate := issue;
                     ph_submitDate := Some submit;
                     ph_bookID := Some book |}
    = Ok {| issueDate := issue;
            submitDate := Some submit;
            usedDays := Some (Js.Fin d);
            totalAmount := Some (Js.Fin (d * Book.charges book)) |}
    /\ MS_PER_DAY * (d - 1) < submit - issue <= MS_PER_DAY * d.
Proof.
  destruct (ceil_div_bounds (submit - issue) MS_PER_DAY) as (d & Hd & Hb).
  { rewrite MS_PER_DAY_value. lia. }
  exists d. split; [| exact Hb].
  unfold formatHistory. cbn [ph_issueDate ph_submitDate ph_bookID Js.sub].
  rewrite Hd, or_zero_fin. reflexivity.
Qed.

(** The callback on an active loan. *)
Lemma formatHistory_active (issue : Z) (book : option Book.t) :
  formatHistory {| ph_issueDate := issue;
                   ph_submitDate := None;
                   ph_bookID := book |}
  = Ok {| issueDate := issue;
          submitDate := None;
          usedDays := None;
          totalAmount := None |}.
Proof. reflexivity. Qed.

(** C1. For an issue timestamp, a submit timestamp not before it and a
    non-negative per-day rate, the charge computation yields
    [usedDays = ceil((submit - issue) / 86400000 ms)], the least number of
    whole days covering the elapsed time, and [totalAmount = usedDays * rate];
    both are [0] when the two timestamps coincide. *)
Theorem charge_computation (issue submit : Z) (book : Book.t) :
  issue <= submit ->
  0 <= Book.charges book ->
  exists d : Z,
    formatHistory {| ph_issueDate := issue;
                     ph_submitDate := Some submit;
                     ph_bookID := Some book |}
    = Ok {| issueDate := issue;
            submitDate := Some submit;
            usedDays := Some (Js.Fin d);
            totalAmount := Some (Js.Fin (d * Book.charges book)) |}
    /\ 86400000 * (d - 1) < submit - issue <= 86400000 * d
    /\ 0 <= d
    /\ 0 <= d * Book.charges book
    /\ (submit = issue -> d = 0 /\ d * Book.charges book = 0).
Proof.
  intros Hle Hrate.
  destruct (formatHistory_submitted issue submit book) as (d & Hf & Hb).
  rewrite MS_PER_DAY_value in Hb.
  assert (Hd : 0 <= d) by (apply (ceil_div_nonneg (submit - issue) 86400000); lia).
  exists d.
  split; [exact Hf |].
  split; [exact Hb |].
  split; [exact Hd |].
  split; [apply Z.mul_nonneg_nonneg; assumption |].
  intros ->. assert (d = 0) by lia. subst d. split; reflexivity.
Qed.

(** Three whole days at 5 a day. *)
Lemma charge_computation_three_days :
  0 <= 3 * Sample.DAY
  /\ 0 <= Book.charges Sample.dune
  /\ exists d : Z,
       formatHistory {| ph_issueDate := 0;
                        ph_submitDate := Some (3 * Sample.DAY);
                        ph_bookID := Some Sample.dune |}
       = Ok {| issueDate := 0;
               submitDate := Some (3 * Sample.DAY);
               usedDays := Some (Js.Fin d);
               totalAmount := Some (Js.Fin (d * Book.charges Sample.dune)) |}
       /\ 86400000 * (d - 1) < 3 * Sample.DAY - 0 <= 86400000 * d
       /\ 0 <= d
       /\ 0 <= d * Book.charges Sample.dune
       /\ (3 * Sample.DAY = 0 -> d = 0 /\ d * Book.charges Sample.dune = 0).
Proof.
  split; [vm_compute; discriminate |].
  split; [vm_compute; discriminate |].
  apply (charge_computation 0 (3 * Sample.DAY) Sample.dune).
  - vm_compute; discriminate.
  - vm_compute; discriminate.
Defined.

Example used_days_three :
  formatHistory (populate Sample.library Sample.returned)
  = Ok {| issueDate := 0;
          submitDate := Some 259200000;
          usedDays := Some (Js.Fin 3);
          totalAmount := Some (Js.Fin 15) |}.
Proof. reflexivity. Qed.

Example used_days_started_day :
  formatHistory (populate Sample.library Sample.returned_late)
  = Ok {| issueDate := 0;
          submitDate := Some 86400001;
          usedDays := Some (Js.Fin 2);
          totalAmount := Some (Js.Fin 10) |}.
Proof. reflexivity. Qed.

(** ** The issue history *)

Lemma mapM_map {A B C : Type} (g : A -> B) (f : B -> Result C) (xs : list A) :
  mapM f (map g xs) = mapM (fun x => f (g x)) xs.
Proof.
  induction xs as [| x xs IH]; [reflexivity |].
  cbn [map mapM]. rewrite IH. reflexivity.
Qed.

Lemma mapM_ext_in {A B : Type} (f g : A -> Result B) (xs : list A) :
  (forall x, In x xs -> f x = g x) -> mapM f xs = mapM g xs.
Proof.
  induction xs as [| x xs IH]; intros H; [reflexivity |].
  cbn [mapM]. rewrite (H x (or_introl eq_refl)), IH; [reflexivity |].
  intros y Hy. apply H. right. exact Hy.
Qed.

(** A [map] whose callback never throws on the rows yields one result per
    row, in order. *)
Lemma mapM_total {A B : Type} (f : A -> Result B) (R : A -> B -> Prop) (xs : list A) :
  (forall x, In x xs -> exists y, f x = Ok y /\ R x y) ->
  exists ys, mapM f xs = Ok ys /\ Forall2 R xs ys.
Proof.
  induction xs as [| x xs IH]; intros H.
  - exists []. split; [reflexivity | constructor].
  - destruct (H x (or_introl eq_refl)) as (y & Hy & Rxy).
    destruct IH as (ys & Hys & Rys).
    { intros z Hz. apply H. right. exact Hz. }
    exists (y :: ys). split.
    + cbn [mapM]. rewrite Hy, Hys. reflexivity.
    + constructor; assumption.
Qed.

Lemma formatHistory_shown (s : Store) (h : BookHistory.t) :
  (BookHistory.submitDate h <> None -> book_of s h <> None) ->
  exists e, formatHistory (populate s h) = Ok e /\ shown_for s h e.
Proof.
  intros Hres. unfold populate, shown_for.
  fold (book_of s h).
  destruct (BookHistory.submitDate h) as [sd |] eqn:Hsd.
  - destruct (book_of s h) as [book |] eqn:Hbook.
    + destruct (formatHistory_submitted (BookHistory.issueDate h) sd book)
        as (d & Hf & Hb).
      rewrite MS_PER_DAY_value in Hb.
      eexists. split; [exact Hf |].
      cbn [issueDate submitDate usedDays totalAmount].
      split; [reflexivity |]. split; [reflexivity |].
      exists book, d. repeat split; try reflexivity; lia.
    + exfalso. apply Hres; [discriminate | reflexivity].
  - eexists. split; [apply formatHistory_active |].
    cbn [issueDate submitDate usedDays totalAmount]. repeat split.
Qed.

Lemma histories_of_with_charges (f : BookHistory.t -> Z) (s : Store) (user : User.t) :
  map (populate (with_charges f s)) (histories_of (with_charges f s) user)
  = map (populate s) (histories_of s user).
Proof.
  unfold histories_of, with_charges. cbn [bookhistories].
  rewrite filter_map_swap, map_map. cbn [BookHistory.userID].
  apply map_ext. intros h. reflexivity.
Qed.

(** C2, as amended. For a user with at least one history row, each of whose
    returned rows refers to a book of the catalogue, the issue history has one entry
    per row, in order: an active loan shows a null submit date, null used
    days and a null total; a returned row shows the days and the total
    recomputed from its two dates and the current rate of its book.  The
    charges persisted on the rows play no part: overwriting them changes
    nothing. *)
Theorem issue_history_recomputed (s : Store) (email : string) (user : User.t) :
  User_findOne s email = Some user ->
  histories_of s user <> [] ->
  (forall h, In h (histories_of s user) ->
             BookHistory.submitDate h <> None -> book_of s h <> None) ->
  exists entries : list FormattedHistory,
    getBookIssueHistory s email = Ok entries
    /\ Forall2 (shown_for s) (histories_of s user) entries
    /\ length entries = length (histories_of s user)
    /\ forall f, getBookIssueHistory (with_charges f s) email = Ok entries.
Proof.
  intros Huser Hrows Hres.
  destruct (mapM_total (fun h => formatHistory (populate s h)) (shown_for s)
                       (histories_of s user)) as (entries & Hm & Hall).
  { intros h Hh. apply formatHistory_shown. exact (Hres h Hh). }
  assert (Hrun : getBookIssueHistory s email = Ok entries).
  { unfold getBookIssueHistory. rewrite Huser.
    fold (histories_of s user).
    destruct (histories_of s user) as [| h rows] eqn:E; [contradiction |].
    change (mapM formatHistory (map (populate s) (h :: rows)) = Ok entries).
    rewrite mapM_map. exact Hm. }
  exists entries.
  split; [exact Hrun |].
  split; [exact Hall |].
  split; [symmetry; exact (Forall2_length Hall) |].
  intros f. rewrite <- Hrun.
  unfold getBookIssueHistory.
  replace (User_findOne (with_charges f s) email) with (User_findOne s email)
    by reflexivity.
  rewrite Huser.
  fold (histories_of (with_charges f s) user). fold (histories_of s user).
  rewrite histories_of_with_charges. reflexivity.
Qed.

Lemma issue_history_recomputed_alice :
  User_findOne Sample.library "alice@example.com" = Some Sample.alice
  /\ histories_of Sample.library Sample.alice <> []
  /\ exists entries : list FormattedHistory,
       getBookIssueHistory Sample.library "alice@example.com" = Ok entries
       /\ Forall2 (shown_for Sample.library)
                  (histories_of Sample.library Sample.alice) entries
       /\ length entries = length (histories_of Sample.library Sample.alice)
       /\ forall f,
            getBookIssueHistory (with_charges f Sample.library) "alice@example.com"
            = Ok entries.
Proof.
  split; [reflexivity |].
  split; [vm_compute; discriminate |].
  apply (issue_history_recomputed Sample.library "alice@example.com" Sample.alice).
  - reflexivity.
  - vm_compute; discriminate.
  - intros h Hh _.
    vm_compute in Hh.
    destruct Hh as [<- | [<- | []]]; vm_compute; discriminate.
Defined.

(** C2 as stated fails when a returned book has left the catalogue: the
    user has history rows, yet the issue history answers with no entry at
    all; reading the rate of the missing book throws a TypeError. *)
Lemma issue_history_orphaned_book :
  User_findOne SampleAuth.orphaned_library "alice@example.com" = Some Sample.alice
  /\ histories_of SampleAuth.orphaned_library Sample.alice
     = [Sample.returned; Sample.on_loan]
  /\ getBookIssueHistory SampleAuth.orphaned_library "alice@example.com"
     = Throw TypeError
  /\ forall entries,
       getBookIssueHistory SampleAuth.orphaned_library "alice@example.com"
       <> Ok entries.
Proof.
  split; [reflexivity |]. split; [reflexivity |]. split; [reflexivity |].
  intros entries. discriminate.
Qed.

Example issue_history_alice :
  getBookIssueHistory Sample.library "alice@example.com"
  = Ok [ {| issueDate := 0; submitDate := Some 259200000;
            usedDays := Some (Js.Fin 3); totalAmount := Some (Js.Fin 15) |};
         {| issueDate := 86400000; submitDate := None;
            usedDays := None; totalAmount := None |} ].
Proof. reflexivity. Qed.

(** A returned row whose book has left the catalogue makes the callback
    read [charges] on [null]. *)
Lemma formatHistory_dangling (s : Store) (h : BookHistory.t) :
  BookHistory.submitDate h <> None ->
  book_of s h = None ->
  formatHistory (populate s h) = Throw TypeError.
Proof.
  intros Hsub Hbook. unfold populate, formatHistory.
  cbn [ph_issueDate ph_submitDate ph_bookID].
  fold (book_of s h). rewrite Hbook.
  destruct (BookHistory.submitDate h); [reflexivity | contradiction].
Qed.

(** ** The library summary *)

Lemma filter_andb {A : Type} (p q : A -> bool) (xs : list A) :
  List.filter (fun x => p x && q x) xs = List.filter q (List.filter p xs).
Proof.
  induction xs as [| x xs IH]; [reflexivity |].
  cbn [List.filter]. destruct (p x); cbn [andb List.filter].
  - destruct (q x); rewrite IH; reflexivity.
  - exact IH.
Qed.

(** C7. For an existing user the summary reports: as issued, the number of
    all history rows of the user; as submitted, the number of those with a
    submit date; as not submitted, their difference, which is the number of
    active loans; and the paid amount and due charges of the user as they
    stand. *)
Theorem library_summary_counts (s : Store) (email : string) (user : User.t) :
  User_findOne s email = Some user ->
  exists r : LibrarySummary,
    getLibrarySummary s email = Ok r
    /\ totalIssuedBooks r = Z.of_nat (length (histories_of s user))
    /\ totalSubmittedBooks r
       = Z.of_nat (length (List.filter submitted (histories_of s user)))
    /\ totalNotSubmittedBooks r = totalIssuedBooks r - totalSubmittedBooks r
    /\ totalNotSubmittedBooks r
       = Z.of_nat (length (List.filter active (histories_of s user)))
    /\ totalPaidAmount r = User.paidAmount user
    /\ totalDueCharges r = User.dueCharges user.
Proof.
  intros Huser. unfold getLibrarySummary. rewrite Huser.
  eexists. split; [reflexivity |].
  cbn [totalIssuedBooks totalSubmittedBooks totalNotSubmittedBooks
       totalPaidAmount totalDueCharges].
  unfold countDocuments. rewrite filter_andb. fold (histories_of s user).
  repeat split.
  pose proof (filter_length submitted (histories_of s user)) as Hlen.
  unfold active.
  change (fun x : BookHistory.t => negb (submitted x))
    with (fun h : BookHistory.t => negb (submitted h)) in Hlen.
  lia.
Qed.

Lemma library_summary_counts_alice :
  User_findOne Sample.library "alice@example.com" = Some Sample.alice
  /\ exists r : LibrarySummary,
       getLibrarySummary Sample.library "alice@example.com" = Ok r
       /\ totalIssuedBooks r
          = Z.of_nat (length (histories_of Sample.library Sample.alice))
       /\ totalSubmittedBooks r
          = Z.of_nat (length (List.filter submitted
                                (histories_of Sample.library Sample.alice)))
       /\ totalNotSubmittedBooks r = totalIssuedBooks r - totalSubmittedBooks r
       /\ totalNotSubmittedBooks r
          = Z.of_nat (length (List.filter active
                                (histories_of Sample.library Sample.alice)))
       /\ totalPaidAmount r = User.paidAmount Sample.alice
       /\ totalDueCharges r = User.dueCharges Sample.alice.
Proof.
  split; [reflexivity |].
  apply (library_summary_counts Sample.library "alice@example.com" Sample.alice).
  reflexivity.
Defined.

Example library_summary_alice :
  getLibrarySummary Sample.library "alice@example.com"
  = Ok {| totalIssuedBooks := 2;
          totalSubmittedBooks := 1;
          totalNotSubmittedBooks := 1;
          totalPaidAmount := 40;
          totalDueCharges := 15 |}.
Proof. reflexivity. Qed.

(** ** The review and rating guard *)

Lemma find_In_some {A : Type} (f : A -> bool) (x : A) (xs : list A) :
  In x xs -> f x = true -> find f xs <> None.
Proof.
  intros Hin Hfx Hnone.
  rewrite (find_none f xs Hnone x Hin) in Hfx. discriminate.
Qed.

Lemma find_all_false {A : Type} (f : A -> bool) (xs : list A) :
  (forall x, In x xs -> f x = false) -> find f xs = None.
Proof.
  induction xs as [| x xs IH]; intros H; [reflexivity |].
  cbn [find]. rewrite (H x (or_introl eq_refl)).
  apply IH. intros y Hy. apply H. right. exact Hy.
Qed.

Lemma reviewed_found (s : Store) (user : User.t) (book : Book.t) :
  reviewed s user book ->
  BookReview_findOne s (User._id user) (Book._id book) <> None.
Proof.
  intros (r & Hin & Hu & Hb). unfold BookReview_findOne.
  apply (find_In_some _ r); [exact Hin |].
  rewrite Hu, Hb, !Nat.eqb_refl. reflexivity.
Qed.

Lemma rated_found (s : Store) (user : User.t) (book : Book.t) :
  rated s user book ->
  BookRating_findOne s (User._id user) (Book._id book) <> None.
Proof.
  intros (r & Hin & Hu & Hb). unfold BookRating_findOne.
  apply (find_In_some _ r); [exact Hin |].
  rewrite Hu, Hb, !Nat.eqb_refl. reflexivity.
Qed.

Lemma not_reviewed_none (s : Store) (user : User.t) (book : Book.t) :
  ~ reviewed s user book ->
  BookReview_findOne s (User._id user) (Book._id book) = None.
Proof.
  intros Hno. unfold BookReview_findOne. apply find_all_false.
  intros r Hin.
  destruct (Nat.eqb_spec (BookReview.userID r) (User._id user)) as [Hu | _];
    [| reflexivity].
  destruct (Nat.eqb_spec (BookReview.bookID r) (Book._id book)) as [Hb | _];
    [| reflexivity].
  exfalso. apply Hno. exists r. auto.
Qed.

Lemma not_rated_none (s : Store) (user : User.t) (book : Book.t) :
  ~ rated s user book ->
  BookRating_findOne s (User._id user) (Book._id book) = None.
Proof.
  intros Hno. unfold BookRating_findOne. apply find_all_false.
  intros r Hin.
  destruct (Nat.eqb_spec (BookRating.userID r) (User._id user)) as [Hu | _];
    [| reflexivity].
  destruct (Nat.eqb_spec (BookRating.bookID r) (Book._id book)) as [Hb | _];
    [| reflexivity].
  exfalso. apply Hno. exists r. auto.
Qed.

Lemma addBookReview_refuses
    (s : Store) (email : string) (bookID : Z) (user : User.t) (book : Book.t)
    (review : string) :
  User_findOne s email = Some user ->
  Book_findOne s bookID = Some book ->
  reviewed s user book ->
  addBookReview s email bookID review
  = (Throw (HttpError REVIEW_ALREADY_EXIST BAD_REQUEST), s).
Proof.
  intros Huser Hbook Hrev. unfold addBookReview. rewrite Huser, Hbook.
  pose proof (reviewed_found s user book Hrev) as Hfound.
  destruct (BookReview_findOne s (User._id user) (Book._id book));
    [reflexivity | contradiction].
Qed.

Lemma addBookRating_refuses
    (s : Store) (email : string) (bookID : Z) (user : User.t) (book : Book.t)
    (rating : Z) :
  User_findOne s email = Some user ->
  Book_findOne s bookID = Some book ->
  rated s user book ->
  addBookRating s email bookID rating
  = (Throw (HttpError RATING_ALREADY_EXIST BAD_REQUEST), s).
Proof.
  intros Huser Hbook Hrat. unfold addBookRating. rewrite Huser, Hbook.
  pose proof (rated_found s user book Hrat) as Hfound.
  destruct (BookRating_findOne s (User._id user) (Book._id book));
    [reflexivity | contradiction].
Qed.

(** C5. When the call resolves to a user and a book for which a review is
    already on record, [addBookReview] fails with REVIEW_ALREADY_EXIST and
    leaves the store as it was; likewise [addBookRating] fails with
    RATING_ALREADY_EXIST on a pair with a rating on record. *)
Theorem duplicate_refused
    (s : Store) (email : string) (bookID : Z) (user : User.t) (book : Book.t) :
  User_findOne s email = Some user ->
  Book_findOne s bookID = Some book ->
  (reviewed s user book ->
   forall review,
     addBookReview s email bookID review
     = (Throw (HttpError REVIEW_ALREADY_EXIST BAD_REQUEST), s))
  /\ (rated s user book ->
      forall rating,
        addBookRating s email bookID rating
        = (Throw (HttpError RATING_ALREADY_EXIST BAD_REQUEST), s)).
Proof.
  intros Huser Hbook. split.
  - intros Hrev review. apply (addBookReview_refuses s email bookID user book); assumption.
  - intros Hrat rating. apply (addBookRating_refuses s email bookID user book); assumption.
Qed.

Lemma duplicate_refused_alice_dune :
  addBookReview Sample.library "alice@example.com" 101 "Again."
  = (Throw (HttpError REVIEW_ALREADY_EXIST BAD_REQUEST), Sample.library)
  /\ addBookRating Sample.library "alice@example.com" 101 3
     = (Throw (HttpError RATING_ALREADY_EXIST BAD_REQUEST), Sample.library).
Proof.
  pose proof (duplicate_refused Sample.library "alice@example.com" 101
                Sample.alice Sample.dune eq_refl eq_refl) as [Hrev Hrat].
  split.
  - apply Hrev. eexists. split; [left; reflexivity |]. split; reflexivity.
  - apply Hrat. eexists. split; [left; reflexivity |]. split; reflexivity.
Defined.

(** The store after a row was appended to the reviews, or to the ratings. *)
Lemma BookReview_create_store (s : Store) (userID bookID : ObjectId) (review : string) :
  exists doc,
    BookReview_create s userID bookID review
    = (Some doc,
       {| users := users s; books := books s;
          bookhistories := bookhistories s;
          bookreviews := bookreviews s ++ [doc];
          bookratings := bookratings s;
          bookgalleries := bookgalleries s |})
    /\ BookReview.userID doc = userID
    /\ BookReview.bookID doc = bookID
    /\ BookReview.review doc = review.
Proof. eexists. split; [reflexivity |]. repeat split. Qed.

Lemma BookRating_create_store (s : Store) (userID bookID : ObjectId) (rating : Z) :
  exists doc,
    BookRating_create s userID bookID rating
    = (Some doc,
       {| users := users s; books := books s;
          bookhistories := bookhistories s;
          bookreviews := bookreviews s;
          bookratings := bookratings s ++ [doc];
          bookgalleries := bookgalleries s |})
    /\ BookRating.userID doc = userID
    /\ BookRating.bookID doc = bookID
    /\ BookRating.rating doc = rating.
Proof. eexists. split; [reflexivity |]. repeat split. Qed.

(** A first review is accepted whatever the state of the book. *)
Lemma addBookReview_accepts
    (s : Store) (email : string) (bookID : Z) (user : User.t) (book : Book.t)
    (review : string) :
  User_findOne s email = Some user ->
  Book_findOne s bookID = Some book ->
  ~ reviewed s user book ->
  exists doc,
    addBookReview s email bookID review
    = (Ok tt,
       {| users := users s; books := books s;
          bookhistories := bookhistories s;
          bookreviews := bookreviews s ++ [doc];
          bookratings := bookratings s;
          bookgalleries := bookgalleries s |})
    /\ BookReview.userID doc = User._id user
    /\ BookReview.bookID doc = Book._id book
    /\ BookReview.review doc = review.
Proof.
  intros Huser Hbook Hno.
  destruct (BookReview_create_store s (User._id user) (Book._id book) review)
    as (doc & Hc & Hfields).
  exists doc. split; [| exact Hfields].
  unfold addBookReview.
  rewrite Huser, Hbook, (not_reviewed_none s user book Hno), Hc. reflexivity.
Qed.

Lemma addBookRating_accepts
    (s : Store) (email : string) (bookID : Z) (user : User.t) (book : Book.t)
    (rating : Z) :
  User_findOne s email = Some user ->
  Book_findOne s bookID = Some book ->
  ~ rated s user book ->
  exists doc,
    addBookRating s email bookID rating
    = (Ok tt,
       {| users := users s; books := books s;
          bookhistories := bookhistories s;
          bookreviews := bookreviews s;
          bookratings := bookratings s ++ [doc];
          bookgalleries := bookgalleries s |})
    /\ BookRating.userID doc = User._id user
    /\ BookRating.bookID doc = Book._id book
    /\ BookRating.rating doc = rating.
Proof.
  intros Huser Hbook Hno.
  destruct (BookRating_create_store s (User._id user) (Book._id book) rating)
    as (doc & Hc & Hfields).
  exists doc. split; [| exact Hfields].
  unfold addBookRating.
  rewrite Huser, Hbook, (not_rated_none s user book Hno), Hc. reflexivity.
Qed.

(** A second [addBookReview] with the same arguments is refused and writes
    nothing. *)
Lemma second_review_refused
    (s s' : Store) (email : string) (bookID : Z) (review review' : string) :
  addBookReview s email bookID review = (Ok tt, s') ->
  addBookReview s' email bookID review'
  = (Throw (HttpError REVIEW_ALREADY_EXIST BAD_REQUEST), s').
Proof.
  unfold addBookReview at 1.
  destruct (User_findOne s email) as [user |] eqn:Huser; [| discriminate].
  destruct (Book_findOne s bookID) as [book |] eqn:Hbook; [| discriminate].
  destruct (BookReview_findOne s (User._id user) (Book._id book)) eqn:Hfind;
    [discriminate |].
  destruct (BookReview_create_store s (User._id user) (Book._id book) review)
    as (doc & Hc & Hu & Hb & _).
  rewrite Hc. intros Heq. injection Heq as <-.
  apply (addBookReview_refuses _ email bookID user book).
  - exact Huser.
  - exact Hbook.
  - exists doc. cbn [bookreviews]. split; [| split; assumption].
    apply in_or_app. right. left. reflexivity.
Qed.

Lemma find_first {A : Type} (f : A -> bool) (xs : list A) (x : A) :
  In x xs -> f x = true ->
  exists y, find f xs = Some y /\ In y xs /\ f y = true.
Proof.
  intros Hin Hfx.
  destruct (find f xs) as [y |] eqn:Hfind.
  - exists y. split; [reflexivity |]. exact (find_some f xs Hfind).
  - rewrite (find_none f xs Hfind x Hin) in Hfx. discriminate.
Qed.

(** [findOne] answers with a row of the collection that has the key, as soon
    as one row has it. *)
Lemma User_findOne_row (s : Store) (email : string) :
  (exists u, user_row s email u) ->
  exists user, User_findOne s email = Some user /\ user_row s email user.
Proof.
  intros (u & Hin & He). unfold User_findOne.
  destruct (find_first (fun u => String.eqb (User.email u) email) (users s) u Hin)
    as (user & Hf & Hin' & Hp).
  { rewrite He. apply String.eqb_refl. }
  exists user. split; [exact Hf |]. split; [exact Hin' |].
  apply String.eqb_eq. exact Hp.
Qed.

Lemma Book_findOne_row (s : Store) (bookID : Z) :
  (exists b, book_row s bookID b) ->
  exists book, Book_findOne s bookID = Some book /\ book_row s bookID book.
Proof.
  intros (b & Hin & He). unfold Book_findOne.
  destruct (find_first (fun b => Book.bookID b =? bookID) (books s) b Hin)
    as (book & Hf & Hin' & Hp).
  { rewrite He. apply Z.eqb_refl. }
  exists book. split; [exact Hf |]. split; [exact Hin' |].
  apply Z.eqb_eq. exact Hp.
Qed.

(** C10. When a user row has the email, a book row has the business
    identifier and every book row that has it is soft-deleted, and no review,
    respectively rating, of such a book by such a user is on record,
    [addBookReview], respectively [addBookRating], succeeds and appends the
    row for a user with that email and a soft-deleted book with that
    identifier: the lookup of the book does not consult [deletedAt], so
    soft deletion never causes BOOK_NOT_FOUND here. *)
Theorem soft_deleted_book_accepted (s : Store) (email : string) (bookID : Z) :
  (exists u, user_row s email u) ->
  (exists b, book_row s bookID b) ->
  (forall b, book_row s bookID b -> Book.deletedAt b <> None) ->
  ((forall u b, user_row s email u -> book_row s bookID b -> ~ reviewed s u b) ->
   forall review, exists user book doc,
     user_row s email user
     /\ book_row s bookID book
     /\ Book.deletedAt book <> None
     /\ addBookReview s email bookID review
        = (Ok tt,
           {| users := users s; books := books s;
              bookhistories := bookhistories s;
              bookreviews := bookreviews s ++ [doc];
              bookratings := bookratings s;
              bookgalleries := bookgalleries s |})
     /\ BookReview.userID doc = User._id user
     /\ BookReview.bookID doc = Book._id book
     /\ BookReview.review doc = review)
  /\ ((forall u b, user_row s email u -> book_row s bookID b -> ~ rated s u b) ->
      forall rating, exists user book doc,
        user_row s email user
        /\ book_row s bookID book
        /\ Book.deletedAt book <> None
        /\ addBookRating s email bookID rating
           = (Ok tt,
              {| users := users s; books := books s;
                 bookhistories := bookhistories s;
                 bookreviews := bookreviews s;
                 bookratings := bookratings s ++ [doc];
                 bookgalleries := bookgalleries s |})
        /\ BookRating.userID doc = User._id user
        /\ BookRating.bookID doc = Book._id book
        /\ BookRating.rating doc = rating).
Proof.
  intros Huser Hbook Hdeleted.
  destruct (User_findOne_row s email Huser) as (user & Hfu & Hurow).
  destruct (Book_findOne_row s bookID Hbook) as (book & Hfb & Hbrow).
  split.
  - intros Hno review.
    destruct (addBookReview_accepts s email bookID user book review Hfu Hfb
                (Hno user book Hurow Hbrow)) as (doc & Hadd & Hfields).
    exists user, book, doc.
    split; [exact Hurow |]. split; [exact Hbrow |].
    split; [exact (Hdeleted book Hbrow) |]. split; [exact Hadd | exact Hfields].
  - intros Hno rating.
    destruct (addBookRating_accepts s email bookID user book rating Hfu Hfb
                (Hno user book Hurow Hbrow)) as (doc & Hadd & Hfields).
    exists user, book, doc.
    split; [exact Hurow |]. split; [exact Hbrow |].
    split; [exact (Hdeleted book Hbrow) |]. split; [exact Hadd | exact Hfields].
Qed.

Lemma bob_rows (u : User.t) :
  user_row Sample.library "bob@example.com" u -> u = Sample.bob.
Proof.
  intros (Hin & He). cbn in Hin.
  destruct Hin as [<- | [<- | []]]; [discriminate He | reflexivity].
Qed.

Lemma emma_rows (b : Book.t) :
  book_row Sample.library 102 b -> b = Sample.emma.
Proof.
  intros (Hin & He). cbn in Hin.
  destruct Hin as [<- | [<- | [<- | []]]];
    [discriminate He | reflexivity | discriminate He].
Qed.

Lemma soft_deleted_book_accepted_bob_emma :
  (exists user book doc,
     user_row Sample.library "bob@example.com" user
     /\ book_row Sample.library 102 book
     /\ Book.deletedAt book <> None
     /\ addBookReview Sample.library "bob@example.com" 102 "A classic."
        = (Ok tt,
           {| users := users Sample.library; books := books Sample.library;
              bookhistories := bookhistories Sample.library;
              bookreviews := bookreviews Sample.library ++ [doc];
              bookratings := bookratings Sample.library;
              bookgalleries := bookgalleries Sample.library |})
     /\ BookReview.userID doc = User._id user
     /\ BookReview.bookID doc = Book._id book
     /\ BookReview.review doc = "A classic."%string)
  /\ (exists user book doc,
        user_row Sample.library "bob@example.com" user
        /\ book_row Sample.library 102 book
        /\ Book.deletedAt book <> None
        /\ addBookRating Sample.library "bob@example.com" 102 5
           = (Ok tt,
              {| users := users Sample.library; books := books Sample.library;
                 bookhistories := bookhistories Sample.library;
                 bookreviews := bookreviews Sample.library;
                 bookratings := bookratings Sample.library ++ [doc];
                 bookgalleries := bookgalleries Sample.library |})
        /\ BookRating.userID doc = User._id user
        /\ BookRating.bookID doc = Book._id book
        /\ BookRating.rating doc = 5).
Proof.
  assert (Huser : exists u, user_row Sample.library "bob@example.com" u).
  { exists Sample.bob. split; [right; left; reflexivity | reflexivity]. }
  assert (Hbook : exists b, book_row Sample.library 102 b).
  { exists Sample.emma. split; [right; left; reflexivity | reflexivity]. }
  assert (Hdel : forall b, book_row Sample.library 102 b -> Book.deletedAt b <> None).
  { intros b Hb. rewrite (emma_rows b Hb). discriminate. }
  destruct (soft_deleted_book_accepted Sample.library "bob@example.com" 102
              Huser Hbook Hdel) as [Hrev Hrat].
  split.
  - apply Hrev. intros u b Hu Hb (r & Hin & Hru & Hrb).
    rewrite (bob_rows u Hu) in Hru.
    cbn in Hin. destruct Hin as [<- | []]. discriminate Hru.
  - apply Hrat. intros u b Hu Hb (r & Hin & Hru & Hrb).
    rewrite (emma_rows b Hb) in Hrb.
    cbn in Hin. destruct Hin as [<- | [<- | []]]; discriminate Hrb.
Defined.

Example review_of_soft_deleted_book :
  addBookReview Sample.library "bob@example.com" 102 "A classic."
  = (Ok tt,
     {| users := users Sample.library; books := books Sample.library;
        bookhistories := bookhistories Sample.library;
        bookreviews :=
          bookreviews Sample.library
          ++ [ {| BookReview._id := 2%nat; BookReview.userID := 2%nat;
                  BookReview.bookID := 2%nat; BookReview.review := "A classic." |} ];
        bookratings := bookratings Sample.library;
        bookgalleries := bookgalleries Sample.library |}).
Proof. reflexivity. Qed.

(** ** Searching the catalogue *)

(** The paging stages fail in one way only. *)
Lemma skip_limit_throws {A : Type} (skip limit : Js.Num) (docs : list A) (e : Exception) :
  skip_limit skip limit docs = Throw e -> e = MongoServerError.
Proof.
  unfold skip_limit. intros H.
  destruct skip, limit; try (injection H as <-; reflexivity).
  destruct (_ && _); [discriminate | injection H as <-; reflexivity].
Qed.

Section Search.

Variable RegExp : string -> option (string -> bool).
Variable year : Z -> Z.

(** The query is built exactly when the name filter is accepted; otherwise
    the constructor of the regular expression throws. *)
Lemma build_searchQuery_accepted (req : SearchRequest) :
  pattern_accepted RegExp req ->
  exists q, build_searchQuery RegExp (q_bookID req) (q_name req) = Ok q.
Proof.
  unfold pattern_accepted, build_searchQuery. intros Hacc.
  destruct (q_name req) as [n |].
  - destruct (String.eqb_spec n "") as [-> | Hn].
    + destruct (is_some (q_bookID req) || truthy_string (Some ""%string));
        eexists; reflexivity.
    + destruct (RegExp n) as [re |] eqn:Hre.
      * destruct (is_some (q_bookID req) || truthy_string (Some n));
          eexists; reflexivity.
      * exfalso. exact (Hacc n eq_refl Hn Hre).
  - destruct (is_some (q_bookID req) || truthy_string None); eexists; reflexivity.
Qed.

Lemma build_searchQuery_throws (req : SearchRequest) (e : Exception) :
  build_searchQuery RegExp (q_bookID req) (q_name req) = Throw e ->
  e = SyntaxError
  /\ exists n, q_name req = Some n /\ n <> ""%string /\ RegExp n = None.
Proof.
  unfold build_searchQuery.
  destruct (q_name req) as [n |].
  - destruct (String.eqb_spec n "") as [-> | Hn].
    + destruct (is_some (q_bookID req) || truthy_string (Some ""%string));
        discriminate.
    + destruct (RegExp n) as [re |] eqn:Hre.
      * destruct (is_some (q_bookID req) || truthy_string (Some n)); discriminate.
      * assert (Ht : is_some (q_bookID req) || truthy_string (Some n) = true).
        { unfold truthy_string. destruct (String.eqb_spec n ""); [contradiction |].
          apply orb_true_r. }
        rewrite Ht. cbn [bind]. intros H. injection H as <-.
        split; [reflexivity |]. exists n. auto.
  - destruct (is_some (q_bookID req) || truthy_string None); discriminate.
Qed.

Lemma pattern_rejected (req : SearchRequest) (n : string) :
  q_name req = Some n -> n <> ""%string -> RegExp n = None ->
  build_searchQuery RegExp (q_bookID req) (q_name req) = Throw SyntaxError.
Proof.
  intros Hname Hn Hre.
  destruct (build_searchQuery RegExp (q_bookID req) (q_name req)) as [q | e] eqn:Hb.
  - exfalso. revert Hb. unfold build_searchQuery. rewrite Hname.
    assert (Ht : is_some (q_bookID req) || truthy_string (Some n) = true).
    { unfold truthy_string. destruct (String.eqb_spec n ""); [contradiction |].
      apply orb_true_r. }
    rewrite Ht, Hre. destruct (String.eqb_spec n ""); [contradiction |].
    discriminate.
  - apply build_searchQuery_throws in Hb. destruct Hb as (-> & _). reflexivity.
Qed.

(** The handler, case by case. *)
Lemma searchBooks_malformed (s : Store) (req : SearchRequest) (n : string) :
  q_name req = Some n -> n <> ""%string -> RegExp n = None ->
  searchBooks RegExp year s req = Throw SyntaxError.
Proof.
  intros Hname Hn Hre. unfold searchBooks.
  rewrite (pattern_rejected req n Hname Hn Hre). reflexivity.
Qed.

Lemma searchBooks_built (s : Store) (req : SearchRequest) (q : SearchQuery) :
  build_searchQuery RegExp (q_bookID req) (q_name req) = Ok q ->
  searchBooks RegExp year s req
  = if Nat.eqb (catalog_size s) 0 then
      Throw (HttpError ERROR_COUNTING_BOOKS INTERNAL_SERVER_ERROR)
    else if Js.gt (search_pageNumber req) (catalog_pages s req) then
      Throw (HttpError INVALID_PAGE_NUMBER BAD_REQUEST)
    else
      match search_aggregate year s q (search_skip req) (search_limit req) with
      | Throw e => Throw e
      | Ok [] => Throw (HttpError BOOK_NOT_FOUND NOT_FOUND)
      | Ok (b :: bs) =>
          Ok {| searchedBooks := b :: bs;
                pagination := {| page := search_pageNumber req;
                                 pageSize := search_limit req;
                                 totalPages := catalog_pages s req |} |}
      end.
Proof.
  intros Hq. unfold searchBooks. rewrite Hq. cbn [bind].
  fold (catalog_size s). fold (catalog_pages s req).
  destruct (Nat.eqb (catalog_size s) 0); [reflexivity |].
  destruct (Js.gt (search_pageNumber req) (catalog_pages s req)); [reflexivity |].
  destruct (search_aggregate year s q _ _) as [[| b bs] | e]; reflexivity.
Qed.


Lemma searchBooks_beyond (s : Store) (req : SearchRequest) :
  pattern_accepted RegExp req ->
  catalog_size s <> 0%nat ->
  Js.gt (search_pageNumber req) (catalog_pages s req) = true ->
  searchBooks RegExp year s req = Throw (HttpError INVALID_PAGE_NUMBER BAD_REQUEST).
Proof.
  intros Hacc HN Hgt. destruct (build_searchQuery_accepted req Hacc) as (q & Hq).
  rewrite (searchBooks_built s req q Hq), Hgt.
  destruct (Nat.eqb_spec (catalog_size s) 0); [contradiction | reflexivity].
Qed.

Lemma searchBooks_within (s : Store) (req : SearchRequest) (q : SearchQuery) :
  build_searchQuery RegExp (q_bookID req) (q_name req) = Ok q ->
  catalog_size s <> 0%nat ->
  Js.gt (search_pageNumber req) (catalog_pages s req) = false ->
  searchBooks RegExp year s req
  = match search_aggregate year s q (search_skip req) (search_limit req) with
    | Throw e => Throw e
    | Ok [] => Throw (HttpError BOOK_NOT_FOUND NOT_FOUND)
    | Ok (b :: bs) =>
        Ok {| searchedBooks := b :: bs;
              pagination := {| page := search_pageNumber req;
                               pageSize := search_limit req;
                               totalPages := catalog_pages s req |} |}
    end.
Proof.
  intros Hq HN Hgt. rewrite (searchBooks_built s req q Hq), Hgt.
  destruct (Nat.eqb_spec (catalog_size s) 0); [contradiction | reflexivity].
Qed.

(** A search that answers has built its query, found books in the
    catalogue and passed the page check. *)
Lemma searchBooks_ok (s : Store) (req : SearchRequest) (r : SearchResponse) :
  searchBooks RegExp year s req = Ok r ->
  exists q,
    build_searchQuery RegExp (q_bookID req) (q_name req) = Ok q
    /\ catalog_size s <> 0%nat
    /\ Js.gt (search_pageNumber req) (catalog_pages s req) = false
    /\ search_aggregate year s q (search_skip req) (search_limit req)
       = Ok (searchedBooks r)
    /\ searchedBooks r <> []
    /\ pagination r = {| page := search_pageNumber req;
                         pageSize := search_limit req;
                         totalPages := catalog_pages s req |}.
Proof.
  intros H.
  destruct (build_searchQuery RegExp (q_bookID req) (q_name req)) as [q | e] eqn:Hq.
  2: { unfold searchBooks in H. rewrite Hq in H. discriminate. }
  rewrite (searchBooks_built s req q Hq) in H.
  destruct (Nat.eqb_spec (catalog_size s) 0) as [E | HN]; [discriminate |].
  destruct (Js.gt (search_pageNumber req) (catalog_pages s req)) eqn:Hgt;
    [discriminate |].
  destruct (search_aggregate year s q _ _) as [[| b bs] | e] eqn:Hagg;
    try discriminate.
  injection H as <-. exists q. cbn [searchedBooks pagination].
  split; [reflexivity |]. split; [exact HN |]. split; [reflexivity |].
  split; [exact Hagg |]. split; [discriminate | reflexivity].
Qed.

(** INVALID_PAGE_NUMBER is thrown by the page check and by nothing else. *)
Lemma searchBooks_invalid_page_iff (s : Store) (req : SearchRequest) (st : Status) :
  searchBooks RegExp year s req = Throw (HttpError INVALID_PAGE_NUMBER st)
  <-> pattern_accepted RegExp req
      /\ catalog_size s <> 0%nat
      /\ Js.gt (search_pageNumber req) (catalog_pages s req) = true
      /\ st = BAD_REQUEST.
Proof.
  split.
  - intros H.
    destruct (build_searchQuery RegExp (q_bookID req) (q_name req)) as [q | e] eqn:Hq.
    2: { unfold searchBooks in H. rewrite Hq in H. cbn [bind] in H.
         apply build_searchQuery_throws in Hq. destruct Hq as (-> & _).
         discriminate. }
    assert (Hacc : pattern_accepted RegExp req).
    { intros n Hname Hn Hre. rewrite (pattern_rejected req n Hname Hn Hre) in Hq.
      discriminate. }
    rewrite (searchBooks_built s req q Hq) in H.
    destruct (Nat.eqb_spec (catalog_size s) 0) as [E | HN]; [discriminate |].
    destruct (Js.gt (search_pageNumber req) (catalog_pages s req)) eqn:Hgt.
    + injection H as <-. auto.
    + destruct (search_aggregate year s q _ _) as [[| b bs] | e] eqn:Hagg;
        try discriminate.
      apply skip_limit_throws in Hagg. subst e. discriminate.
  - intros (Hacc & HN & Hgt & ->). apply searchBooks_beyond; assumption.
Qed.

(** With a positive integer page and page size the check reads: the pages
    before the requested one already hold every book of the catalogue. *)
Lemma page_check_integers (s : Store) (req : SearchRequest) (p l : Z) :
  q_page req = Some (Js.Fin p) ->
  q_pageSize req = Some (Js.Fin l) ->
  0 < p -> 0 < l ->
  search_pageNumber req = Js.Fin p
  /\ search_limit req = Js.Fin l
  /\ (Js.gt (search_pageNumber req) (catalog_pages s req) = true
      <-> Z.of_nat (catalog_size s) <= l * (p - 1)).
Proof.
  intros Hp Hl Hp0 Hl0.
  assert (Epage : search_pageNumber req = Js.Fin p).
  { unfold search_pageNumber, Number_, Js.or, Js.truthy. rewrite Hp.
    destruct (Z.eqb_spec p 0); [lia | reflexivity]. }
  assert (Elim : search_limit req = Js.Fin l).
  { unfold search_limit, Number_, Js.or, Js.truthy. rewrite Hl.
    destruct (Z.eqb_spec l 0); [lia | reflexivity]. }
  split; [exact Epage |]. split; [exact Elim |].
  unfold catalog_pages, Js.of_nat. rewrite Epage, Elim.
  destruct (ceil_div_bounds (Z.of_nat (catalog_size s)) l Hl0) as (c & -> & Hc).
  cbn [Js.gt]. rewrite Z.ltb_lt. nia.
Qed.



(** C9. In a successful search the [totalPages] of the pagination is
    [ceil(N / pageSize)] for [N] the number of books of the whole catalogue
    that are not deleted.  The page check is made against that same [N],
    whatever the filters select: with the page size of the call, any page
    and any accepted filters fail with INVALID_PAGE_NUMBER exactly when the
    page number exceeds [ceil(N / pageSize)], and a search that answers
    reports the same [totalPages]. *)
Theorem total_pages_catalog_wide (s : Store) (req : SearchRequest) (r : SearchResponse) :
  searchBooks RegExp year s req = Ok r ->
  totalPages (pagination r)
  = Js.ceil_div (Js.of_nat (countDocuments not_deleted (books s))) (search_limit req)
  /\ forall name bookID page',
       let req' := with_page page' (with_filters name bookID req) in
       pattern_accepted RegExp req' ->
       (searchBooks RegExp year s req'
        = Throw (HttpError INVALID_PAGE_NUMBER BAD_REQUEST)
        <-> Js.gt (search_pageNumber req')
                  (Js.ceil_div (Js.of_nat (countDocuments not_deleted (books s)))
                               (search_limit req)) = true)
       /\ (forall r', searchBooks RegExp year s req' = Ok r' ->
                      totalPages (pagination r') = totalPages (pagination r)).
Proof.
  intros H.
  destruct (searchBooks_ok s req r H) as (q & _ & HN & _ & _ & _ & Hpag).
  split; [rewrite Hpag; reflexivity |].
  intros name bookID page'. cbn zeta. intros Hacc.
  set (req' := with_page page' (with_filters name bookID req)).
  assert (Hpages : catalog_pages s req' = catalog_pages s req) by reflexivity.
  fold (catalog_size s). fold (catalog_pages s req). rewrite <- Hpages. split.
  - rewrite searchBooks_invalid_page_iff. tauto.
  - intros r' Hr'.
    destruct (searchBooks_ok s req' r' Hr') as (q' & _ & _ & _ & _ & _ & Hpag').
    rewrite Hpag, Hpag'. reflexivity.
Qed.

End Search.

(** Page 2 of the sample catalogue at one book a page. *)
Example search_second_page :
  searchBooks Sample.RegExp Sample.year Sample.library
    {| q_name := None; q_bookID := None;
       q_page := Some (Js.Fin 2); q_pageSize := Some (Js.Fin 1) |}
  = Ok {| searchedBooks :=
            [ {| SearchedBook._id := 3%nat; SearchedBook.bookID := 103;
                 SearchedBook.name := "Ulysses"; SearchedBook.author := "Joyce";
                 SearchedBook.stock := 4; SearchedBook.rating := 0%Q;
                 SearchedBook.reviewCount := 0; SearchedBook.publishYear := 1970;
                 SearchedBook.coverImage := [] |} ];
          pagination := {| page := Js.Fin 2; pageSize := Js.Fin 1;
                           totalPages := Js.Fin 2 |} |}.
Proof. reflexivity. Qed.

(** The same page with a name filter that one book matches, in another
    case: the page check still passes, against the two books of the
    catalogue, and the empty slice is reported as BOOK_NOT_FOUND. *)
Example search_second_page_filtered :
  searchBooks Sample.RegExp Sample.year Sample.library
    {| q_name := Some "dune"%string; q_bookID := None;
       q_page := Some (Js.Fin 2); q_pageSize := Some (Js.Fin 1) |}
  = Throw (HttpError BOOK_NOT_FOUND NOT_FOUND).
Proof. reflexivity. Qed.

Example search_third_page :
  searchBooks Sample.RegExp Sample.year Sample.library
    {| q_name := None; q_bookID := None;
       q_page := Some (Js.Fin 3); q_pageSize := Some (Js.Fin 1) |}
  = Throw (HttpError INVALID_PAGE_NUMBER BAD_REQUEST).
Proof. reflexivity. Qed.

Lemma sample_pattern_accepted (bookID : option Z) (page pageSize : QueryNumber)
    (name : option string) :
  match name with
  | Some n => Sample.literal n = true
  | None => True
  end ->
  pattern_accepted Sample.RegExp
    {| q_name := name; q_bookID := bookID; q_page := page; q_pageSize := pageSize |}.
Proof.
  intros Hlit n Hname _. cbn [q_name] in Hname. subst name.
  unfold Sample.RegExp. rewrite Hlit. discriminate.
Qed.





Lemma total_pages_catalog_wide_sample :
  exists r,
    searchBooks Sample.RegExp Sample.year Sample.library
      {| q_name := Some "Dune"%string; q_bookID := None;
         q_page := Some (Js.Fin 1); q_pageSize := Some (Js.Fin 1) |} = Ok r
    /\ totalPages (pagination r)
       = Js.ceil_div
           (Js.of_nat (countDocuments not_deleted (books Sample.library)))
           (Js.Fin 1)
    /\ totalPages (pagination r) = Js.Fin 2
    /\ (searchBooks Sample.RegExp Sample.year Sample.library
          {| q_name := Some "Dune"%string; q_bookID := None;
             q_page := Some (Js.Fin 3); q_pageSize := Some (Js.Fin 1) |}
        = Throw (HttpError INVALID_PAGE_NUMBER BAD_REQUEST)).
Proof.
  eexists. split; [reflexivity |].
  destruct (total_pages_catalog_wide Sample.RegExp Sample.year Sample.library
              {| q_name := Some "Dune"%string; q_bookID := None;
                 q_page := Some (Js.Fin 1); q_pageSize := Some (Js.Fin 1) |}
              _ eq_refl) as (Htotal & Hcheck).
  split; [exact Htotal |]. split; [reflexivity |].
  apply (proj1 (Hcheck (Some "Dune"%string) None (Some (Js.Fin 3))
                  (sample_pattern_accepted _ _ _ (Some "Dune"%string) eq_refl))).
  reflexivity.
Defined.

(** ** The rating aggregate *)

Lemma avg_null (xs : list Z) : avg xs = None <-> xs = [].
Proof. destruct xs; split; intros H; try reflexivity; discriminate. Qed.

Lemma avg_nonempty (xs : list Z) :
  xs <> [] -> avg xs = Some (Qmake (sum xs) (Pos.of_nat (length xs))).
Proof. destruct xs; [contradiction | reflexivity]. Qed.

(** The average times the number of values is their sum. *)
Lemma avg_mean (xs : list Z) (q : Q) :
  avg xs = Some q ->
  (q * inject_Z (Z.of_nat (length xs)) == inject_Z (sum xs))%Q.
Proof.
  intros H.
  assert (Hne : xs <> []) by (intros ->; discriminate).
  rewrite (avg_nonempty xs Hne) in H. injection H as <-.
  assert (Hlen : Z.pos (Pos.of_nat (length xs)) = Z.of_nat (length xs)).
  { rewrite <- positive_nat_Z, Nat2Pos.id; [reflexivity |].
    destruct xs; [contradiction | discriminate]. }
  unfold Qeq, Qmult, inject_Z. cbn [Qnum Qden].
  rewrite Pos.mul_1_r, Z.mul_1_r, Hlen. reflexivity.
Qed.

(** In the search results the rating of a book is the average of its rating
    rows, and [0] when it has none. *)
Lemma search_project_rating (year : Z -> Z) (s : Store) (b : Book.t) :
  let shown := SearchedBook.rating (search_project year s b) in
  (ratings_of s b = [] -> shown = 0%Q)
  /\ (ratings_of s b <> [] ->
      (shown * inject_Z (Z.of_nat (length (ratings_of s b)))
       == inject_Z (sum (ratings_of s b)))%Q).
Proof.
  cbn zeta. unfold search_project. cbn [SearchedBook.rating].
  fold (ratings_of s b). split.
  - intros ->. reflexivity.
  - intros Hne. destruct (avg (ratings_of s b)) as [q |] eqn:Havg.
    + cbn [ifNull]. apply avg_mean. exact Havg.
    + apply avg_null in Havg. contradiction.
Qed.

(** In the catalogue details the rating of a book is the average of its
    rating rows, and [null] when it has none. *)
Lemma details_project_rating (s : Store) (b : Book.t) :
  let shown := BookDetail.rating (details_project s b) in
  (ratings_of s b = [] -> shown = None)
  /\ (ratings_of s b <> [] ->
      exists q, shown = Some q
                /\ (q * inject_Z (Z.of_nat (length (ratings_of s b)))
                    == inject_Z (sum (ratings_of s b)))%Q).
Proof.
  cbn zeta. unfold details_project. cbn [BookDetail.rating].
  fold (ratings_of s b). split.
  - intros ->. reflexivity.
  - intros Hne. destruct (avg (ratings_of s b)) as [q |] eqn:Havg.
    + exists q. split; [reflexivity |]. apply avg_mean. exact Havg.
    + apply avg_null in Havg. contradiction.
Qed.

(** C4, at a catalogue whose only book has no rating row: the catalogue
    details report the rating of that book as [null], not as [0], while the
    search reports [0]. *)
Theorem unrated_book_details_null :
  ratings_of Sample.unrated_library Sample.ulysses = []
  /\ (exists d,
        getAllBookDetails Sample.unrated_library
        = Ok {| books_ := [d]; totalBooks_ := 1 |}
        /\ BookDetail.bookID d = 103
        /\ BookDetail.rating d = None
        /\ BookDetail.rating d <> Some 0%Q)
  /\ (exists b,
        searchBooks Sample.RegExp Sample.year Sample.unrated_library
          {| q_name := None; q_bookID := None; q_page := None; q_pageSize := None |}
        = Ok {| searchedBooks := [b];
                pagination := {| page := Js.Fin 1; pageSize := Js.Fin 10;
                                 totalPages := Js.Fin 1 |} |}
        /\ SearchedBook.bookID b = 103
        /\ SearchedBook.rating b = 0%Q).
Proof.
  split; [reflexivity |]. split.
  - eexists. split; [reflexivity |].
    cbn. repeat split. discriminate.
  - eexists. split; [reflexivity |]. split; reflexivity.
Qed.

Example rating_average_dune :
  SearchedBook.rating (search_project Sample.year Sample.library Sample.dune)
  = (9 # 2)%Q.
Proof. reflexivity. Qed.

(** ** The reviews summary *)

Section ReviewsSummaryFacts.

Variable count : Z -> nat.
Variable fetch : Z -> Js.Num -> Js.Num -> option ReviewsPage.

(** The handler over any review service: the page check comes first and
  reads the count; the fetched page decides the rest. *)
Lemma reviews_summary_cases (bookID : Z) (page pageSize : QueryNumber) :
let result := getBookReviewsSummary count fetch bookID page pageSize in
let pages := Js.ceil_div (Js.of_nat (count bookID)) (reviews_limit pageSize) in
let fetched := fetch bookID (reviews_skip page pageSize) (reviews_limit pageSize) in
(result = Throw (HttpError INVALID_PAGE_NUMBER BAD_REQUEST)
 <-> Js.gt (reviews_pageNumber page) pages = true)
/\ (Js.gt (reviews_pageNumber page) pages = false ->
    (result = Throw (HttpError NO_REVIEWS_FOUND NOT_FOUND)
     <-> fetched = None \/ exists r, fetched = Some r /\ length_ r = 0%nat))
/\ (forall r, result = Ok r ->
              totalPages (reviews_pagination r) = pages
              /\ exists p, fetched = Some p /\ reviews r = bookReviews p).
Proof.
cbn zeta. unfold getBookReviewsSummary.
destruct (Js.gt (reviews_pageNumber page) _) eqn:Hgt.
- split; [tauto |]. split; discriminate.
- destruct (fetch bookID _ _) as [p |].
  + destruct (Nat.eqb_spec (length_ p) 0) as [E | NE].
    * split; [split; discriminate |]. split; [| discriminate].
      intros _. split; [| reflexivity].
      intros _. right. exists p. auto.
    * split; [split; discriminate |]. split.
      -- intros _. split; [discriminate |].
         intros [H | (r' & H & E)]; [discriminate |].
         injection H as <-. contradiction.
      -- intros r H. injection H as <-.
         split; [reflexivity |]. exists p. auto.
  + split; [split; discriminate |]. split; [| discriminate].
    intros _. split; [| reflexivity]. intros _. left. reflexivity.
Qed.

End ReviewsSummaryFacts.

(** C8. The reviews summary reads the total count of the reviews of the
    book first; it fails with INVALID_PAGE_NUMBER exactly when the page
    number exceeds [ceil(totalReviews / pageSize)]; otherwise it fails with
    NO_REVIEWS_FOUND exactly when the fetched page slice is empty, and
    answers with that slice and the number of pages when it is not. *)
Theorem reviews_summary_checks (s : Store) (bookID : Z) (page pageSize : QueryNumber) :
  let result :=
    getBookReviewsSummary (getReviewsCount s) (getReviews s) bookID page pageSize in
  let pages :=
    Js.ceil_div (Js.of_nat (getReviewsCount s bookID)) (reviews_limit pageSize) in
  let slice :=
    reviews_slice s bookID (reviews_skip page pageSize) (reviews_limit pageSize) in
  (result = Throw (HttpError INVALID_PAGE_NUMBER BAD_REQUEST)
   <-> Js.gt (reviews_pageNumber page) pages = true)
  /\ (Js.gt (reviews_pageNumber page) pages = false ->
      (result = Throw (HttpError NO_REVIEWS_FOUND NOT_FOUND) <-> slice = []))
  /\ (forall r, result = Ok r ->
                totalPages (reviews_pagination r) = pages /\ reviews r = slice).
Proof.
  cbn zeta.
  destruct (reviews_summary_cases (getReviewsCount s) (getReviews s)
              bookID page pageSize) as (Hpage & Hnone & Hok).
  split; [exact Hpage |]. split.
  - intros Hgt. rewrite (Hnone Hgt). unfold getReviews. split.
    + intros [H | (r & H & E)]; [discriminate |].
      injection H as <-. cbn [length_] in E.
      apply length_zero_iff_nil. exact E.
    + intros E. right. eexists. split; [reflexivity |].
      cbn [length_]. rewrite E. reflexivity.
  - intros r Hr. destruct (Hok r Hr) as (Htp & p & Hp & Hrev).
    split; [exact Htp |].
    unfold getReviews in Hp. injection Hp as <-. exact Hrev.
Qed.

Lemma reviews_summary_checks_sample :
  getBookReviewsSummary (getReviewsCount Sample.library) (getReviews Sample.library)
    101 (Some (Js.Fin 2)) None
  = Throw (HttpError INVALID_PAGE_NUMBER BAD_REQUEST)
  /\ getBookReviewsSummary (getReviewsCount Sample.library) (getReviews Sample.library)
       103 None (Some (Js.Fin 0))
     = Throw (HttpError NO_REVIEWS_FOUND NOT_FOUND).
Proof.
  split.
  - apply (proj1 (reviews_summary_checks Sample.library 101 (Some (Js.Fin 2)) None)).
    reflexivity.
  - apply (proj1 (proj2 (reviews_summary_checks Sample.library 103 None
                           (Some (Js.Fin 0))))).
    + reflexivity.
    + reflexivity.
Defined.

Example reviews_summary_first_page :
  getBookReviewsSummary (getReviewsCount Sample.library) (getReviews Sample.library)
    101 None None
  = Ok {| reviews := bookreviews Sample.library;
          reviews_pagination := {| page := Js.Fin 1; pageSize := Js.Fin 10;
                                   totalPages := Js.Fin 1 |} |}.
Proof. reflexivity. Qed.

(** * Further properties of the controller *)

(** ** Days and amounts *)

Lemma ceil_div_monotone (b a a' n n' : Z) :
  0 < b -> a <= a' ->
  b * (n - 1) < a <= b * n ->
  b * (n' - 1) < a' <= b * n' ->
  n <= n'.
Proof. intros Hb Ha Hn Hn'. nia. Qed.

(** X1. For one issue date, a later return never shows fewer used days, nor,
    at a rate that is not negative, a smaller amount. *)
Theorem used_days_monotone (issue submit submit' : Z) (book : Book.t) :
  submit <= submit' ->
  0 <= Book.charges book ->
  exists d d' : Z,
    formatHistory {| ph_issueDate := issue; ph_submitDate := Some submit;
                     ph_bookID := Some book |}
    = Ok {| issueDate := issue; submitDate := Some submit;
            usedDays := Some (Js.Fin d);
            totalAmount := Some (Js.Fin (d * Book.charges book)) |}
    /\ formatHistory {| ph_issueDate := issue; ph_submitDate := Some submit';
                        ph_bookID := Some book |}
       = Ok {| issueDate := issue; submitDate := Some submit';
               usedDays := Some (Js.Fin d');
               totalAmount := Some (Js.Fin (d' * Book.charges book)) |}
    /\ d <= d'
    /\ d * Book.charges book <= d' * Book.charges book.
Proof.
  intros Hle Hrate.
  destruct (formatHistory_submitted issue submit book) as (d & Hf & Hb).
  destruct (formatHistory_submitted issue submit' book) as (d' & Hf' & Hb').
  assert (Hdd : d <= d').
  { apply (ceil_div_monotone MS_PER_DAY (submit - issue) (submit' - issue));
      try assumption; [rewrite MS_PER_DAY_value; lia | lia]. }
  exists d, d'. repeat split; try assumption.
  apply Z.mul_le_mono_nonneg_r; assumption.
Qed.

Lemma used_days_monotone_sample :
  3 * Sample.DAY <= 3 * Sample.DAY + 1
  /\ exists d d' : Z,
       formatHistory {| ph_issueDate := 0; ph_submitDate := Some (3 * Sample.DAY);
                        ph_bookID := Some Sample.dune |}
       = Ok {| issueDate := 0; submitDate := Some (3 * Sample.DAY);
               usedDays := Some (Js.Fin d);
               totalAmount := Some (Js.Fin (d * Book.charges Sample.dune)) |}
       /\ formatHistory {| ph_issueDate := 0;
                           ph_submitDate := Some (3 * Sample.DAY + 1);
                           ph_bookID := Some Sample.dune |}
          = Ok {| issueDate := 0; submitDate := Some (3 * Sample.DAY + 1);
                  usedDays := Some (Js.Fin d');
                  totalAmount := Some (Js.Fin (d' * Book.charges Sample.dune)) |}
       /\ d <= d'
       /\ d * Book.charges Sample.dune <= d' * Book.charges Sample.dune.
Proof.
  split; [vm_compute; discriminate |].
  apply (used_days_monotone 0 (3 * Sample.DAY) (3 * Sample.DAY + 1) Sample.dune).
  - vm_compute; discriminate.
  - vm_compute; discriminate.
Defined.

(** X2. The callback has no guard on the order of the two dates: a submit
    date before the issue date is answered like any other, with used days
    and, at a rate that is not negative, an amount that are zero or
    negative; both are zero when the submit date is less than a day early. *)
Theorem early_return_not_rejected (issue submit : Z) (book : Book.t) :
  submit < issue ->
  0 <= Book.charges book ->
  exists d : Z,
    formatHistory {| ph_issueDate := issue; ph_submitDate := Some submit;
                     ph_bookID := Some book |}
    = Ok {| issueDate := issue; submitDate := Some submit;
            usedDays := Some (Js.Fin d);
            totalAmount := Some (Js.Fin (d * Book.charges book)) |}
    /\ d <= 0
    /\ d * Book.charges book <= 0
    /\ (issue - 86400000 < submit -> d = 0 /\ d * Book.charges book = 0).
Proof.
  intros Hlt Hrate.
  destruct (formatHistory_submitted issue submit book) as (d & Hf & Hb).
  rewrite MS_PER_DAY_value in Hb.
  assert (Hd : d <= 0) by lia.
  exists d. split; [exact Hf |]. split; [exact Hd |]. split.
  - apply Z.mul_nonpos_nonneg; assumption.
  - intros Hday. assert (d = 0) by lia. subst d. split; reflexivity.
Qed.

Lemma early_return_not_rejected_sample :
  formatHistory {| ph_issueDate := Sample.DAY; ph_submitDate := Some 1;
                   ph_bookID := Some Sample.dune |}
  = Ok {| issueDate := Sample.DAY; submitDate := Some 1;
          usedDays := Some (Js.Fin 0); totalAmount := Some (Js.Fin 0) |}.
Proof.
  destruct (early_return_not_rejected Sample.DAY 1 Sample.dune)
    as (d & Hf & _ & _ & Hzero).
  - vm_compute; reflexivity.
  - vm_compute; discriminate.
  - destruct Hzero as [-> _]; [vm_compute; reflexivity |]. exact Hf.
Defined.

(** ** Outcomes of the issue history *)

Lemma formatHistory_throws (ph : PopulatedHistory) (e : Exception) :
  formatHistory ph = Throw e ->
  e = TypeError /\ ph_submitDate ph <> None /\ ph_bookID ph = None.
Proof.
  unfold formatHistory.
  destruct (ph_submitDate ph) as [sd |]; [| discriminate].
  destruct (ph_bookID ph) as [book |]; [discriminate |].
  cbn [bind]. intros H. injection H as <-.
  repeat split. discriminate.
Qed.

(** A [map] throws what its callback throws on some element. *)
Lemma mapM_throws {A B : Type} (f : A -> Result B) (xs : list A) (e : Exception) :
  mapM f xs = Throw e -> exists x, In x xs /\ f x = Throw e.
Proof.
  induction xs as [| x xs IH]; [discriminate |].
  cbn [mapM]. destruct (f x) as [y | e'] eqn:Hfx.
  - cbn [bind]. destruct (mapM f xs) as [ys | e''] eqn:Hm; [discriminate |].
    cbn [bind]. intros H. injection H as ->.
    destruct (IH eq_refl) as (z & Hz & Hfz).
    exists z. split; [right; exact Hz | exact Hfz].
  - cbn [bind]. intros H. injection H as ->.
    exists x. split; [left; reflexivity | exact Hfx].
Qed.

(** A [map] answers only if its callback answers on every element. *)
Lemma mapM_answers {A B : Type} (f : A -> Result B) (xs : list A) (ys : list B) :
  mapM f xs = Ok ys -> Forall2 (fun x y => f x = Ok y) xs ys.
Proof.
  revert ys. induction xs as [| x xs IH]; intros ys.
  - cbn [mapM]. intros H. injection H as <-. constructor.
  - cbn [mapM]. destruct (f x) as [y | e] eqn:Hfx; [| discriminate].
    cbn [bind]. destruct (mapM f xs) as [ys' | e] eqn:Hm; [| discriminate].
    cbn [bind]. intros H. injection H as <-.
    constructor; [exact Hfx | apply IH; reflexivity].
Qed.

Lemma Forall2_In_left {A B : Type} (R : A -> B -> Prop) (xs : list A) (ys : list B)
    (x : A) :
  Forall2 R xs ys -> In x xs -> exists y, In y ys /\ R x y.
Proof.
  induction 1 as [| x0 y0 xs ys Hxy _ IH]; intros Hin; [contradiction |].
  destruct Hin as [-> | Hin].
  - exists y0. split; [left; reflexivity | exact Hxy].
  - destruct (IH Hin) as (y & Hy & Rxy). exists y. split; [right |]; assumption.
Qed.

Lemma getBookIssueHistory_found (s : Store) (email : string) (user : User.t) :
  User_findOne s email = Some user ->
  getBookIssueHistory s email
  = match histories_of s user with
    | [] => Throw (HttpError BOOK_HISTORY_NOT_FOUND NOT_FOUND)
    | _ :: _ => mapM (fun h => formatHistory (populate s h)) (histories_of s user)
    end.
Proof.
  intros Huser. unfold getBookIssueHistory. rewrite Huser.
  fold (histories_of s user).
  destruct (histories_of s user) as [| h hs]; [reflexivity |].
  change (mapM formatHistory (map (populate s) (h :: hs))
          = mapM (fun h => formatHistory (populate s h)) (h :: hs)).
  apply mapM_map.
Qed.

(** X3. The issue history fails in three ways only: with USER_NOT_FOUND
    exactly when no user has the email; for a user, with
    BOOK_HISTORY_NOT_FOUND exactly when the user has no history row, and with
    a TypeError exactly when one of the returned rows of the user refers to
    a book that is no longer in the catalogue.  An active loan of such a
    book does not make it fail. *)
Theorem issue_history_outcomes (s : Store) (email : string) :
  (getBookIssueHistory s email = Throw (HttpError USER_NOT_FOUND NOT_FOUND)
   <-> User_findOne s email = None)
  /\ forall user, User_findOne s email = Some user ->
       (getBookIssueHistory s email
        = Throw (HttpError BOOK_HISTORY_NOT_FOUND NOT_FOUND)
        <-> histories_of s user = [])
       /\ (getBookIssueHistory s email = Throw TypeError
           <-> dangling_return s user)
       /\ (forall e, getBookIssueHistory s email = Throw e ->
                     e = HttpError BOOK_HISTORY_NOT_FOUND NOT_FOUND
                     \/ e = TypeError).
Proof.
  assert (Hcases : forall user, User_findOne s email = Some user ->
            forall e, getBookIssueHistory s email = Throw e ->
              (e = HttpError BOOK_HISTORY_NOT_FOUND NOT_FOUND
               /\ histories_of s user = [])
              \/ (e = TypeError /\ histories_of s user <> []
                  /\ dangling_return s user)).
  { intros user Huser e H.
    rewrite (getBookIssueHistory_found s email user Huser) in H.
    destruct (histories_of s user) as [| h hs] eqn:Erows.
    - injection H as <-. left. auto.
    - right. apply mapM_throws in H. destruct H as (x & Hx & Hfx).
      apply formatHistory_throws in Hfx. destruct Hfx as (-> & Hsub & Hbook).
      split; [reflexivity |]. split; [discriminate |].
      exists x. unfold dangling_return. rewrite Erows. auto. }
  split.
  - split.
    + intros H. destruct (User_findOne s email) as [user |] eqn:Huser;
        [| reflexivity].
      destruct (Hcases user eq_refl _ H) as [(E & _) | (E & _)]; discriminate.
    + intros Hnone. unfold getBookIssueHistory. rewrite Hnone. reflexivity.
  - intros user Huser. split; [| split].
    + split.
      * intros H. destruct (Hcases user Huser _ H) as [(_ & E) | (E & _)];
          [exact E | discriminate].
      * intros E. rewrite (getBookIssueHistory_found s email user Huser), E.
        reflexivity.
    + split.
      * intros H. destruct (Hcases user Huser _ H) as [(E & _) | (_ & _ & D)];
          [discriminate | exact D].
      * intros (h & Hin & Hsub & Hbook).
        rewrite (getBookIssueHistory_found s email user Huser).
        destruct (histories_of s user) as [| h0 hs] eqn:Erows; [contradiction |].
        destruct (mapM (fun h => formatHistory (populate s h)) (h0 :: hs))
          as [entries | e] eqn:Hm.
        -- apply mapM_answers in Hm.
           destruct (Forall2_In_left _ _ _ h Hm Hin) as (y & _ & Hy).
           rewrite (formatHistory_dangling s h Hsub Hbook) in Hy. discriminate.
        -- apply mapM_throws in Hm. destruct Hm as (x & _ & Hfx).
           apply formatHistory_throws in Hfx. destruct Hfx as (-> & _).
           reflexivity.
    + intros e H. destruct (Hcases user Huser _ H) as [(E & _) | (E & _)]; auto.
Qed.

Lemma issue_history_outcomes_sample :
  getBookIssueHistory SampleAuth.orphaned_library "alice@example.com"
  = Throw TypeError
  /\ getBookIssueHistory Sample.unrated_library "alice@example.com"
     = Throw (HttpError BOOK_HISTORY_NOT_FOUND NOT_FOUND)
  /\ getBookIssueHistory Sample.library "nobody@example.com"
     = Throw (HttpError USER_NOT_FOUND NOT_FOUND).
Proof.
  split; [| split].
  - apply (proj2 (issue_history_outcomes SampleAuth.orphaned_library
                    "alice@example.com") Sample.alice eq_refl).
    exists Sample.returned. split; [left; reflexivity |].
    split; [discriminate | reflexivity].
  - apply (proj2 (issue_history_outcomes Sample.unrated_library
                    "alice@example.com") Sample.alice eq_refl).
    reflexivity.
  - apply (proj1 (issue_history_outcomes Sample.library "nobody@example.com")).
    reflexivity.
Defined.

(** ** The issue history and the summary *)

Lemma formatHistory_keeps_submitDate (ph : PopulatedHistory) (e : FormattedHistory) :
  formatHistory ph = Ok e ->
  submitDate e = ph_submitDate ph /\ issueDate e = ph_issueDate ph.
Proof.
  unfold formatHistory.
  destruct (ph_submitDate ph) as [sd |].
  - destruct (ph_bookID ph) as [book |]; [| discriminate].
    cbn [bind]. intros H. injection H as <-. split; reflexivity.
  - cbn [bind]. intros H. injection H as <-. split; reflexivity.
Qed.

Lemma Forall2_filter_length {A B : Type} (R : A -> B -> Prop)
    (p : A -> bool) (q : B -> bool) (xs : list A) (ys : list B) :
  (forall x y, R x y -> p x = q y) ->
  Forall2 R xs ys ->
  length (List.filter p xs) = length (List.filter q ys).
Proof.
  intros Hpq. induction 1 as [| x y xs ys Hxy _ IH]; [reflexivity |].
  cbn [List.filter]. rewrite (Hpq x y Hxy).
  destruct (q y); cbn [length]; rewrite IH; reflexivity.
Qed.

(** X4. Whenever the issue history of a user answers, the library summary
    of that user answers too and the two agree: the summary counts as issued
    the number of entries of the history, as submitted the number of entries
    that show a submit date, and as not submitted the number of those that
    show none. *)
Theorem summary_agrees_with_history
    (s : Store) (email : string) (entries : list FormattedHistory) :
  getBookIssueHistory s email = Ok entries ->
  exists r : LibrarySummary,
    getLibrarySummary s email = Ok r
    /\ totalIssuedBooks r = Z.of_nat (length entries)
    /\ totalSubmittedBooks r
       = Z.of_nat (length (List.filter shows_return entries))
    /\ totalNotSubmittedBooks r
       = Z.of_nat (length (List.filter (fun e => negb (shows_return e)) entries)).
Proof.
  intros H.
  destruct (User_findOne s email) as [user |] eqn:Huser.
  2: { unfold getBookIssueHistory in H. rewrite Huser in H. discriminate. }
  rewrite (getBookIssueHistory_found s email user Huser) in H.
  destruct (histories_of s user) as [| h0 hs] eqn:Erows; [discriminate |].
  rewrite <- Erows in H. apply mapM_answers in H.
  assert (Hsame : forall h e, formatHistory (populate s h) = Ok e ->
                              submitted h = shows_return e).
  { intros h e Hf. apply formatHistory_keeps_submitDate in Hf.
    destruct Hf as (Hsd & _). unfold submitted, shows_return.
    rewrite Hsd. reflexivity. }
  unfold getLibrarySummary. rewrite Huser.
  eexists. split; [reflexivity |].
  cbn [totalIssuedBooks totalSubmittedBooks totalNotSubmittedBooks].
  unfold countDocuments. rewrite filter_andb. fold (histories_of s user).
  pose proof (Forall2_length H) as Hlen.
  pose proof (Forall2_filter_length _ submitted shows_return _ _ Hsame H) as Hsub.
  pose proof (Forall2_filter_length _ (fun h => negb (submitted h))
                (fun e => negb (shows_return e)) _ _
                (fun h e Hf => f_equal negb (Hsame h e Hf)) H) as Hact.
  pose proof (filter_length submitted (histories_of s user)) as Hsplit.
  split; [rewrite Hlen; reflexivity |].
  split; [rewrite Hsub; reflexivity |].
  rewrite <- Hact. lia.
Qed.

Lemma summary_agrees_with_history_alice :
  exists entries r,
    getBookIssueHistory Sample.library "alice@example.com" = Ok entries
    /\ getLibrarySummary Sample.library "alice@example.com" = Ok r
    /\ totalIssuedBooks r = Z.of_nat (length entries)
    /\ totalSubmittedBooks r
       = Z.of_nat (length (List.filter shows_return entries))
    /\ totalNotSubmittedBooks r
       = Z.of_nat (length (List.filter (fun e => negb (shows_return e)) entries)).
Proof.
  eexists.
  destruct (summary_agrees_with_history Sample.library "alice@example.com" _
              eq_refl) as (r & Hr).
  exists r. split; [reflexivity | exact Hr].
Defined.

(** X5. The library summary fails only with USER_NOT_FOUND, and exactly when
    no user has the email; its counts are consistent: the submitted and the
    not submitted books are not negative and add up to the issued ones.  A
    user without any history row is answered with three zeros, where the
    issue history fails with BOOK_HISTORY_NOT_FOUND. *)
Theorem library_summary_outcomes (s : Store) (email : string) :
  (forall e, getLibrarySummary s email = Throw e ->
             e = HttpError USER_NOT_FOUND NOT_FOUND)
  /\ (getLibrarySummary s email = Throw (HttpError USER_NOT_FOUND NOT_FOUND)
      <-> User_findOne s email = None)
  /\ (forall r, getLibrarySummary s email = Ok r ->
                0 <= totalSubmittedBooks r
                /\ 0 <= totalNotSubmittedBooks r
                /\ totalIssuedBooks r
                   = totalSubmittedBooks r + totalNotSubmittedBooks r)
  /\ (forall user, User_findOne s email = Some user ->
                   histories_of s user = [] ->
                   getLibrarySummary s email
                   = Ok {| totalIssuedBooks := 0;
                           totalSubmittedBooks := 0;
                           totalNotSubmittedBooks := 0;
                           totalPaidAmount := User.paidAmount user;
                           totalDueCharges := User.dueCharges user |}
                   /\ getBookIssueHistory s email
                      = Throw (HttpError BOOK_HISTORY_NOT_FOUND NOT_FOUND)).
Proof.
  unfold getLibrarySummary.
  destruct (User_findOne s email) as [user |] eqn:Huser.
  - split; [discriminate |]. split; [split; discriminate |]. split.
    + intros r H. injection H as <-.
      cbn [totalIssuedBooks totalSubmittedBooks totalNotSubmittedBooks].
      unfold countDocuments. rewrite filter_andb.
      pose proof (filter_length_le submitted
                    (List.filter (fun h => Nat.eqb (BookHistory.userID h)
                                                   (User._id user))
                                 (bookhistories s))) as Hle.
      lia.
    + intros user' Heq Hrows. injection Heq as <-. split.
      * unfold countDocuments. rewrite filter_andb.
        fold (histories_of s user). rewrite Hrows. reflexivity.
      * rewrite (getBookIssueHistory_found s email user Huser), Hrows.
        reflexivity.
  - split; [intros e H; injection H as <-; reflexivity |].
    split; [split; reflexivity |]. split; [discriminate |]. discriminate.
Qed.

Lemma library_summary_outcomes_sample :
  getLibrarySummary Sample.unrated_library "alice@example.com"
  = Ok {| totalIssuedBooks := 0; totalSubmittedBooks := 0;
          totalNotSubmittedBooks := 0;
          totalPaidAmount := 40; totalDueCharges := 15 |}
  /\ getBookIssueHistory Sample.unrated_library "alice@example.com"
     = Throw (HttpError BOOK_HISTORY_NOT_FOUND NOT_FOUND).
Proof.
  apply (proj2 (proj2 (proj2 (library_summary_outcomes Sample.unrated_library
                                "alice@example.com"))) Sample.alice).
  - reflexivity.
  - reflexivity.
Defined.

(** ** Outcomes and effects of the review and rating guard *)

Lemma addBookReview_cases (s : Store) (email : string) (bookID : Z) (review : string) :
  addBookReview s email bookID review
  = match User_findOne s email with
    | None => (Throw (HttpError USER_NOT_FOUND NOT_FOUND), s)
    | Some user =>
        match Book_findOne s bookID with
        | None => (Throw (HttpError BOOK_NOT_FOUND NOT_FOUND), s)
        | Some book =>
            match BookReview_findOne s (User._id user) (Book._id book) with
            | Some _ => (Throw (HttpError REVIEW_ALREADY_EXIST BAD_REQUEST), s)
            | None =>
                (Ok tt,
                 snd (BookReview_create s (User._id user) (Book._id book) review))
            end
        end
    end.
Proof.
  unfold addBookReview.
  destruct (User_findOne s email); [| reflexivity].
  destruct (Book_findOne s bookID); [| reflexivity].
  destruct (BookReview_findOne s _ _); reflexivity.
Qed.

Lemma addBookRating_cases (s : Store) (email : string) (bookID : Z) (rating : Z) :
  addBookRating s email bookID rating
  = match User_findOne s email with
    | None => (Throw (HttpError USER_NOT_FOUND NOT_FOUND), s)
    | Some user =>
        match Book_findOne s bookID with
        | None => (Throw (HttpError BOOK_NOT_FOUND NOT_FOUND), s)
        | Some book =>
            match BookRating_findOne s (User._id user) (Book._id book) with
            | Some _ => (Throw (HttpError RATING_ALREADY_EXIST BAD_REQUEST), s)
            | None =>
                (Ok tt,
                 snd (BookRating_create s (User._id user) (Book._id book) rating))
            end
        end
    end.
Proof.
  unfold addBookRating.
  destruct (User_findOne s email); [| reflexivity].
  destruct (Book_findOne s bookID); [| reflexivity].
  destruct (BookRating_findOne s _ _); reflexivity.
Qed.

Lemma found_reviewed (s : Store) (user : User.t) (book : Book.t) (r : BookReview.t) :
  BookReview_findOne s (User._id user) (Book._id book) = Some r ->
  reviewed s user book.
Proof.
  intros H. apply find_some in H. destruct H as (Hin & Hp).
  apply andb_prop in Hp. destruct Hp as (Hu & Hb).
  apply Nat.eqb_eq in Hu. apply Nat.eqb_eq in Hb.
  exists r. auto.
Qed.

Lemma found_rated (s : Store) (user : User.t) (book : Book.t) (r : BookRating.t) :
  BookRating_findOne s (User._id user) (Book._id book) = Some r ->
  rated s user book.
Proof.
  intros H. apply find_some in H. destruct H as (Hin & Hp).
  apply andb_prop in Hp. destruct Hp as (Hu & Hb).
  apply Nat.eqb_eq in Hu. apply Nat.eqb_eq in Hb.
  exists r. auto.
Qed.

(** X6. The outcome of [addBookReview] is decided in this order: it fails
    with USER_NOT_FOUND exactly when no user has the email, whatever the
    book; for a user, with BOOK_NOT_FOUND exactly when no book has the
    business identifier; for a user and a book, with REVIEW_ALREADY_EXIST
    exactly when a review of the pair is on record, and it succeeds exactly
    when none is. *)
Theorem review_outcomes (s : Store) (email : string) (bookID : Z) (review : string) :
  (fst (addBookReview s email bookID review)
   = Throw (HttpError USER_NOT_FOUND NOT_FOUND)
   <-> User_findOne s email = None)
  /\ forall user, User_findOne s email = Some user ->
       (fst (addBookReview s email bookID review)
        = Throw (HttpError BOOK_NOT_FOUND NOT_FOUND)
        <-> Book_findOne s bookID = None)
       /\ forall book, Book_findOne s bookID = Some book ->
            (fst (addBookReview s email bookID review)
             = Throw (HttpError REVIEW_ALREADY_EXIST BAD_REQUEST)
             <-> reviewed s user book)
            /\ (fst (addBookReview s email bookID review) = Ok tt
                <-> ~ reviewed s user book).
Proof.
  rewrite addBookReview_cases.
  destruct (User_findOne s email) as [user |].
  2: { split; [split; reflexivity |]. discriminate. }
  split; [split; [| discriminate] |].
  { destruct (Book_findOne s bookID); [| discriminate].
    destruct (BookReview_findOne s _ _); discriminate. }
  intros user' Heq. injection Heq as <-.
  destruct (Book_findOne s bookID) as [book |].
  2: { split; [split; reflexivity |]. discriminate. }
  split.
  { destruct (BookReview_findOne s _ _); split; discriminate. }
  intros book' Heq. injection Heq as <-.
  destruct (BookReview_findOne s (User._id user) (Book._id book)) as [r |] eqn:Hf.
  - pose proof (found_reviewed s user book r Hf) as Hrev.
    cbn [fst]. split; split; try reflexivity; try discriminate; try tauto.
  - assert (Hno : ~ reviewed s user book).
    { intros Hrev. apply reviewed_found in Hrev. contradiction. }
    cbn [fst]. split; split; try reflexivity; try discriminate; try tauto.
Qed.

Lemma review_outcomes_sample :
  fst (addBookReview Sample.library "nobody@example.com" 999 "Fine.")
  = Throw (HttpError USER_NOT_FOUND NOT_FOUND)
  /\ fst (addBookReview Sample.library "bob@example.com" 999 "Fine.")
     = Throw (HttpError BOOK_NOT_FOUND NOT_FOUND)
  /\ fst (addBookReview Sample.library "bob@example.com" 101 "Fine.") = Ok tt.
Proof.
  split; [| split].
  - apply (proj1 (review_outcomes Sample.library "nobody@example.com" 999 "Fine.")).
    reflexivity.
  - apply (proj1 (proj2 (review_outcomes Sample.library "bob@example.com" 999
                           "Fine.") Sample.bob eq_refl)).
    reflexivity.
  - apply (proj2 (proj2 (proj2 (review_outcomes Sample.library "bob@example.com"
                                  101 "Fine.") Sample.bob eq_refl)
                          Sample.dune eq_refl)).
    intros (r & Hin & Hu & _).
    vm_compute in Hin. destruct Hin as [<- | []]. vm_compute in Hu. discriminate.
Defined.

(** X7. The outcome of [addBookRating] is decided in the same order:
    USER_NOT_FOUND exactly when no user has the email; for a user,
    BOOK_NOT_FOUND exactly when no book has the business identifier; for a
    user and a book, RATING_ALREADY_EXIST exactly when a rating of the pair
    is on record, and success exactly when none is. *)
Theorem rating_outcomes (s : Store) (email : string) (bookID : Z) (rating : Z) :
  (fst (addBookRating s email bookID rating)
   = Throw (HttpError USER_NOT_FOUND NOT_FOUND)
   <-> User_findOne s email = None)
  /\ forall user, User_findOne s email = Some user ->
       (fst (addBookRating s email bookID rating)
        = Throw (HttpError BOOK_NOT_FOUND NOT_FOUND)
        <-> Book_findOne s bookID = None)
       /\ forall book, Book_findOne s bookID = Some book ->
            (fst (addBookRating s email bookID rating)
             = Throw (HttpError RATING_ALREADY_EXIST BAD_REQUEST)
             <-> rated s user book)
            /\ (fst (addBookRating s email bookID rating) = Ok tt
                <-> ~ rated s user book).
Proof.
  rewrite addBookRating_cases.
  destruct (User_findOne s email) as [user |].
  2: { split; [split; reflexivity |]. discriminate. }
  split; [split; [| discriminate] |].
  { destruct (Book_findOne s bookID); [| discriminate].
    destruct (BookRating_findOne s _ _); discriminate. }
  intros user' Heq. injection Heq as <-.
  destruct (Book_findOne s bookID) as [book |].
  2: { split; [split; reflexivity |]. discriminate. }
  split.
  { destruct (BookRating_findOne s _ _); split; discriminate. }
  intros book' Heq. injection Heq as <-.
  destruct (BookRating_findOne s (User._id user) (Book._id book)) as [r |] eqn:Hf.
  - pose proof (found_rated s user book r Hf) as Hrat.
    cbn [fst]. split; split; try reflexivity; try discriminate; try tauto.
  - assert (Hno : ~ rated s user book).
    { intros Hrat. apply rated_found in Hrat. contradiction. }
    cbn [fst]. split; split; try reflexivity; try discriminate; try tauto.
Qed.

Lemma rating_outcomes_sample :
  fst (addBookRating Sample.library "nobody@example.com" 101 5)
  = Throw (HttpError USER_NOT_FOUND NOT_FOUND)
  /\ fst (addBookRating Sample.library "alice@example.com" 999 5)
     = Throw (HttpError BOOK_NOT_FOUND NOT_FOUND)
  /\ fst (addBookRating Sample.library "alice@example.com" 103 4) = Ok tt.
Proof.
  split; [| split].
  - apply (proj1 (rating_outcomes Sample.library "nobody@example.com" 101 5)).
    reflexivity.
  - apply (proj1 (proj2 (rating_outcomes Sample.library "alice@example.com" 999 5)
                    Sample.alice eq_refl)).
    reflexivity.
  - apply (proj2 (proj2 (proj2 (rating_outcomes Sample.library "alice@example.com"
                                  103 4) Sample.alice eq_refl)
                          Sample.ulysses eq_refl)).
    intros (r & Hin & _ & Hb).
    vm_compute in Hin. destruct Hin as [<- | [<- | []]];
      vm_compute in Hb; discriminate.
Defined.

Lemma NoDup_snoc {A : Type} (xs : list A) (x : A) :
  NoDup xs -> ~ In x xs -> NoDup (xs ++ [x]).
Proof.
  induction 1 as [| y ys Hy _ IH]; intros Hx.
  - constructor; [intros [] | constructor].
  - cbn [app]. constructor.
    + intros Hin. apply in_app_or in Hin. destruct Hin as [Hin | [-> | []]].
      * contradiction.
      * apply Hx. left. reflexivity.
    + apply IH. intros Hin. apply Hx. right. exact Hin.
Qed.

Lemma review_pair_reviewed (s : Store) (user : User.t) (book : Book.t) :
  In (User._id user, Book._id book) (review_pairs s) -> reviewed s user book.
Proof.
  unfold review_pairs. intros Hin. apply in_map_iff in Hin.
  destruct Hin as (r & Heq & Hin). injection Heq as Hu Hb.
  exists r. auto.
Qed.

Lemma rating_pair_rated (s : Store) (user : User.t) (book : Book.t) :
  In (User._id user, Book._id book) (rating_pairs s) -> rated s user book.
Proof.
  unfold rating_pairs. intros Hin. apply in_map_iff in Hin.
  destruct Hin as (r & Heq & Hin). injection Heq as Hu Hb.
  exists r. auto.
Qed.

(** X8. Neither guard touches anything but its own collection, and a call
    that fails writes nothing: after [addBookReview] the users, books,
    history rows, ratings and gallery rows are as before, and the reviews
    are as before or have one more row at the end, the latter exactly when
    the call succeeded; likewise for [addBookRating] and the ratings. *)
Theorem guards_write_one_row (s : Store) (email : string) (bookID : Z) :
  (forall review,
     let result := addBookReview s email bookID review in
     users (snd result) = users s
     /\ books (snd result) = books s
     /\ bookhistories (snd result) = bookhistories s
     /\ bookratings (snd result) = bookratings s
     /\ bookgalleries (snd result) = bookgalleries s
     /\ ((exists e, fst result = Throw e) /\ snd result = s
         \/ fst result = Ok tt
            /\ exists doc, bookreviews (snd result) = bookreviews s ++ [doc]))
  /\ (forall rating,
        let result := addBookRating s email bookID rating in
        users (snd result) = users s
        /\ books (snd result) = books s
        /\ bookhistories (snd result) = bookhistories s
        /\ bookreviews (snd result) = bookreviews s
        /\ bookgalleries (snd result) = bookgalleries s
        /\ ((exists e, fst result = Throw e) /\ snd result = s
            \/ fst result = Ok tt
               /\ exists doc, bookratings (snd result) = bookratings s ++ [doc])).
Proof.
  split.
  - intros review. cbn zeta. rewrite addBookReview_cases.
    destruct (User_findOne s email) as [user |];
      [| cbn [fst snd]; repeat split; left; split; [eexists |]; reflexivity].
    destruct (Book_findOne s bookID) as [book |];
      [| cbn [fst snd]; repeat split; left; split; [eexists |]; reflexivity].
    destruct (BookReview_findOne s _ _);
      [cbn [fst snd]; repeat split; left; split; [eexists |]; reflexivity |].
    cbn [fst snd BookReview_create users books bookhistories bookreviews
         bookratings bookgalleries].
    repeat split. right. split; [reflexivity |]. eexists. reflexivity.
  - intros rating. cbn zeta. rewrite addBookRating_cases.
    destruct (User_findOne s email) as [user |];
      [| cbn [fst snd]; repeat split; left; split; [eexists |]; reflexivity].
    destruct (Book_findOne s bookID) as [book |];
      [| cbn [fst snd]; repeat split; left; split; [eexists |]; reflexivity].
    destruct (BookRating_findOne s _ _);
      [cbn [fst snd]; repeat split; left; split; [eexists |]; reflexivity |].
    cbn [fst snd BookRating_create users books bookhistories bookreviews
         bookratings bookgalleries].
    repeat split. right. split; [reflexivity |]. eexists. reflexivity.
Qed.

(** X9. The guards keep the collections free of duplicates: if no two review
    rows of the store are by the same user for the same book, the same holds
    after any [addBookReview]; and likewise for the rating rows after any
    [addBookRating]. *)
Theorem guards_keep_pairs_unique (s : Store) (email : string) (bookID : Z) :
  (NoDup (review_pairs s) ->
   forall review,
     NoDup (review_pairs (snd (addBookReview s email bookID review))))
  /\ (NoDup (rating_pairs s) ->
      forall rating,
        NoDup (rating_pairs (snd (addBookRating s email bookID rating)))).
Proof.
  split.
  - intros Hnd review. rewrite addBookReview_cases.
    destruct (User_findOne s email) as [user |]; [| exact Hnd].
    destruct (Book_findOne s bookID) as [book |]; [| exact Hnd].
    destruct (BookReview_findOne s _ _) as [r |] eqn:Hf; [exact Hnd |].
    unfold review_pairs in *.
    cbn [snd BookReview_create bookreviews].
    rewrite map_app. cbn [map BookReview.userID BookReview.bookID].
    apply NoDup_snoc; [exact Hnd |].
    intros Hin. apply (review_pair_reviewed s user book) in Hin.
    apply reviewed_found in Hin. contradiction.
  - intros Hnd rating. rewrite addBookRating_cases.
    destruct (User_findOne s email) as [user |]; [| exact Hnd].
    destruct (Book_findOne s bookID) as [book |]; [| exact Hnd].
    destruct (BookRating_findOne s _ _) as [r |] eqn:Hf; [exact Hnd |].
    unfold rating_pairs in *.
    cbn [snd BookRating_create bookratings].
    rewrite map_app. cbn [map BookRating.userID BookRating.bookID].
    apply NoDup_snoc; [exact Hnd |].
    intros Hin. apply (rating_pair_rated s user book) in Hin.
    apply rated_found in Hin. contradiction.
Qed.

Lemma guards_keep_pairs_unique_sample :
  NoDup (review_pairs Sample.library)
  /\ NoDup (review_pairs
              (snd (addBookReview Sample.library "bob@example.com" 101 "Fine.")))
  /\ NoDup (rating_pairs
              (snd (addBookRating Sample.library "bob@example.com" 101 2))).
Proof.
  assert (Hrev : NoDup (review_pairs Sample.library)).
  { vm_compute. constructor; [intros [] | constructor]. }
  assert (Hrat : NoDup (rating_pairs Sample.library)).
  { vm_compute. constructor.
    - intros [H | []]. discriminate.
    - constructor; [intros [] | constructor]. }
  split; [exact Hrev |]. split.
  - apply (proj1 (guards_keep_pairs_unique Sample.library "bob@example.com" 101)).
    exact Hrev.
  - apply (proj2 (guards_keep_pairs_unique Sample.library "bob@example.com" 101)).
    exact Hrat.
Defined.

(** X10. Reviewing and rating do not interfere: a review followed by a
    rating, of any users and books, gives the same two outcomes and the same
    store as the rating followed by the review. *)
Theorem review_and_rating_commute
    (s : Store) (email email' : string) (bookID bookID' : Z)
    (review : string) (rating : Z) :
  let first := addBookReview s email bookID review in
  let second := addBookRating (snd first) email' bookID' rating in
  let first' := addBookRating s email' bookID' rating in
  let second' := addBookReview (snd first') email bookID review in
  fst first = fst second'
  /\ fst second = fst first'
  /\ snd second = snd second'.
Proof.
  cbn zeta.
  rewrite (addBookReview_cases s), (addBookRating_cases s).
  destruct (User_findOne s email) as [user |] eqn:Hu;
    destruct (User_findOne s email') as [user' |] eqn:Hu';
    try destruct (Book_findOne s bookID) as [book |] eqn:Hb;
    try destruct (Book_findOne s bookID') as [book' |] eqn:Hb';
    try destruct (BookReview_findOne s (User._id user) (Book._id book)) eqn:Hr;
    try destruct (BookRating_findOne s (User._id user') (Book._id book')) eqn:Hr';
    cbn [fst snd];
    rewrite ?addBookReview_cases, ?addBookRating_cases;
    unfold User_findOne, Book_findOne, BookReview_findOne, BookRating_findOne in *;
    cbn [snd BookReview_create BookRating_create users books bookreviews
         bookratings] in *;
    rewrite ?Hu, ?Hu', ?Hb, ?Hb', ?Hr, ?Hr';
    cbn [fst snd BookReview_create BookRating_create users books bookhistories
         bookreviews bookratings bookgalleries];
    repeat split; reflexivity.
Qed.

Lemma second_rating_refused
    (s s' : Store) (email : string) (bookID : Z) (rating rating' : Z) :
  addBookRating s email bookID rating = (Ok tt, s') ->
  addBookRating s' email bookID rating'
  = (Throw (HttpError RATING_ALREADY_EXIST BAD_REQUEST), s').
Proof.
  unfold addBookRating at 1.
  destruct (User_findOne s email) as [user |] eqn:Huser; [| discriminate].
  destruct (Book_findOne s bookID) as [book |] eqn:Hbook; [| discriminate].
  destruct (BookRating_findOne s (User._id user) (Book._id book)) eqn:Hfind;
    [discriminate |].
  destruct (BookRating_create_store s (User._id user) (Book._id book) rating)
    as (doc & Hc & Hu & Hb & _).
  rewrite Hc. intros Heq. injection Heq as <-.
  apply (addBookRating_refuses _ email bookID user book).
  - exact Huser.
  - exact Hbook.
  - exists doc. cbn [bookratings]. split; [| split; assumption].
    apply in_or_app. right. left. reflexivity.
Qed.

(** X11. A call that succeeded cannot be repeated: after a successful
    [addBookReview], a second one with the same email and book identifier
    fails with REVIEW_ALREADY_EXIST and leaves the store as the first call
    left it, whatever the new text; likewise for [addBookRating] and
    RATING_ALREADY_EXIST. *)
Theorem second_call_refused (s s' : Store) (email : string) (bookID : Z) :
  (forall review review',
     addBookReview s email bookID review = (Ok tt, s') ->
     addBookReview s' email bookID review'
     = (Throw (HttpError REVIEW_ALREADY_EXIST BAD_REQUEST), s'))
  /\ (forall rating rating',
        addBookRating s email bookID rating = (Ok tt, s') ->
        addBookRating s' email bookID rating'
        = (Throw (HttpError RATING_ALREADY_EXIST BAD_REQUEST), s')).
Proof.
  split.
  - intros review review'. apply second_review_refused.
  - intros rating rating'. apply second_rating_refused.
Qed.

Lemma second_call_refused_sample :
  exists s',
    addBookReview Sample.library "bob@example.com" 101 "Fine." = (Ok tt, s')
    /\ addBookReview s' "bob@example.com" 101 "Better."
       = (Throw (HttpError REVIEW_ALREADY_EXIST BAD_REQUEST), s').
Proof.
  eexists. split; [reflexivity |].
  apply (proj1 (second_call_refused Sample.library _ "bob@example.com" 101)
           "Fine."%string "Better."%string).
  reflexivity.
Defined.

(** * Further properties of the catalogue views *)

Lemma In_firstn {A : Type} (n : nat) (xs : list A) (x : A) :
  In x (firstn n xs) -> In x xs.
Proof.
  intros H. rewrite <- (firstn_skipn n xs). apply in_or_app. left. exact H.
Qed.

Lemma In_skipn {A : Type} (n : nat) (xs : list A) (x : A) :
  In x (skipn n xs) -> In x xs.
Proof.
  intros H. rewrite <- (firstn_skipn n xs). apply in_or_app. right. exact H.
Qed.

(** What the paging stages answer with. *)
Lemma skip_limit_answers {A : Type} (skip limit : Js.Num) (docs page : list A) :
  skip_limit skip limit docs = Ok page ->
  exists sk lim : Z,
    skip = Js.Fin sk /\ limit = Js.Fin lim /\ 0 <= sk /\ 0 < lim
    /\ page = firstn (Z.to_nat lim) (skipn (Z.to_nat sk) docs).
Proof.
  unfold skip_limit. intros H.
  destruct skip as [sk | | |]; try discriminate.
  destruct limit as [lim | | |]; try discriminate.
  destruct (0 <=? sk) eqn:Hsk; [| discriminate].
  destruct (0 <? lim) eqn:Hlim; [| discriminate].
  cbn [andb] in H. injection H as <-.
  exists sk, lim. repeat split; lia.
Qed.

Section SearchFacts.

Variable RegExp : string -> option (string -> bool).
Variable year : Z -> Z.

(** The query built from the two filters selects the books that are not
    deleted and pass the filters. *)
Lemma match_built_query (req : SearchRequest) (q : SearchQuery) (b : Book.t) :
  build_searchQuery RegExp (q_bookID req) (q_name req) = Ok q ->
  (match_searchQuery q b = true
   <-> Book.deletedAt b = None /\ passes_filters RegExp req b).
Proof.
  unfold match_searchQuery, build_searchQuery, passes_filters, not_deleted.
  destruct (Book.deletedAt b) as [t |].
  { intros _. cbn [andb]. split; [discriminate | intros (H & _); discriminate]. }
  cbn [andb].
  destruct (q_bookID req) as [id |], (q_name req) as [n |];
    cbn [is_some truthy_string orb negb].
  - destruct (String.eqb_spec n "") as [-> | Hn]; cbn [bind].
    + intros Hq. injection Hq as <-. cbn [or_ app existsb match_clause].
      rewrite orb_false_r, Z.eqb_eq. split.
      * intros ->. split; [reflexivity |]. right. left. reflexivity.
      * intros (_ & [(H & _) | [H | (n & re & H & Hn & _)]]);
          [discriminate | injection H as <-; reflexivity |].
        injection H as <-. contradiction.
    + destruct (RegExp n) as [re |] eqn:Hre; [| discriminate]. cbn [bind].
      intros Hq. injection Hq as <-. cbn [or_ app existsb match_clause].
      rewrite orb_false_r, orb_true_iff, Z.eqb_eq. split.
      * intros [-> | Hm]; (split; [reflexivity |]).
        -- right. left. reflexivity.
        -- right. right. exists n, re. auto.
      * intros (_ & [(H & _) | [H | (n' & re' & H & _ & Hre' & Hm)]]);
          [discriminate | |].
        -- injection H as <-. left. reflexivity.
        -- injection H as <-. rewrite Hre in Hre'. injection Hre' as <-.
           right. exact Hm.
  - cbn [bind]. intros Hq. injection Hq as <-.
    cbn [or_ app existsb match_clause].
    rewrite orb_false_r, Z.eqb_eq. split.
    + intros ->. split; [reflexivity |]. right. left. reflexivity.
    + intros (_ & [(H & _) | [H | (n & re & H & _)]]);
        [discriminate | injection H as <-; reflexivity | discriminate].
  - destruct (String.eqb_spec n "") as [-> | Hn]; cbn [negb bind].
    + intros Hq. injection Hq as <-. cbn [or_].
      split; [| reflexivity]. intros _. split; [reflexivity |]. left. auto.
    + destruct (RegExp n) as [re |] eqn:Hre; [| discriminate]. cbn [bind].
      intros Hq. injection Hq as <-. cbn [or_ app existsb match_clause].
      rewrite orb_false_r. split.
      * intros Hm. split; [reflexivity |]. right. right. exists n, re. auto.
      * intros (_ & [(_ & H) | [H | (n' & re' & H & _ & Hre' & Hm)]]).
        -- discriminate.
        -- discriminate.
        -- injection H as <-. rewrite Hre in Hre'. injection Hre' as <-.
           exact Hm.
  - intros Hq. injection Hq as <-. cbn [or_].
    split; [| reflexivity]. intros _. split; [reflexivity |]. left. auto.
Qed.

(** The books of a successful search, as a slice of the selected books. *)
Lemma searchBooks_answers (s : Store) (req : SearchRequest) (r : SearchResponse) :
  searchBooks RegExp year s req = Ok r ->
  exists (q : SearchQuery) (sk lim : Z),
    build_searchQuery RegExp (q_bookID req) (q_name req) = Ok q
    /\ search_skip req = Js.Fin sk /\ search_limit req = Js.Fin lim
    /\ 0 <= sk /\ 0 < lim
    /\ searchedBooks r <> []
    /\ searchedBooks r
       = firstn (Z.to_nat lim)
           (skipn (Z.to_nat sk)
              (map (search_project year s)
                 (List.filter (match_searchQuery q) (books s)))).
Proof.
  intros H.
  destruct (searchBooks_ok RegExp year s req r H)
    as (q & Hq & _ & _ & Hagg & Hne & _).
  unfold search_aggregate in Hagg. apply skip_limit_answers in Hagg.
  destruct Hagg as (sk & lim & Hsk & Hlim & Hsk0 & Hlim0 & Hpage).
  exists q, sk, lim. repeat split; assumption.
Qed.

(** X12. A successful search returns at least one and at most [pageSize]
    books, each of them the projection of a book of the catalogue that is
    not soft-deleted and passes the filters; the two filters are
    alternatives: a book is selected for its identifier or for its name. *)
Theorem search_results_sound (s : Store) (req : SearchRequest) (r : SearchResponse) :
  searchBooks RegExp year s req = Ok r ->
  (exists lim : Z,
     pageSize (pagination r) = Js.Fin lim
     /\ (1 <= length (searchedBooks r) <= Z.to_nat lim)%nat)
  /\ forall found, In found (searchedBooks r) ->
       exists b, In b (books s)
                 /\ found = search_project year s b
                 /\ Book.deletedAt b = None
                 /\ passes_filters RegExp req b.
Proof.
  intros H.
  assert (Hsize : pageSize (pagination r) = search_limit req).
  { destruct (searchBooks_ok RegExp year s req r H) as (q & _ & _ & _ & _ & _ & Hpag).
    rewrite Hpag. reflexivity. }
  destruct (searchBooks_answers s req r H)
    as (q & sk & lim & Hq & _ & Hlim & _ & Hlim0 & Hne & Hpage).
  split.
  - exists lim. split; [rewrite Hsize; exact Hlim |]. split.
    + destruct (searchedBooks r); [contradiction | cbn [length]; lia].
    + rewrite Hpage. apply firstn_le_length.
  - intros found Hin. rewrite Hpage in Hin.
    apply In_firstn, In_skipn, in_map_iff in Hin.
    destruct Hin as (b & <- & Hb). apply filter_In in Hb.
    destruct Hb as (Hb & Hm). apply (match_built_query req q b Hq) in Hm.
    exists b. tauto.
Qed.

(** X13. For a request whose name filter is absent, empty or a
    well-formed regular expression, a book that is not soft-deleted and
    passes the filters is found on the first page whenever the page size is
    at least the number of books of the catalogue: the filters lose no
    book. *)
Theorem search_results_complete (s : Store) (req : SearchRequest) (b : Book.t) (lim : Z) :
  pattern_accepted RegExp req ->
  q_page req = None ->
  q_pageSize req = Some (Js.Fin lim) ->
  Z.of_nat (length (books s)) <= lim ->
  In b (books s) ->
  Book.deletedAt b = None ->
  passes_filters RegExp req b ->
  exists r, searchBooks RegExp year s req = Ok r
            /\ In (search_project year s b) (searchedBooks r).
Proof.
  intros Hacc Hpage Hsize Hlim Hin Hdel Hpass.
  destruct (build_searchQuery_accepted RegExp req Hacc) as (q & Hq).
  assert (Hpos : 0 < lim).
  { destruct (books s); [contradiction | cbn [length] in Hlim; lia]. }
  assert (Epage : search_pageNumber req = Js.Fin 1).
  { unfold search_pageNumber. rewrite Hpage. reflexivity. }
  assert (Elim : search_limit req = Js.Fin lim).
  { unfold search_limit, Number_, Js.or, Js.truthy. rewrite Hsize.
    destruct (Z.eqb_spec lim 0); [lia | reflexivity]. }
  assert (Eskip : search_skip req = Js.Fin 0).
  { unfold search_skip. rewrite Epage, Elim. cbn [Js.sub Js.mul]. reflexivity. }
  assert (HN : catalog_size s <> 0%nat).
  { unfold catalog_size, countDocuments. intros E.
    apply length_zero_iff_nil in E.
    assert (Hb : In b (List.filter not_deleted (books s))).
    { apply filter_In. split; [exact Hin |].
      unfold not_deleted. rewrite Hdel. reflexivity. }
    rewrite E in Hb. contradiction. }
  assert (Hgt : Js.gt (search_pageNumber req) (catalog_pages s req) = false).
  { unfold catalog_pages, Js.of_nat. rewrite Epage, Elim.
    destruct (ceil_div_bounds (Z.of_nat (catalog_size s)) lim Hpos)
      as (c & -> & Hc).
    cbn [Js.gt]. apply Z.ltb_ge. nia. }
  rewrite (searchBooks_within RegExp year s req q Hq HN Hgt).
  unfold search_aggregate. rewrite Eskip, Elim. unfold skip_limit.
  replace ((0 <=? 0) && (0 <? lim)) with true
    by (symmetry; apply andb_true_intro; split; [reflexivity | lia]).
  cbn [Z.to_nat skipn].
  set (selected := List.filter _ (books s)).
  assert (Hsel : In b selected).
  { apply filter_In. split; [exact Hin |].
    apply (match_built_query req q b Hq). auto. }
  assert (Hall : firstn (Z.to_nat lim) (map (search_project year s) selected)
                 = map (search_project year s) selected).
  { apply firstn_all2. rewrite length_map.
    pose proof (filter_length_le (match_searchQuery q) (books s)) as Hle.
    fold selected in Hle. lia. }
  rewrite Hall.
  assert (Hmapped : In (search_project year s b)
                       (map (search_project year s) selected))
    by (apply in_map; exact Hsel).
  destruct (map (search_project year s) selected) as [| x xs] eqn:Emap;
    [contradiction |].
  eexists. split; [reflexivity |]. exact Hmapped.
Qed.

(** X14. A search without filters for a page in range always answers: with
    positive integers as page [p] and page size [l] and more than
    [l * (p - 1)] books in the catalogue, it returns the books of the
    catalogue from position [l * (p - 1)] on, [l] of them or all that are
    left, and never BOOK_NOT_FOUND. *)
Theorem unfiltered_page_answers (s : Store) (req : SearchRequest) (p l : Z) :
  q_bookID req = None ->
  truthy_string (q_name req) = false ->
  q_page req = Some (Js.Fin p) ->
  q_pageSize req = Some (Js.Fin l) ->
  0 < p -> 0 < l ->
  l * (p - 1) < Z.of_nat (catalog_size s) ->
  exists r,
    searchBooks RegExp year s req = Ok r
    /\ searchedBooks r
       = firstn (Z.to_nat l)
           (skipn (Z.to_nat (l * (p - 1)))
              (map (search_project year s) (List.filter not_deleted (books s))))
    /\ Z.of_nat (length (searchedBooks r))
       = Z.min l (Z.of_nat (catalog_size s) - l * (p - 1)).
Proof.
  intros Hid Hname Hp Hl Hp0 Hl0 Hrange.
  destruct (page_check_integers s req p l Hp Hl Hp0 Hl0) as (Epage & Elim & Hcheck).
  assert (HN : catalog_size s <> 0%nat) by nia.
  assert (Hgt : Js.gt (search_pageNumber req) (catalog_pages s req) = false).
  { destruct (Js.gt (search_pageNumber req) (catalog_pages s req)); [| reflexivity].
    exfalso. assert (Z.of_nat (catalog_size s) <= l * (p - 1)) by (apply Hcheck; reflexivity).
    lia. }
  assert (Eskip : search_skip req = Js.Fin (l * (p - 1))).
  { unfold search_skip. rewrite Epage, Elim. cbn [Js.sub Js.mul].
    f_equal. lia. }
  assert (Equery : build_searchQuery RegExp (q_bookID req) (q_name req)
                   = Ok {| or_ := None |}).
  { unfold build_searchQuery. rewrite Hid, Hname. reflexivity. }
  assert (Esel : List.filter (match_searchQuery {| or_ := None |}) (books s)
                 = List.filter not_deleted (books s)).
  { apply filter_ext. intros b. unfold match_searchQuery. cbn [or_].
    apply andb_true_r. }
  set (page := firstn (Z.to_nat l)
                 (skipn (Z.to_nat (l * (p - 1)))
                    (map (search_project year s)
                       (List.filter not_deleted (books s))))).
  assert (Hlen : Z.of_nat (length page)
                 = Z.min l (Z.of_nat (catalog_size s) - l * (p - 1))).
  { assert (Hnn : 0 <= l * (p - 1)) by nia.
    unfold page. rewrite length_firstn, length_skipn, length_map.
    unfold catalog_size, countDocuments in *. lia. }
  assert (Hagg : search_aggregate year s {| or_ := None |}
                   (search_skip req) (search_limit req) = Ok page).
  { unfold search_aggregate. rewrite Eskip, Elim, Esel. unfold skip_limit.
    replace ((0 <=? l * (p - 1)) && (0 <? l)) with true; [reflexivity |].
    symmetry. apply andb_true_intro. split; [apply Z.leb_le; nia | lia]. }
  rewrite (searchBooks_within RegExp year s req _ Equery HN Hgt), Hagg.
  destruct page as [| x xs] eqn:Epg.
  { cbn [length] in Hlen. lia. }
  eexists. split; [reflexivity |]. split; [reflexivity | exact Hlen].
Qed.

(** X15. Each book of a successful search carries the aggregates of its
    own rows: its [reviewCount] is the number of the review rows of the
    book, its [rating] is [0] when the book has no rating row and their
    average otherwise, its [stock] is the available quantity, and its cover
    images are gallery rows of the book named ["coverImage"]. *)
Theorem search_results_aggregates (s : Store) (req : SearchRequest) (r : SearchResponse) :
  searchBooks RegExp year s req = Ok r ->
  forall found, In found (searchedBooks r) ->
    exists b, In b (books s)
      /\ SearchedBook._id found = Book._id b
      /\ SearchedBook.stock found = Book.quantityAvailable b
      /\ SearchedBook.reviewCount found
         = length (List.filter (fun rv => Nat.eqb (BookReview.bookID rv) (Book._id b))
                               (bookreviews s))
      /\ (ratings_of s b = [] -> SearchedBook.rating found = 0%Q)
      /\ (ratings_of s b <> [] ->
          (SearchedBook.rating found * inject_Z (Z.of_nat (length (ratings_of s b)))
           == inject_Z (sum (ratings_of s b)))%Q)
      /\ (forall g, In g (SearchedBook.coverImage found) ->
                    In g (bookgalleries s)
                    /\ BookGallery.bookID g = Book._id b
                    /\ BookGallery.imageName g = "coverImage"%string).
Proof.
  intros H found Hin.
  destruct (searchBooks_answers s req r H)
    as (q & sk & lim & _ & _ & _ & _ & _ & _ & Hpage).
  rewrite Hpage in Hin. apply In_firstn, In_skipn, in_map_iff in Hin.
  destruct Hin as (b & <- & Hb). apply filter_In in Hb. destruct Hb as (Hb & _).
  pose proof (search_project_rating year s b) as Hrating. cbn zeta in Hrating.
  destruct Hrating as (Hzero & Hmean).
  exists b. split; [exact Hb |].
  split; [reflexivity |]. split; [reflexivity |]. split; [reflexivity |].
  split; [exact Hzero |]. split; [exact Hmean |].
  intros g Hg. cbn [SearchedBook.coverImage search_project] in Hg.
  unfold lookup_coverImage in Hg. apply filter_In in Hg.
  destruct Hg as (Hing & Hp). apply andb_prop in Hp. destruct Hp as (Hid & Hname).
  apply Nat.eqb_eq in Hid. apply String.eqb_eq in Hname. auto.
Qed.

End SearchFacts.

Lemma search_results_sound_sample :
  exists r,
    searchBooks Sample.RegExp Sample.year Sample.library
      {| q_name := Some "Dune"%string; q_bookID := Some 103;
         q_page := None; q_pageSize := None |} = Ok r
    /\ (exists lim : Z,
          pageSize (pagination r) = Js.Fin lim
          /\ (1 <= length (searchedBooks r) <= Z.to_nat lim)%nat)
    /\ forall found, In found (searchedBooks r) ->
         exists b, In b (books Sample.library)
                   /\ found = search_project Sample.year Sample.library b
                   /\ Book.deletedAt b = None
                   /\ passes_filters Sample.RegExp
                        {| q_name := Some "Dune"%string; q_bookID := Some 103;
                           q_page := None; q_pageSize := None |} b.
Proof.
  eexists. split; [reflexivity |].
  apply (search_results_sound Sample.RegExp Sample.year Sample.library
           {| q_name := Some "Dune"%string; q_bookID := Some 103;
              q_page := None; q_pageSize := None |}).
  reflexivity.
Defined.

Example search_by_identifier_or_name :
  match searchBooks Sample.RegExp Sample.year Sample.library
          {| q_name := Some "Dune"%string; q_bookID := Some 103;
             q_page := None; q_pageSize := None |} with
  | Ok r => map SearchedBook.bookID (searchedBooks r) = [101; 103]
  | Throw _ => False
  end.
Proof. reflexivity. Qed.

Lemma search_results_complete_sample :
  exists r,
    searchBooks Sample.RegExp Sample.year Sample.library
      {| q_name := Some "dune"%string; q_bookID := Some 103;
         q_page := None; q_pageSize := Some (Js.Fin 5) |} = Ok r
    /\ In (search_project Sample.year Sample.library Sample.dune) (searchedBooks r).
Proof.
  apply (search_results_complete Sample.RegExp Sample.year Sample.library
           {| q_name := Some "dune"%string; q_bookID := Some 103;
              q_page := None; q_pageSize := Some (Js.Fin 5) |}
           Sample.dune 5).
  - apply (sample_pattern_accepted _ _ _ (Some "dune"%string)). reflexivity.
  - reflexivity.
  - reflexivity.
  - vm_compute; discriminate.
  - left; reflexivity.
  - reflexivity.
  - right. right. exists "dune"%string, (Sample.occurs "dune").
    split; [reflexivity |]. split; [discriminate |]. split; reflexivity.
Defined.

Lemma unfiltered_page_answers_sample :
  exists r,
    searchBooks Sample.RegExp Sample.year Sample.library
      {| q_name := None; q_bookID := None;
         q_page := Some (Js.Fin 2); q_pageSize := Some (Js.Fin 1) |} = Ok r
    /\ searchedBooks r
       = firstn (Z.to_nat 1)
           (skipn (Z.to_nat (1 * (2 - 1)))
              (map (search_project Sample.year Sample.library)
                 (List.filter not_deleted (books Sample.library))))
    /\ Z.of_nat (length (searchedBooks r))
       = Z.min 1 (Z.of_nat (catalog_size Sample.library) - 1 * (2 - 1)).
Proof.
  apply (unfiltered_page_answers Sample.RegExp Sample.year Sample.library
           {| q_name := None; q_bookID := None;
              q_page := Some (Js.Fin 2); q_pageSize := Some (Js.Fin 1) |} 2 1).
  - reflexivity.
  - reflexivity.
  - reflexivity.
  - reflexivity.
  - lia.
  - lia.
  - vm_compute; reflexivity.
Defined.

Lemma search_results_aggregates_sample :
  exists r,
    searchBooks Sample.RegExp Sample.year Sample.library
      {| q_name := None; q_bookID := Some 101;
         q_page := None; q_pageSize := None |} = Ok r
    /\ forall found, In found (searchedBooks r) ->
         exists b, In b (books Sample.library)
           /\ SearchedBook._id found = Book._id b
           /\ SearchedBook.stock found = Book.quantityAvailable b
           /\ SearchedBook.reviewCount found
              = length (List.filter
                          (fun rv => Nat.eqb (BookReview.bookID rv) (Book._id b))
                          (bookreviews Sample.library))
           /\ (ratings_of Sample.library b = [] -> SearchedBook.rating found = 0%Q)
           /\ (ratings_of Sample.library b <> [] ->
               (SearchedBook.rating found
                * inject_Z (Z.of_nat (length (ratings_of Sample.library b)))
                == inject_Z (sum (ratings_of Sample.library b)))%Q)
           /\ (forall g, In g (SearchedBook.coverImage found) ->
                         In g (bookgalleries Sample.library)
                         /\ BookGallery.bookID g = Book._id b
                         /\ BookGallery.imageName g = "coverImage"%string).
Proof.
  eexists. split; [reflexivity |].
  apply (search_results_aggregates Sample.RegExp Sample.year Sample.library
           {| q_name := None; q_bookID := Some 101;
              q_page := None; q_pageSize := None |}).
  reflexivity.
Defined.

(** ** The catalogue details *)

Lemma getAllBookDetails_cases (s : Store) :
  getAllBookDetails s
  = if Nat.eqb (catalog_size s) 0
    then Throw (HttpError ERROR_COUNTING_BOOKS INTERNAL_SERVER_ERROR)
    else Ok {| books_ := map (details_project s) (List.filter not_deleted (books s));
               totalBooks_ := catalog_size s |}.
Proof.
  unfold getAllBookDetails, catalog_size, countDocuments.
  destruct (List.filter not_deleted (books s)) as [| b bs]; reflexivity.
Qed.

(** X16. The catalogue details fail only on a catalogue without any book
    that is not soft-deleted, with ERROR_COUNTING_BOOKS; the BOOK_NOT_FOUND
    of the handler is never thrown.  Otherwise they answer with one entry for
    each such book, in the order of the catalogue, and [totalBooks] is the
    number of entries. *)
Theorem details_outcomes (s : Store) :
  (getAllBookDetails s = Throw (HttpError ERROR_COUNTING_BOOKS INTERNAL_SERVER_ERROR)
   <-> catalog_size s = 0%nat)
  /\ (forall e, getAllBookDetails s = Throw e ->
                e = HttpError ERROR_COUNTING_BOOKS INTERNAL_SERVER_ERROR)
  /\ (forall r, getAllBookDetails s = Ok r ->
                map BookDetail.bookID (books_ r)
                = map Book.bookID (List.filter not_deleted (books s))
                /\ totalBooks_ r = length (books_ r)
                /\ totalBooks_ r = catalog_size s
                /\ (1 <= totalBooks_ r)%nat).
Proof.
  rewrite getAllBookDetails_cases.
  destruct (Nat.eqb_spec (catalog_size s) 0) as [E | NE].
  - split; [tauto |]. split; [| discriminate].
    intros e H. injection H as <-. reflexivity.
  - split; [split; [discriminate | contradiction] |].
    split; [discriminate |].
    intros r H. injection H as <-.
    cbn [books_ totalBooks_]. rewrite map_map, length_map.
    unfold catalog_size, countDocuments in *.
    repeat split; lia.
Qed.

(** X17. Every entry of the catalogue details belongs to a book of the
    catalogue that is not soft-deleted and carries the rows of that book:
    its reviews and gallery rows refer to the book, its [reviewCount] is the
    number of its reviews, and its cover images are among its gallery rows
    and are named ["coverImage"]. *)
Theorem details_entries (s : Store) (r : BookDetailsResponse) :
  getAllBookDetails s = Ok r ->
  forall d, In d (books_ r) ->
    exists b, In b (books s)
      /\ Book.deletedAt b = None
      /\ BookDetail.bookID d = Book.bookID b
      /\ BookDetail.stock d = Book.quantityAvailable b
      /\ BookDetail.reviewCount d = length (BookDetail.reviews d)
      /\ (forall rv, In rv (BookDetail.reviews d) <->
                     In rv (bookreviews s) /\ BookReview.bookID rv = Book._id b)
      /\ (forall g, In g (BookDetail.gallery d) <->
                    In g (bookgalleries s) /\ BookGallery.bookID g = Book._id b)
      /\ (forall g, In g (BookDetail.coverImage d) <->
                    In g (BookDetail.gallery d)
                    /\ BookGallery.imageName g = "coverImage"%string).
Proof.
  rewrite getAllBookDetails_cases.
  destruct (Nat.eqb (catalog_size s) 0); [discriminate |].
  intros H d Hd. injection H as <-. cbn [books_] in Hd.
  apply in_map_iff in Hd. destruct Hd as (b & <- & Hb).
  apply filter_In in Hb. destruct Hb as (Hb & Hnd).
  exists b. split; [exact Hb |]. split.
  { unfold not_deleted in Hnd. destruct (Book.deletedAt b); [discriminate | reflexivity]. }
  split; [reflexivity |]. split; [reflexivity |]. split; [reflexivity |].
  cbn [details_project BookDetail.reviews BookDetail.gallery BookDetail.coverImage].
  unfold lookup_reviews, lookup_gallery, lookup_coverImage.
  split; [| split].
  - intros rv. rewrite filter_In, Nat.eqb_eq. reflexivity.
  - intros g. rewrite filter_In, Nat.eqb_eq. reflexivity.
  - intros g. rewrite !filter_In, andb_true_iff, Nat.eqb_eq, String.eqb_eq. tauto.
Qed.

Lemma details_entries_sample :
  exists r,
    getAllBookDetails Sample.library = Ok r
    /\ forall d, In d (books_ r) ->
         exists b, In b (books Sample.library)
           /\ Book.deletedAt b = None
           /\ BookDetail.bookID d = Book.bookID b
           /\ BookDetail.stock d = Book.quantityAvailable b
           /\ BookDetail.reviewCount d = length (BookDetail.reviews d)
           /\ (forall rv, In rv (BookDetail.reviews d) <->
                          In rv (bookreviews Sample.library)
                          /\ BookReview.bookID rv = Book._id b)
           /\ (forall g, In g (BookDetail.gallery d) <->
                         In g (bookgalleries Sample.library)
                         /\ BookGallery.bookID g = Book._id b)
           /\ (forall g, In g (BookDetail.coverImage d) <->
                         In g (BookDetail.gallery d)
                         /\ BookGallery.imageName g = "coverImage"%string).
Proof.
  eexists. split; [reflexivity |].
  apply (details_entries Sample.library). reflexivity.
Defined.

Example details_of_the_sample :
  match getAllBookDetails Sample.library with
  | Ok r => map BookDetail.bookID (books_ r) = [101; 103] /\ totalBooks_ r = 2%nat
  | Throw _ => False
  end.
Proof. split; reflexivity. Qed.

(** * Further properties of the page checks *)

Lemma ceil_div_of_count_nonneg (n : nat) (l : Z) :
  0 < l -> exists c, Js.ceil_div (Js.of_nat n) (Js.Fin l) = Js.Fin c /\ 0 <= c.
Proof.
  intros Hl. unfold Js.of_nat.
  destruct (ceil_div_bounds (Z.of_nat n) l Hl) as (c & Hc & Hb).
  exists c. split; [exact Hc |].
  apply (ceil_div_nonneg (Z.of_nat n) l); [exact Hl | lia | exact Hb].
Qed.

Section ReviewsPageCheck.

Variable count : Z -> nat.
Variable fetch : Z -> Js.Num -> Js.Num -> option ReviewsPage.

(** X19. The page check of the reviews summary has no lower bound: with a
    positive page size, a page number that is zero or negative is never
    reported as INVALID_PAGE_NUMBER, and the review service is asked for a
    negative [skip]; its answer decides the outcome. *)
Theorem reviews_page_below_one (bookID p l : Z) :
  p <= 0 ->
  0 < l ->
  (p - 1) * l < 0
  /\ getBookReviewsSummary count fetch bookID (Some (Js.Fin p)) (Some (Js.Fin l))
     = match fetch bookID (Js.Fin ((p - 1) * l)) (Js.Fin l) with
       | None => Throw (HttpError NO_REVIEWS_FOUND NOT_FOUND)
       | Some r =>
           if Nat.eqb (length_ r) 0
           then Throw (HttpError NO_REVIEWS_FOUND NOT_FOUND)
           else Ok {| reviews := bookReviews r;
                      reviews_pagination :=
                        {| page := Js.Fin p;
                           pageSize := Js.Fin l;
                           totalPages :=
                             Js.ceil_div (Js.of_nat (count bookID)) (Js.Fin l) |} |}
       end.
Proof.
  intros Hp Hl. split; [nia |].
  unfold getBookReviewsSummary, reviews_skip, reviews_pageNumber, reviews_limit,
    Number_default.
  destruct (ceil_div_of_count_nonneg (count bookID) l Hl) as (c & Hc & Hc0).
  rewrite Hc. cbn [Js.gt Js.sub Js.mul].
  destruct (Z.ltb_spec c p); [lia |]. reflexivity.
Qed.

End ReviewsPageCheck.

Lemma reviews_page_below_one_sample :
  getBookReviewsSummary (getReviewsCount Sample.library) (getReviews Sample.library)
    101 (Some (Js.Fin 0)) (Some (Js.Fin 5))
  = match getReviews Sample.library 101 (Js.Fin ((0 - 1) * 5)) (Js.Fin 5) with
    | None => Throw (HttpError NO_REVIEWS_FOUND NOT_FOUND)
    | Some r =>
        if Nat.eqb (length_ r) 0
        then Throw (HttpError NO_REVIEWS_FOUND NOT_FOUND)
        else Ok {| reviews := bookReviews r;
                   reviews_pagination :=
                     {| page := Js.Fin 0;
                        pageSize := Js.Fin 5;
                        totalPages :=
                          Js.ceil_div
                            (Js.of_nat (getReviewsCount Sample.library 101))
                            (Js.Fin 5) |} |}
    end.
Proof.
  apply (proj2 (reviews_page_below_one (getReviewsCount Sample.library)
                  (getReviews Sample.library) 101 0 5 ltac:(lia) ltac:(lia))).
Defined.

(** X20. The page check of the search has no lower bound either: a
    negative page number with a positive page size is never reported as
    INVALID_PAGE_NUMBER, and the [$skip] computed for the pipeline is
    negative. *)
Theorem search_page_below_zero
    (RegExp : string -> option (string -> bool)) (year : Z -> Z)
    (s : Store) (req : SearchRequest) (p l : Z) :
  q_page req = Some (Js.Fin p) ->
  q_pageSize req = Some (Js.Fin l) ->
  p < 0 ->
  0 < l ->
  search_skip req = Js.Fin ((p - 1) * l)
  /\ (p - 1) * l < 0
  /\ forall st,
       searchBooks RegExp year s req
       <> Throw (HttpError INVALID_PAGE_NUMBER st).
Proof.
  intros Hp Hl Hp0 Hl0.
  assert (Epage : search_pageNumber req = Js.Fin p).
  { unfold search_pageNumber, Number_, Js.or, Js.truthy. rewrite Hp.
    destruct (Z.eqb_spec p 0); [lia | reflexivity]. }
  assert (Elim : search_limit req = Js.Fin l).
  { unfold search_limit, Number_, Js.or, Js.truthy. rewrite Hl.
    destruct (Z.eqb_spec l 0); [lia | reflexivity]. }
  split; [unfold search_skip; rewrite Epage, Elim; reflexivity |].
  split; [nia |].
  intros st H. apply searchBooks_invalid_page_iff in H.
  destruct H as (_ & _ & Hgt & _).
  unfold catalog_pages in Hgt. rewrite Epage, Elim in Hgt.
  destruct (ceil_div_of_count_nonneg (catalog_size s) l Hl0) as (c & Hc & Hc0).
  rewrite Hc in Hgt. cbn [Js.gt] in Hgt. apply Z.ltb_lt in Hgt. lia.
Qed.

Lemma search_page_below_zero_sample :
  search_skip {| q_name := None; q_bookID := None;
                 q_page := Some (Js.Fin (-1)); q_pageSize := Some (Js.Fin 10) |}
  = Js.Fin ((-1 - 1) * 10)
  /\ (-1 - 1) * 10 < 0
  /\ forall st,
       searchBooks Sample.RegExp Sample.year Sample.library
         {| q_name := None; q_bookID := None;
            q_page := Some (Js.Fin (-1)); q_pageSize := Some (Js.Fin 10) |}
       <> Throw (HttpError INVALID_PAGE_NUMBER st).
Proof.
  apply (search_page_below_zero Sample.RegExp Sample.year Sample.library
           {| q_name := None; q_bookID := None;
              q_page := Some (Js.Fin (-1)); q_pageSize := Some (Js.Fin 10) |}
           (-1) 10).
  - reflexivity.
  - reflexivity.
  - lia.
  - lia.
Defined.

(** * The authentication middlewares *)

Lemma Account_findOne_some (users : list Account.t) (email : string) (u : Account.t) :
  Account_findOne users email = Some u ->
  In u users /\ Account.email u = email /\ Account.isActive u = true.
Proof.
  intros H. apply find_some in H. destruct H as (Hin & Hp).
  apply andb_prop in Hp. destruct Hp as (He & Ha).
  apply String.eqb_eq in He. auto.
Qed.

Lemma Account_findOne_none (users : list Account.t) (email : string) (u : Account.t) :
  Account_findOne users email = None ->
  In u users -> Account.email u = email -> Account.isActive u <> true.
Proof.
  intros H Hin He Ha.
  pose proof (find_none _ _ H u Hin) as Hp. cbn beta in Hp.
  rewrite He, String.eqb_refl, Ha in Hp. discriminate.
Qed.

Section UserMiddleware.

Variable Headers : Type.
Variable validateAuthorizationHeader : Headers -> option string.
Variable verifyJwtToken : string -> option VerifiedToken.

(** X21. The user middleware calls [next] exactly when the header yields a
    token, the token verifies, and an active user has the email of the
    token; a user that is not active is answered like an unknown one, with
    NOT_FOUND and USER_NOT_FOUND, and a header or token that is refused with
    INTERNAL_SERVER_ERROR. *)
Theorem user_gate (users : list Account.t) (headers : Headers) :
  let outcome :=
    UserAuth.authMiddleware Headers validateAuthorizationHeader verifyJwtToken
      users headers in
  (outcome = next
   <-> exists token verified u,
         validateAuthorizationHeader headers = Some token
         /\ verifyJwtToken token = Some verified
         /\ In u users
         /\ Account.email u = token_email verified
         /\ Account.isActive u = true)
  /\ (outcome = internal_error
      <-> validateAuthorizationHeader headers = None
          \/ exists token, validateAuthorizationHeader headers = Some token
                           /\ verifyJwtToken token = None)
  /\ (outcome <> next -> outcome <> internal_error ->
      outcome = json httpStatusConstant.NOT_FOUND
                     (MessageConstant messageConstant.USER_NOT_FOUND)).
Proof.
  cbn zeta. unfold UserAuth.authMiddleware.
  destruct (validateAuthorizationHeader headers) as [token |].
  2: { split; [split; [discriminate | intros (t & v & u & H & _); discriminate] |].
       split; [split; auto |]. intros _ H. contradiction. }
  destruct (verifyJwtToken token) as [verified |] eqn:Hv.
  2: { split; [split; [discriminate |] |].
       { intros (t & v & u & Ht & Hv' & _). injection Ht as <-.
         rewrite Hv in Hv'. discriminate. }
       split; [split; [| reflexivity] |].
       { intros _. right. exists token. auto. }
       intros _ H. contradiction. }
  destruct (Account_findOne users (token_email verified)) as [u |] eqn:Hf.
  - apply Account_findOne_some in Hf. destruct Hf as (Hin & He & Ha).
    split; [split; [| reflexivity] |].
    { intros _. exists token, verified, u. auto. }
    split; [split; [discriminate |] |].
    { intros [H | (t & Ht & Hv')]; [discriminate |].
      injection Ht as <-. rewrite Hv in Hv'. discriminate. }
    intros H. contradiction.
  - split; [split; [discriminate |] |].
    { intros (t & v & u & Ht & Hv' & Hin & He & Ha). injection Ht as <-.
      rewrite Hv in Hv'. injection Hv' as <-.
      exfalso. exact (Account_findOne_none users _ u Hf Hin He Ha). }
    split; [split; [discriminate |] |].
    { intros [H | (t & Ht & Hv')]; [discriminate |].
      injection Ht as <-. rewrite Hv in Hv'. discriminate. }
    reflexivity.
Qed.

(** X22. The auth-token middleware is the stricter gate: whenever it calls
    [next], the user middleware calls [next] on the same request; it calls
    [next] exactly when the first active user with the email of the token
    has the [isAuthToken] flag, and answers INVALID_TOKEN when there is no
    such user or the flag is off. *)
Theorem auth_token_gate (users : list Account.t) (headers : Headers) :
  let outcome :=
    UserAuth.isAuthTokenMiddleware Headers validateAuthorizationHeader
      verifyJwtToken users headers in
  (outcome = next ->
   UserAuth.authMiddleware Headers validateAuthorizationHeader verifyJwtToken
     users headers = next)
  /\ (outcome = next
      <-> exists token verified u,
            validateAuthorizationHeader headers = Some token
            /\ verifyJwtToken token = Some verified
            /\ Account_findOne users (token_email verified) = Some u
            /\ Account.isAuthToken u = true)
  /\ (forall token verified,
        validateAuthorizationHeader headers = Some token ->
        verifyJwtToken token = Some verified ->
        outcome <> next ->
        outcome = json httpStatusConstant.INVALID_TOKEN
                       (HttpErrorMessage httpErrorMessageConstant.INVALID_TOKEN)).
Proof.
  cbn zeta. unfold UserAuth.isAuthTokenMiddleware, UserAuth.authMiddleware.
  destruct (validateAuthorizationHeader headers) as [token |].
  2: { split; [discriminate |]. split; [| discriminate].
       split; [discriminate | intros (t & v & u & H & _); discriminate]. }
  destruct (verifyJwtToken token) as [verified |] eqn:Hv.
  2: { split; [discriminate |]. split.
       - split; [discriminate |].
         intros (t & v & u & Ht & Hv' & _). injection Ht as <-.
         rewrite Hv in Hv'. discriminate.
       - intros t v Ht Hv'. injection Ht as <-. rewrite Hv in Hv'. discriminate. }
  destruct (Account_findOne users (token_email verified)) as [u |] eqn:Hf.
  - destruct (Account.isAuthToken u) eqn:Hflag; cbn [negb].
    + split; [reflexivity |]. split.
      * split; [| reflexivity]. intros _. exists token, verified, u. auto.
      * intros _ _ _ _ H. contradiction.
    + split; [discriminate |]. split.
      * split; [discriminate |].
        intros (t & v & u' & Ht & Hv' & Hf' & Hflag').
        injection Ht as <-. rewrite Hv in Hv'. injection Hv' as <-.
        rewrite Hf in Hf'. injection Hf' as <-. congruence.
      * reflexivity.
  - split; [discriminate |]. split.
    + split; [discriminate |].
      intros (t & v & u' & Ht & Hv' & Hf' & _).
      injection Ht as <-. rewrite Hv in Hv'. injection Hv' as <-.
      rewrite Hf in Hf'. discriminate.
    + reflexivity.
Qed.

End UserMiddleware.

Lemma user_gate_sample :
  UserAuth.authMiddleware SampleAuth.Headers SampleAuth.validateAuthorizationHeader
    SampleAuth.verify SampleAuth.accounts (Some "alice-access"%string) = next
  /\ UserAuth.authMiddleware SampleAuth.Headers
       SampleAuth.validateAuthorizationHeader SampleAuth.verify
       SampleAuth.accounts (Some "carol-access"%string)
     = json httpStatusConstant.NOT_FOUND
            (MessageConstant messageConstant.USER_NOT_FOUND).
Proof.
  split.
  - apply (proj1 (user_gate SampleAuth.Headers
                    SampleAuth.validateAuthorizationHeader SampleAuth.verify
                    SampleAuth.accounts (Some "alice-access"%string))).
    eexists. eexists. eexists.
    split; [reflexivity |]. split; [reflexivity |].
    split; [left; reflexivity |]. split; reflexivity.
  - apply (proj2 (proj2 (user_gate SampleAuth.Headers
                           SampleAuth.validateAuthorizationHeader SampleAuth.verify
                           SampleAuth.accounts (Some "carol-access"%string)))).
    + discriminate.
    + discriminate.
Defined.

Lemma auth_token_gate_sample :
  UserAuth.isAuthTokenMiddleware SampleAuth.Headers
    SampleAuth.validateAuthorizationHeader SampleAuth.verify
    SampleAuth.accounts (Some "alice-access"%string) = next
  /\ UserAuth.authMiddleware SampleAuth.Headers
       SampleAuth.validateAuthorizationHeader SampleAuth.verify
       SampleAuth.accounts (Some "alice-access"%string) = next.
Proof.
  split; [reflexivity |].
  apply (proj1 (auth_token_gate SampleAuth.Headers
                  SampleAuth.validateAuthorizationHeader SampleAuth.verify
                  SampleAuth.accounts (Some "alice-access"%string))).
  reflexivity.
Defined.

Lemma sIsMember_In (blocked : list string) (hashed : string) :
  AdminAuth.sIsMember blocked hashed = true <-> In hashed blocked.
Proof.
  unfold AdminAuth.sIsMember. rewrite existsb_exists. split.
  - intros (x & Hin & He). apply String.eqb_eq in He. subst. exact Hin.
  - intros Hin. exists hashed. split; [exact Hin | apply String.eqb_refl].
Qed.

Section AdminMiddleware.

Variable Headers : Type.
Variable validateAuthorizationHeader : Headers -> option string.
Variable verifyAccessToken : string -> option VerifiedToken.
Variable sha256_hex : string -> string.

(** X23. The admin middleware refuses a blacklisted token before anything
    is verified: when the digest of the token of the request is in the set
    of blocked tokens, the answer is UNAUTHORIZED with TOKEN_BLACKLISTED,
    whether or not the token would verify and whoever the admin is. *)
Theorem blacklisted_token_refused
    (blocked : list string) (admins : list Admin.t) (headers : Headers)
    (token : string) :
  validateAuthorizationHeader headers = Some token ->
  In (sha256_hex token) blocked ->
  AdminAuth.authMiddleware Headers validateAuthorizationHeader verifyAccessToken
    sha256_hex (Some blocked) admins headers
  = json httpStatusConstant.UNAUTHORIZED
         (HttpErrorMessage httpErrorMessageConstant.TOKEN_BLACKLISTED).
Proof.
  intros Hv Hin. unfold AdminAuth.authMiddleware. rewrite Hv.
  apply sIsMember_In in Hin. rewrite Hin. reflexivity.
Qed.

(** X24. The admin middleware calls [next] exactly when the Redis client
    is there, the header yields a token whose digest is not blocked, the
    token verifies with the type ["access"], and an active admin has the
    email of the token. *)
Theorem admin_gate
    (radisClient : option (list string)) (admins : list Admin.t) (headers : Headers) :
  AdminAuth.authMiddleware Headers validateAuthorizationHeader verifyAccessToken
    sha256_hex radisClient admins headers = next
  <-> exists blocked token verified a,
        radisClient = Some blocked
        /\ validateAuthorizationHeader headers = Some token
        /\ ~ In (sha256_hex token) blocked
        /\ verifyAccessToken token = Some verified
        /\ tokenType verified = "access"%string
        /\ In a admins
        /\ Admin.email a = token_email verified
        /\ Admin.isActive a = true.
Proof.
  unfold AdminAuth.authMiddleware. split.
  - destruct radisClient as [blocked |]; [| discriminate].
    destruct (validateAuthorizationHeader headers) as [token |]; [| discriminate].
    destruct (AdminAuth.sIsMember blocked (sha256_hex token)) eqn:Hb;
      [discriminate |].
    destruct (verifyAccessToken token) as [verified |] eqn:Hv; [| discriminate].
    destruct (String.eqb_spec (tokenType verified) "access") as [Ht | Ht];
      cbn [negb]; [| discriminate].
    destruct (Admin_findOne admins (token_email verified)) as [a |] eqn:Hf;
      [| discriminate].
    intros _. apply find_some in Hf. destruct Hf as (Hin & Hp).
    apply andb_prop in Hp. destruct Hp as (He & Ha). apply String.eqb_eq in He.
    exists blocked, token, verified, a. repeat split; try assumption.
    intros Hbl. apply sIsMember_In in Hbl. congruence.
  - intros (blocked & token & verified & a & -> & -> & Hnb & -> & Ht & Hin & He & Ha).
    destruct (AdminAuth.sIsMember blocked (sha256_hex token)) eqn:Hb.
    { apply sIsMember_In in Hb. contradiction. }
    rewrite Ht. cbn [String.eqb negb].
    replace (String.eqb "access" "access") with true by reflexivity. cbn [negb].
    destruct (Admin_findOne admins (token_email verified)) as [a' |] eqn:Hf;
      [reflexivity |].
    pose proof (find_none _ _ Hf a Hin) as Hp. cbn beta in Hp.
    rewrite He, String.eqb_refl, Ha in Hp. discriminate.
Qed.

End AdminMiddleware.

Lemma blacklisted_token_refused_sample :
  AdminAuth.authMiddleware SampleAuth.Headers SampleAuth.validateAuthorizationHeader
    SampleAuth.verify SampleAuth.digest
    (Some ["sha256:alice-access"%string]) SampleAuth.admins
    (Some "alice-access"%string)
  = json httpStatusConstant.UNAUTHORIZED
         (HttpErrorMessage httpErrorMessageConstant.TOKEN_BLACKLISTED).
Proof.
  apply (blacklisted_token_refused SampleAuth.Headers
           SampleAuth.validateAuthorizationHeader SampleAuth.verify
           SampleAuth.digest ["sha256:alice-access"%string] SampleAuth.admins
           (Some "alice-access"%string) "alice-access"%string).
  - reflexivity.
  - left. reflexivity.
Defined.

Example admin_gate_samples :
  AdminAuth.authMiddleware SampleAuth.Headers SampleAuth.validateAuthorizationHeader
    SampleAuth.verify SampleAuth.digest (Some []) SampleAuth.admins
    (Some "alice-access"%string) = next
  /\ AdminAuth.authMiddleware SampleAuth.Headers
       SampleAuth.validateAuthorizationHeader SampleAuth.verify SampleAuth.digest
       (Some []) SampleAuth.admins (Some "alice-refresh"%string)
     = json httpStatusConstant.INVALID_TOKEN
            (MessageConstant messageConstant.INVALID_TOKEN_TYPE)
  /\ AdminAuth.authMiddleware SampleAuth.Headers
       SampleAuth.validateAuthorizationHeader SampleAuth.verify SampleAuth.digest
       (Some []) SampleAuth.admins (Some "carol-access"%string)
     = json httpStatusConstant.NOT_FOUND
            (MessageConstant messageConstant.ADMIN_NOT_FOUND).
Proof. repeat split. Qed.

(** * The review seeder *)

Lemma seed_reviews_enough
    (b0 b1 b2 b3 : Book.t) (rest : list Book.t)
    (u0 : User.t) (users' : list User.t) (a0 : Admin.t) (admins' : list Admin.t) :
  seed_reviews (b0 :: b1 :: b2 :: b3 :: rest) (u0 :: users') (a0 :: admins')
  = Ok [ {| seed_bookID := Book._id b0; seed_userID := User._id u0;
            seed_review := "Amazing book with great insights." |};
         {| seed_bookID := Book._id b1; seed_userID := Admin._id a0;
            seed_review := "Very informative and well-written." |};
         {| seed_bookID := Book._id b2; seed_userID := User._id u0;
            seed_review := "Good book, but could be better." |};
         {| seed_bookID := Book._id b3; seed_userID := Admin._id a0;
            seed_review := "Interesting read, highly recommended!" |} ].
Proof. reflexivity. Qed.

Lemma seed_reviews_short
    (insertedBooks : list Book.t) (insertedUsers : list User.t)
    (insertedAdmins : list Admin.t) :
  (length insertedBooks < 4)%nat \/ insertedUsers = [] \/ insertedAdmins = [] ->
  seed_reviews insertedBooks insertedUsers insertedAdmins = Throw TypeError.
Proof.
  intros H. unfold seed_reviews.
  destruct insertedBooks as [| b0 [| b1 [| b2 [| b3 rest]]]];
    destruct insertedUsers as [| u0 users'];
    destruct insertedAdmins as [| a0 admins'];
    try reflexivity.
  exfalso. destruct H as [H | [H | H]];
    [cbn [length] in H; lia | discriminate | discriminate].
Qed.

(** X25. Seeding replaces the reviews: given at least four books, a user and
    an admin, the seeder succeeds and leaves exactly four review rows,
    whatever reviews were there before: one for each of the first four
    books, in order, by the first user and the first admin in turn, the
    admin's [_id] standing as [userID]; the other collections are
    untouched. *)
Theorem seeding_replaces_reviews
    (s : Store) (b0 b1 b2 b3 : Book.t) (rest : list Book.t)
    (u0 : User.t) (users' : list User.t) (a0 : Admin.t) (admins' : list Admin.t) :
  let seeded :=
    seedBookReviews s (b0 :: b1 :: b2 :: b3 :: rest) (u0 :: users') (a0 :: admins') in
  fst seeded = Ok tt
  /\ map (fun r => (BookReview.bookID r, BookReview.userID r, BookReview.review r))
         (bookreviews (snd seeded))
     = [ (Book._id b0, User._id u0, "Amazing book with great insights."%string);
         (Book._id b1, Admin._id a0, "Very informative and well-written."%string);
         (Book._id b2, User._id u0, "Good book, but could be better."%string);
         (Book._id b3, Admin._id a0, "Interesting read, highly recommended!"%string) ]
  /\ users (snd seeded) = users s
  /\ books (snd seeded) = books s
  /\ bookhistories (snd seeded) = bookhistories s
  /\ bookratings (snd seeded) = bookratings s
  /\ bookgalleries (snd seeded) = bookgalleries s.
Proof.
  cbn zeta. unfold seedBookReviews. rewrite seed_reviews_enough.
  repeat split.
Qed.

(** X26. The seeder deletes before it reads its arguments: with fewer than
    four books, or no user, or no admin, it fails with a TypeError after the
    reviews were deleted, so the store is left without any review. *)
Theorem short_seed_wipes_reviews
    (s : Store) (insertedBooks : list Book.t) (insertedUsers : list User.t)
    (insertedAdmins : list Admin.t) :
  (length insertedBooks < 4)%nat \/ insertedUsers = [] \/ insertedAdmins = [] ->
  let seeded := seedBookReviews s insertedBooks insertedUsers insertedAdmins in
  fst seeded = Throw TypeError
  /\ bookreviews (snd seeded) = []
  /\ users (snd seeded) = users s
  /\ books (snd seeded) = books s
  /\ bookhistories (snd seeded) = bookhistories s
  /\ bookratings (snd seeded) = bookratings s
  /\ bookgalleries (snd seeded) = bookgalleries s.
Proof.
  intros H. cbn zeta. unfold seedBookReviews.
  rewrite (seed_reviews_short _ _ _ H). repeat split.
Qed.

Lemma short_seed_wipes_reviews_sample :
  bookreviews Sample.library <> []
  /\ fst (seedBookReviews Sample.library (books Sample.library)
            (users Sample.library) SampleAuth.admins) = Throw TypeError
  /\ bookreviews (snd (seedBookReviews Sample.library (books Sample.library)
                         (users Sample.library) SampleAuth.admins)) = [].
Proof.
  split; [discriminate |].
  destruct (short_seed_wipes_reviews Sample.library (books Sample.library)
              (users Sample.library) SampleAuth.admins) as (Hf & Hr & _).
  - left. vm_compute. lia.
  - split; assumption.
Defined.

(** X27. The seeded reviews are seen by the guard: after a successful
    seeding, a review by the first seeded user of the first seeded book is
    refused with REVIEW_ALREADY_EXIST and writes nothing. *)
Theorem seeded_review_is_a_duplicate
    (s : Store) (b0 b1 b2 b3 : Book.t) (rest : list Book.t)
    (u0 : User.t) (users' : list User.t) (a0 : Admin.t) (admins' : list Admin.t)
    (email : string) (bookID : Z) (review : string) :
  User_findOne s email = Some u0 ->
  Book_findOne s bookID = Some b0 ->
  let seeded :=
    snd (seedBookReviews s (b0 :: b1 :: b2 :: b3 :: rest) (u0 :: users')
           (a0 :: admins')) in
  addBookReview seeded email bookID review
  = (Throw (HttpError REVIEW_ALREADY_EXIST BAD_REQUEST), seeded).
Proof.
  intros Huser Hbook. cbn zeta.
  apply (addBookReview_refuses _ email bookID u0 b0).
  - unfold seedBookReviews. rewrite seed_reviews_enough. exact Huser.
  - unfold seedBookReviews. rewrite seed_reviews_enough. exact Hbook.
  - unfold seedBookReviews. rewrite seed_reviews_enough.
    eexists. split; [left; reflexivity |]. split; reflexivity.
Qed.

Lemma seeded_review_is_a_duplicate_sample :
  addBookReview
    (snd (seedBookReviews SampleAuth.library4 SampleAuth.more_books
            [Sample.alice; Sample.bob] SampleAuth.admins))
    "alice@example.com" 101 "Once more."
  = (Throw (HttpError REVIEW_ALREADY_EXIST BAD_REQUEST),
     snd (seedBookReviews SampleAuth.library4 SampleAuth.more_books
            [Sample.alice; Sample.bob] SampleAuth.admins)).
Proof.
  apply (seeded_review_is_a_duplicate SampleAuth.library4
           Sample.dune Sample.emma Sample.ulysses _ [] Sample.alice [Sample.bob]
           _ [] "alice@example.com" 101 "Once more.").
  - reflexivity.
  - reflexivity.
Defined.

(** X28. Seeding books with distinct [_id]s leaves no two reviews by the
    same user for the same book, so the seeded store satisfies what the
    guard maintains. *)
Theorem seeded_pairs_unique
    (s : Store) (b0 b1 b2 b3 : Book.t) (rest : list Book.t)
    (u0 : User.t) (users' : list User.t) (a0 : Admin.t) (admins' : list Admin.t) :
  NoDup [Book._id b0; Book._id b1; Book._id b2; Book._id b3] ->
  NoDup (review_pairs
           (snd (seedBookReviews s (b0 :: b1 :: b2 :: b3 :: rest) (u0 :: users')
                   (a0 :: admins')))).
Proof.
  intros Hnd. unfold seedBookReviews. rewrite seed_reviews_enough.
  unfold review_pairs.
  cbn [snd BookReview_insertMany fold_left BookReview_create BookReview_deleteMany
       bookreviews app map BookReview.userID BookReview.bookID
       seed_userID seed_bookID].
  assert (Hsnd : NoDup (map snd [(User._id u0, Book._id b0);
                                 (Admin._id a0, Book._id b1);
                                 (User._id u0, Book._id b2);
                                 (Admin._id a0, Book._id b3)]))
    by exact Hnd.
  exact (NoDup_map_inv snd _ Hsnd).
Qed.

Lemma seeded_pairs_unique_sample :
  NoDup (review_pairs
           (snd (seedBookReviews SampleAuth.library4 SampleAuth.more_books
                   [Sample.alice; Sample.bob] SampleAuth.admins))).
Proof.
  apply (seeded_pairs_unique SampleAuth.library4
           Sample.dune Sample.emma Sample.ulysses _ [] Sample.alice [Sample.bob]
           _ []).
  vm_compute.
  repeat (constructor; [cbn; intuition discriminate |]). constructor.
Defined.
